(** * The SQLite driver of kivik: revision store, reads, writes and feeds

    A shallow embedding of [x/sqlite] (db.go, views.go, the changes feed,
    sqlite.go and schema.go).  SQL tables are lists of rows in insertion
    order, a statement is a function on the tables, a transaction is a
    working copy that is either committed (returned) or rolled back (the
    store the call started from is returned).

    Integers ([rev], [seq]) are SQLite INTEGERs and Go [int]s, both of 64
    bits; they are modelled as [Z].  The only arithmetic on them is the
    [+ 1] of the next revision number and of the next rowid, which is
    exact below 2^63; the model does not bound them.  TEXT and BLOB values
    are byte strings ([string]); TEXT columns compare with SQLite's
    default BINARY collation, that is byte by byte. *)

From Stdlib Require Import ZArith List String Ascii Bool Lia.
From Stdlib Require Import DecimalString DecimalN DecimalZ Decimal.
From Stdlib Require Import Sorted Permutation.
Import ListNotations.
Local Open Scope string_scope.
Local Open Scope Z_scope.

(* ================================================================== *)
(** * Part I: definitions *)
(* ================================================================== *)

(** ** Errors and results *)

(** Error codes of the SQL engine that the driver tells apart. *)
Inductive sqlite_code : Type :=
  | SQLITE_CONSTRAINT_UNIQUE      (* UNIQUE(id, rev, rev_id) violated *)
  | SQLITE_ALREADY_EXISTS         (* "table/index ... already exists" *)
  | SQLITE_ERROR.                 (* any other statement error *)

(** A Go [error]: either [internal.Error{Status, Message}], an error of
    the SQL engine, or a plain [errors.New]. *)
Inductive error : Type :=
  | Error (Status : Z) (Message : string)
  | SqliteError (code : sqlite_code)
  | PlainError (Message : string).

Inductive result (A : Type) : Type :=
  | Ok (a : A)
  | Err (e : error).
Arguments Ok {A} a.
Arguments Err {A} e.

Definition bind {A B : Type} (r : result A) (k : A -> result B) : result B :=
  match r with
  | Ok a => k a
  | Err e => Err e
  end.

Notation "x <- r ;; k" := (bind r (fun x => k))
  (at level 61, r at next level, right associativity).

Definition StatusBadRequest : Z := 400.
Definition StatusNotFound : Z := 404.
Definition StatusConflict : Z := 409.
Definition StatusPreconditionFailed : Z := 412.

(** ** Decimal text of integers

    [itoa] is what [strconv.Itoa] prints and what SQLite's [||] operator
    makes of an INTEGER operand. *)
Definition itoa (z : Z) : string := NilZero.string_of_int (Z.to_int z).

(** ** crypto/md5 and encoding/hex

    The digest routine the driver calls (RFC 1321), on 32-bit words kept in
    [Z] with the wrap-around written out. *)
Module MD5.

Definition mask32 : Z := 0xffffffff.
Definition add32 (x y : Z) : Z := Z.land (x + y) mask32.
Definition not32 (x : Z) : Z := Z.lxor x mask32.
Definition rotl32 (x : Z) (c : Z) : Z :=
  Z.lor (Z.land (Z.shiftl x c) mask32) (Z.shiftr x (32 - c)).

Definition shifts : list Z :=
  [7; 12; 17; 22; 7; 12; 17; 22; 7; 12; 17; 22; 7; 12; 17; 22;
   5; 9; 14; 20; 5; 9; 14; 20; 5; 9; 14; 20; 5; 9; 14; 20;
   4; 11; 16; 23; 4; 11; 16; 23; 4; 11; 16; 23; 4; 11; 16; 23;
   6; 10; 15; 21; 6; 10; 15; 21; 6; 10; 15; 21; 6; 10; 15; 21].

Definition sines : list Z :=
  [0xd76aa478; 0xe8c7b756; 0x242070db; 0xc1bdceee;
   0xf57c0faf; 0x4787c62a; 0xa8304613; 0xfd469501;
   0x698098d8; 0x8b44f7af; 0xffff5bb1; 0x895cd7be;
   0x6b901122; 0xfd987193; 0xa679438e; 0x49b40821;
   0xf61e2562; 0xc040b340; 0x265e5a51; 0xe9b6c7aa;
   0xd62f105d; 0x02441453; 0xd8a1e681; 0xe7d3fbc8;
   0x21e1cde6; 0xc33707d6; 0xf4d50d87; 0x455a14ed;
   0xa9e3e905; 0xfcefa3f8; 0x676f02d9; 0x8d2a4c8a;
   0xfffa3942; 0x8771f681; 0x6d9d6122; 0xfde5380c;
   0xa4beea44; 0x4bdecfa9; 0xf6bb4b60; 0xbebfbc70;
   0x289b7ec6; 0xeaa127fa; 0xd4ef3085; 0x04881d05;
   0xd9d4d039; 0xe6db99e5; 0x1fa27cf8; 0xc4ac5665;
   0xf4292244; 0x432aff97; 0xab9423a7; 0xfc93a039;
   0x655b59c3; 0x8f0ccc92; 0xffeff47d; 0x85845dd1;
   0x6fa87e4f; 0xfe2ce6e0; 0xa3014314; 0x4e0811a1;
   0xf7537e82; 0xbd3af235; 0x2ad7d2bb; 0xeb86d391].

Definition bytes_of_string (s : string) : list Z :=
  map (fun c => Z.of_N (N_of_ascii c)) (list_ascii_of_string s).

(** The four bytes of a word, least significant first. *)
Definition le_bytes (n : nat) (x : Z) : list Z :=
  map (fun i => Z.land (Z.shiftr x (8 * Z.of_nat i)) 0xff) (seq 0 n).

Fixpoint le_word (bs : list Z) : Z :=
  match bs with
  | [] => 0
  | b :: bs' => b + 256 * le_word bs'
  end.

(** Message padding: one 0x80 byte, zeros up to 56 modulo 64, then the
    bit length as a 64-bit little-endian integer. *)
Definition pad (msg : list Z) : list Z :=
  let len := Z.of_nat (List.length msg) in
  let zeros := Z.to_nat ((55 - len) mod 64) in
  msg ++ [0x80] ++ repeat 0 zeros
      ++ le_bytes 8 (Z.land (8 * len) 0xffffffffffffffff).

Fixpoint chunks (fuel : nat) (n : nat) (bs : list Z) : list (list Z) :=
  match fuel with
  | O => []
  | S fuel' =>
      match bs with
      | [] => []
      | _ => firstn n bs :: chunks fuel' n (skipn n bs)
      end
  end.

Definition words (block : list Z) : list Z :=
  map le_word (chunks 16 4 block).

Record state : Type := mkState { sa : Z; sb : Z; sc : Z; sd : Z }.

Definition init : state :=
  mkState 0x67452301 0xefcdab89 0x98badcfe 0x10325476.

Definition round (M : list Z) (st : state) (i : nat) : state :=
  let '(mkState A B C D) := st in
  let zi := Z.of_nat i in
  let '(F, g) :=
    if zi <? 16 then (Z.lor (Z.land B C) (Z.land (not32 B) D), zi)
    else if zi <? 32 then
      (Z.lor (Z.land D B) (Z.land (not32 D) C), (5 * zi + 1) mod 16)
    else if zi <? 48 then (Z.lxor B (Z.lxor C D), (3 * zi + 5) mod 16)
    else (Z.lxor C (Z.lor B (not32 D)), (7 * zi) mod 16) in
  let F' := add32 (add32 (add32 F A) (nth i sines 0))
                  (nth (Z.to_nat g) M 0) in
  mkState D (add32 B (rotl32 F' (nth i shifts 0))) B C.

Definition block (st : state) (blk : list Z) : state :=
  let st' := fold_left (round (words blk)) (seq 0 64) st in
  mkState (add32 (sa st) (sa st')) (add32 (sb st) (sb st'))
          (add32 (sc st) (sc st')) (add32 (sd st) (sd st')).

(** [md5.Sum]: the sixteen digest bytes. *)
Definition sum (msg : list Z) : list Z :=
  let padded := pad msg in
  let st := fold_left block (chunks (List.length padded) 64 padded) init in
  le_bytes 4 (sa st) ++ le_bytes 4 (sb st)
    ++ le_bytes 4 (sc st) ++ le_bytes 4 (sd st).

Definition hexdigit (n : Z) : ascii :=
  nth (Z.to_nat n) (list_ascii_of_string "0123456789abcdef") "0"%char.

(** [hex.EncodeToString]: two lowercase hexadecimal digits per byte. *)
Fixpoint EncodeToString (bs : list Z) : string :=
  match bs with
  | [] => EmptyString
  | b :: bs' =>
      String (hexdigit (Z.shiftr b 4))
             (String (hexdigit (Z.land b 0xf)) (EncodeToString bs'))
  end.

(** The lowercase hexadecimal MD5 of a byte string. *)
Definition hex (s : string) : string :=
  EncodeToString (sum (bytes_of_string s)).

End MD5.

Arguments MD5.hex : simpl never.
Arguments itoa : simpl never.

(** A double quote, for the JSON texts below. *)
Definition dq : string := String (ascii_of_nat 34) EmptyString.

(** ** Tables (schema.go)

    [schema] creates, for a database [name], the revision tree
    [name_revs], the body table [name] and the attachment table
    [name_attachments].  The attachment table is never read or written by
    the operations below and is left out of the store.

    Whether the connection enforces the FOREIGN KEY clauses is decided by
    the connector, which is not among the files at hand.  The statements
    of [Put] and [Delete] refer to a parent or to a node only after it was
    selected from, or inserted into, the tables, so in a store that keeps
    the foreign key of the body table ([bodies_have_nodes] below) they
    never violate one; the inserts below therefore fail on the UNIQUE
    constraints only. *)

(** A row of [name_revs]: [UNIQUE(id, rev, rev_id)], nullable parent. *)
Record rev_row : Type := mkRevRow {
  r_id : string;
  r_rev : Z;
  r_rev_id : string;
  r_parent_rev : option Z;
  r_parent_rev_id : option string
}.

(** A row of [name]: [seq INTEGER PRIMARY KEY], [UNIQUE(id, rev, rev_id)],
    [doc BLOB NOT NULL], [deleted BOOLEAN NOT NULL DEFAULT FALSE]. *)
Record doc_row : Type := mkDocRow {
  d_seq : Z;
  d_id : string;
  d_rev : Z;
  d_rev_id : string;
  d_doc : string;
  d_deleted : bool
}.

(** The two tables behind a [db] handle. *)
Record store : Type := mkStore {
  revs : list rev_row;
  docs : list doc_row
}.

Definition empty_store : store := mkStore [] [].

(** ** SQL building blocks *)

(** [WHERE id = ? AND rev = ? AND rev_id = ?] on either table. *)
Definition rev_key_is (i : string) (n : Z) (h : string) (r : rev_row) : bool :=
  (r_id r =? i)%string && (r_rev r =? n) && (r_rev_id r =? h)%string.

Definition doc_key_is (i : string) (n : Z) (h : string) (d : doc_row) : bool :=
  (d_id d =? i)%string && (d_rev d =? n) && (d_rev_id d =? h)%string.

(** Comparison of [(rev, rev_id)] pairs: INTEGER order first, then the
    BINARY collation of TEXT. *)
Definition rev_compare (n1 : Z) (h1 : string) (n2 : Z) (h2 : string)
  : comparison :=
  match n1 ?= n2 with
  | Eq => String.compare h1 h2
  | c => c
  end.

(** [ORDER BY]: a stable insertion sort; [leb x y] says that [x] may stand
    before [y]. *)
Fixpoint insert_sorted {A : Type} (leb : A -> A -> bool) (x : A) (l : list A)
  : list A :=
  match l with
  | [] => [x]
  | y :: l' => if leb x y then x :: l else y :: insert_sorted leb x l'
  end.

Definition order_by {A : Type} (leb : A -> A -> bool) (l : list A) : list A :=
  fold_right (insert_sorted leb) [] l.

(** [ORDER BY rev DESC, rev_id DESC] on the body table. *)
Definition doc_desc (x y : doc_row) : bool :=
  match rev_compare (d_rev x) (d_rev_id x) (d_rev y) (d_rev_id y) with
  | Lt => false
  | _ => true
  end.

(** [SELECT ... FROM name WHERE id = $1 ORDER BY rev DESC, rev_id DESC
    LIMIT 1]: the query Put, Get and Delete share.  [None] is
    [sql.ErrNoRows]. *)
Definition select_current (t : list doc_row) (i : string) : option doc_row :=
  hd_error (order_by doc_desc (filter (fun d => (d_id d =? i)%string) t)).

(** [MAX(x)]: NULL ([None]) over no rows. *)
Fixpoint sql_max (l : list Z) : option Z :=
  match l with
  | [] => None
  | x :: l' =>
      match sql_max l' with
      | None => Some x
      | Some m => Some (Z.max x m)
      end
  end.

Fixpoint sql_min (l : list Z) : option Z :=
  match l with
  | [] => None
  | x :: l' =>
      match sql_min l' with
      | None => Some x
      | Some m => Some (Z.min x m)
      end
  end.

(** [COALESCE(x, 0)]. *)
Definition coalesce0 (x : option Z) : Z :=
  match x with
  | Some v => v
  | None => 0
  end.

(** [INSERT INTO name_revs]: fails on [UNIQUE(id, rev, rev_id)]. *)
Definition insert_rev (t : list rev_row) (r : rev_row)
  : result (list rev_row) :=
  if existsb (rev_key_is (r_id r) (r_rev r) (r_rev_id r)) t
  then Err (SqliteError SQLITE_CONSTRAINT_UNIQUE)
  else Ok (t ++ [r])%list.

(** The rowid SQLite gives a new row of an [INTEGER PRIMARY KEY] table:
    one more than the largest in use, 1 in an empty table. *)
Definition next_seq (t : list doc_row) : Z :=
  match sql_max (map d_seq t) with
  | None => 1
  | Some m => m + 1
  end.

(** [INSERT INTO name (id, rev, rev_id, doc, deleted)]: fails on
    [UNIQUE(id, rev, rev_id)], otherwise appends the row under a fresh
    [seq]. *)
Definition insert_doc (t : list doc_row) (i : string) (n : Z) (h : string)
    (body : string) (del : bool) : result (list doc_row) :=
  if existsb (doc_key_is i n h) t
  then Err (SqliteError SQLITE_CONSTRAINT_UNIQUE)
  else Ok (t ++ [mkDocRow (next_seq t) i n h body del])%list.

(** [rev || '-' || rev_id] *)
Definition sql_rev_string (n : Z) (h : string) : string :=
  itoa n ++ "-" ++ h.

(** ** Revisions, options and documents *)

(** Go: [type revision struct { rev int; id string }]. *)
Record revision : Type := mkRevision {
  rev : Z;
  rid : string          (* the field [id] *)
}.

(** Modelled from the spec: the method [revision.String] is not in the
    files at hand.  Section 4.1 gives [format(N, hex) = "<N>-<hex>"]; the
    zero revision, which [Put] compares with an absent [_rev], prints as
    the empty string. *)
Definition revision_String (r : revision) : string :=
  if rev r =? 0 then "" else itoa (rev r) ++ "-" ++ rid r.

(** Splits at the first ['-']. *)
Fixpoint cut_dash (s : string) : option (string * string) :=
  match s with
  | EmptyString => None
  | String c s' =>
      if (c =? "-")%char then Some (EmptyString, s')
      else match cut_dash s' with
           | Some (a, b) => Some (String c a, b)
           | None => None
           end
  end.

(** A decimal numeral of a positive integer: digits, the first not 0. *)
Definition positive_numeral (d : Decimal.uint) : bool :=
  match d with
  | Decimal.Nil => false
  | Decimal.D0 _ => false
  | _ => true
  end.

Definition BadRev : error := Error StatusBadRequest "invalid rev format".

(** Modelled from the spec: [parseRev] is not in the files at hand.
    Section 4.1: [parse("<N>-<hex>") = (N, hex)]; it fails if [N] is not a
    positive integer or the separator is missing. *)
Definition parseRev (s : string) : result revision :=
  match cut_dash s with
  | None => Err BadRev
  | Some (n, h) =>
      match NilEmpty.uint_of_string n with
      | Some d =>
          if positive_numeral d then Ok (mkRevision (Z.of_uint d) h)
          else Err BadRev
      | None => Err BadRev
      end
  end.

(** The options after [options.Apply(opts)], read with the type assertions
    of the source: a string is empty and a flag is false when the key is
    absent.  [new_edits] starts as [true] in [Put]. *)
Record Options : Type := mkOptions {
  opt_rev : string;
  opt_new_edits : bool;
  opt_meta : bool;
  opt_conflicts : bool;
  opt_deleted_conflicts : bool;
  opt_revs_info : bool
}.

Definition NilOption : Options := mkOptions "" true false false false false.
Definition Rev (r : string) : Options := mkOptions r true false false false false.
Definition NewEdits (b : bool) : Options := mkOptions "" b false false false false.

(** The [doc interface{}] argument of [Put], as the write path reads it
    once it is marshalled to JSON: the members [_id], [_rev], [_deleted]
    and [_revisions]; [doc_members], the JSON text of the remaining
    members (keys sorted, as [json.Marshal] writes a map), which is what
    is stored; and [doc_canonical], the canonical JSON text the revision
    id is hashed over (section 4.1: the body without the members whose
    name begins with [_], except [_deleted] and the attachment digests). *)
Record Doc : Type := mkDoc {
  doc_id : string;                            (* "" when absent *)
  doc_rev : string;                           (* "" when absent *)
  doc_deleted : bool;
  doc_revisions : option (Z * list string);   (* start, ids *)
  doc_members : string;
  doc_canonical : string
}.

(** Go: [docData], what [prepareDoc] hands to [Put] and [Delete]. *)
Record docData : Type := mkDocData {
  ID : string;
  DRev : string;        (* the field [Rev]: the generated rev_id *)
  DDoc : string;        (* the field [Doc]: the bytes stored *)
  Deleted : bool
}.

(** Modelled from the spec: [extractRev] is not in the files at hand.
    Section 4.2: "Extract body-level [_rev]". *)
Definition extractRev (doc : Doc) : result string := Ok (doc_rev doc).

(** Modelled from the spec: [prepareDoc] is not in the files at hand.
    Section 4.2: a body [_id] that differs from the document id is a
    BadRequest; sections 3 and 4.1: the generated rev_id is the hexadecimal
    MD5 of the canonical JSON body; the [_deleted] flag of the body is
    persisted. *)
Definition prepareDoc (docID : string) (doc : Doc) : result docData :=
  if negb (doc_id doc =? "")%string && negb (doc_id doc =? docID)%string
  then Err (Error StatusBadRequest "Document ID must match _id in document")
  else Ok (mkDocData docID (MD5.hex (doc_canonical doc)) (doc_members doc)
                     (doc_deleted doc)).

(** ** db.go: Put *)

Definition NotFound : error := Error StatusNotFound "not found".
Definition Conflict : error := Error StatusConflict "conflict".

(** [COALESCE(MAX(rev),0) + 1 FROM name_revs WHERE id = $1] *)
Definition next_rev (t : list rev_row) (i : string) : Z :=
  coalesce0 (sql_max (map r_rev (filter (fun r => (r_id r =? i)%string) t))) + 1.

(** [Put] returns the new revision string or an error, and leaves the
    store committed ([tx.Commit]) or untouched (the deferred
    [tx.Rollback]). *)
Definition Put (s : store) (docID : string) (doc : Doc) (options : Options)
  : result string * store :=
  match extractRev doc with
  | Err e => (Err e, s)
  | Ok docRev0 =>
  let optsRev := opt_rev options in
  if negb (optsRev =? "")%string && negb (docRev0 =? "")%string
     && negb (optsRev =? docRev0)%string
  then (Err (Error StatusBadRequest
               "Document rev and option have different values"), s)
  else
  let docRev :=
    if (docRev0 =? "")%string && negb (optsRev =? "")%string
    then optsRev else docRev0 in
  match prepareDoc docID doc with
  | Err e => (Err e, s)
  | Ok data =>
  if negb (opt_new_edits options) then
    if (docRev =? "")%string
    then (Err (Error StatusBadRequest
      "When `new_edits: false`, the document needs `_rev` or `_revisions` specified"), s)
    else
    match parseRev docRev with
    | Err e => (Err e, s)
    | Ok r =>
        (* INSERT INTO name_revs (id, rev, rev_id): a unique-constraint
           failure is ignored, any other error is returned *)
        match
          match insert_rev (revs s)
                  (mkRevRow docID (rev r) (rid r) None None) with
          | Ok revs1 => Ok revs1
          | Err (SqliteError SQLITE_CONSTRAINT_UNIQUE) => Ok (revs s)
          | Err e => Err e
          end
        with
        | Err e => (Err e, s)
        | Ok revs1 =>
            match insert_doc (docs s) docID (rev r) (rid r)
                    (DDoc data) (Deleted data) with
            | Err (SqliteError SQLITE_CONSTRAINT_UNIQUE) =>
                (* returns before tx.Commit *)
                (Ok docRev, s)
            | Err e => (Err e, s)
            | Ok docs1 =>
                (Ok (sql_rev_string (rev r) (rid r)), mkStore revs1 docs1)
            end
        end
    end
  else
    (* var curRev revision: left at its zero value on sql.ErrNoRows *)
    let curRev :=
      match select_current (docs s) docID with
      | Some d => mkRevision (d_rev d) (d_rev_id d)
      | None => mkRevision 0 ""
      end in
    if negb (revision_String curRev =? docRev)%string
    then (Err Conflict, s)
    else
    let curRevRev := if rev curRev =? 0 then None else Some (rev curRev) in
    let curRevID := if rev curRev =? 0 then None else Some (rid curRev) in
    (* INSERT INTO name_revs ... SELECT $1, COALESCE(MAX(rev),0) + 1, $2,
       $3, $4 ... RETURNING rev, rev_id *)
    match insert_rev (revs s)
            (mkRevRow (ID data) (next_rev (revs s) (ID data)) (DRev data)
                      curRevRev curRevID) with
    | Err e => (Err e, s)
    | Ok revs1 =>
        let r := mkRevision (next_rev (revs s) (ID data)) (DRev data) in
        match insert_doc (docs s) (ID data) (rev r) (rid r)
                (DDoc data) (Deleted data) with
        | Err e => (Err e, s)
        | Ok docs1 => (Ok (revision_String r), mkStore revs1 docs1)
        end
    end
  end
  end.

(** ** db.go: Delete *)

(** The body [{"_deleted": true}]: nothing but the flag to store, and the
    flag alone to hash. *)
Definition deleted_doc : Doc :=
  mkDoc "" "" true None "{}" ("{" ++ dq ++ "_deleted" ++ dq ++ ":true}").

Definition Delete (s : store) (docID : string) (options : Options)
  : result string * store :=
  let docRev := opt_rev options in
  match prepareDoc docID deleted_doc with
  | Err e => (Err e, s)
  | Ok data =>
      match select_current (docs s) (ID data) with
      | None => (Err NotFound, s)
      | Some d =>
          let curRev := mkRevision (d_rev d) (d_rev_id d) in
          if negb (revision_String curRev =? docRev)%string
          then (Err Conflict, s)
          else
          let curRevRev := if rev curRev =? 0 then None else Some (rev curRev) in
          let curRevID := if rev curRev =? 0 then None else Some (rid curRev) in
          match insert_rev (revs s)
                  (mkRevRow (ID data) (next_rev (revs s) (ID data)) (DRev data)
                            curRevRev curRevID) with
          | Err e => (Err e, s)
          | Ok revs1 =>
              let r := mkRevision (next_rev (revs s) (ID data)) (DRev data) in
              (* VALUES ($1, $2, $3, $4, TRUE) *)
              match insert_doc (docs s) (ID data) (rev r) (rid r)
                      (DDoc data) true with
              | Err e => (Err e, s)
              | Ok docs1 => (Ok (revision_String r), mkStore revs1 docs1)
              end
          end
      end
  end.

(** ** db.go: Get *)

(** [driver.Document]: [Rev], and [Body] given as the stored bytes
    together with the members [mergeIntoDoc] splices into them (a helper
    that is not in the files at hand); a member is [None] when its option
    is off. *)
Record Document : Type := mkDocument {
  DocRev : string;
  Body : string;
  Conflicts : option (list string);              (* _conflicts *)
  DeletedConflicts : option (list string);       (* _deleted_conflicts *)
  RevsInfo : option (list (string * string))     (* _revs_info: rev, status *)
}.

(** [a.parent_rev = r.rev AND a.parent_rev_id = r.rev_id AND a.id = r.id];
    a NULL parent matches nothing. *)
Definition parent_of (a r : rev_row) : bool :=
  match r_parent_rev a, r_parent_rev_id a with
  | Some n, Some h => rev_key_is (r_id a) n h r
  | _, _ => false
  end.

(** The method [conflicts]: the other leaves of [id] that have a body row
    with the given [deleted] flag. *)
Definition conflicts (s : store) (i : string) (r : revision) (del : bool)
  : list string :=
  flat_map
    (fun rv =>
       if (r_id rv =? i)%string
          && negb ((r_rev rv =? rev r) && (r_rev_id rv =? rid r)%string)
          && negb (existsb (fun child => parent_of child rv) (revs s))
       then
         map (fun _ => sql_rev_string (r_rev rv) (r_rev_id rv))
             (filter (fun d => doc_key_is (r_id rv) (r_rev rv) (r_rev_id rv) d
                               && Bool.eqb (d_deleted d) del)
                     (docs s))
       else [])
    (revs s).

(** The recursive steps of the [Ancestors] and [Descendants] queries; the
    recursion is cut after as many steps as the table has rows, which a
    tree without cycles never needs. *)
Fixpoint closure (fuel : nat) (step : rev_row -> list rev_row)
    (frontier : list rev_row) : list rev_row :=
  match fuel with
  | O => frontier
  | S fuel' => (frontier ++ closure fuel' step (flat_map step frontier))%list
  end.

Definition node_eq_dec (x y : string * Z * string) : {x = y} + {x <> y}.
Proof. repeat decide equality. Defined.

Definition node_desc (x y : string * Z * string) : bool :=
  let '(_, n1, h1) := x in
  let '(_, n2, h2) := y in
  match rev_compare n1 h1 n2 h2 with
  | Lt => false
  | _ => true
  end.

(** The [revs_info] query: ancestors and descendants of [r], each with the
    status of its body row, [ORDER BY rev DESC, rev_id DESC]. *)
Definition revs_info (s : store) (i : string) (r : revision)
  : list (string * string) :=
  let t := revs s in
  let start := filter (rev_key_is i (rev r) (rid r)) t in
  let Ancestors :=
    closure (List.length t) (fun a => filter (fun p => parent_of a p) t) start in
  let Descendants :=
    closure (List.length t) (fun d => filter (fun c => parent_of c d) t) start in
  let node (x : rev_row) := (r_id x, r_rev x, r_rev_id x) in
  let nodes := nodup node_eq_dec (map node (Ancestors ++ Descendants)) in
  flat_map
    (fun x =>
       let '(xi, xn, xh) := x in
       match filter (doc_key_is xi xn xh) (docs s) with
       | [] => [(sql_rev_string xn xh, "missing")]
       | ds => map (fun d => (sql_rev_string xn xh,
                              if d_deleted d then "deleted" else "available"))
                   ds
       end)
    (order_by node_desc nodes).

Definition Get (s : store) (i : string) (options : Options)
  : result Document :=
  let optsRev := opt_rev options in
  (* r, body (None: sql.ErrNoRows), deleted *)
  match
    (if negb (optsRev =? "")%string then
       match parseRev optsRev with
       | Err e => Err e
       | Ok r =>
           Ok (r,
               option_map d_doc
                 (hd_error (filter (doc_key_is i (rev r) (rid r)) (docs s))),
               false)
       end
     else
       match select_current (docs s) i with
       | Some d => Ok (mkRevision (d_rev d) (d_rev_id d), Some (d_doc d),
                       d_deleted d)
       | None => Ok (mkRevision 0 "", None, false)
       end)
  with
  | Err e => Err e
  | Ok (r, row, deleted) =>
      match row with
      | None => Err NotFound
      | Some body =>
          if deleted then Err NotFound
          else
            let meta := opt_meta options in
            let want_conflicts := meta || opt_conflicts options in
            let want_deleted := meta || opt_deleted_conflicts options in
            let want_info := meta || opt_revs_info options in
            Ok (mkDocument
                  (revision_String r)
                  body
                  (if want_conflicts then Some (conflicts s i r false)
                   else None)
                  (if want_deleted then Some (conflicts s i r true)
                   else None)
                  (if want_info then Some (revs_info s i r) else None))
      end
  end.

(** ** views.go: AllDocs *)

(** [driver.Row] as [rows.Next] fills it: [ID], [Rev], and [Value], the
    JSON object whose member [value.rev] is [Rev]. *)
Record Row : Type := mkRow {
  RowID : string;
  RowRev : string;
  ValueRev : string     (* Value = {"value":{"rev": ValueRev}} *)
}.

(** The cursor of [SELECT id, rev || '-' || rev_id FROM name]. *)
Record rows : Type := mkRows {
  cursor : list (string * string)
}.

Definition AllDocs (s : store) (options : Options) : result rows :=
  Ok (mkRows (map (fun d => (d_id d, sql_rev_string (d_rev d) (d_rev_id d)))
                  (docs s))).

(** [rows.Next]: [None] is [io.EOF]. *)
Definition rows_Next (r : rows) : option Row * rows :=
  match cursor r with
  | [] => (None, r)
  | (i, v) :: rest => (Some (mkRow i v v), mkRows rest)
  end.

(** The rows a caller reads with [Next] until [io.EOF]. *)
Fixpoint rows_collect (fuel : nat) (r : rows) : list Row :=
  match fuel with
  | O => []
  | S fuel' =>
      match rows_Next r with
      | (None, _) => []
      | (Some row, r') => row :: rows_collect fuel' r'
      end
  end.

Definition rows_all (r : rows) : list Row :=
  rows_collect (S (List.length (cursor r))) r.

(** ** The changes feed *)

(** [driver.Change]. *)
Record Change : Type := mkChange {
  ChangeID : string;
  Seq : string;
  ChangeDeleted : bool;
  Changes_ : list string     (* the field [Changes] *)
}.

(** A row of the feed query: [id], [seq], [deleted] (NULL in the summary
    row) and [rev]. *)
Definition feed_row : Type :=
  (option string * option Z * option bool * string)%type.

(** [ORDER BY seq] *)
Definition seq_asc (x y : doc_row) : bool := d_seq x <=? d_seq y.

(** The common table expression [results]: every row of the body table,
    by [seq].  (The query names the table [test], the database of the
    driver's tests; [s] is the store of that database.) *)
Definition results (s : store) : list doc_row := order_by seq_asc (docs s).

(** [COUNT( * ) || '.' || COALESCE(MIN(seq),0) || '.' || COALESCE(MAX(seq),0)] *)
Definition summary (rs : list doc_row) : string :=
  itoa (Z.of_nat (List.length rs)) ++ "."
    ++ itoa (coalesce0 (sql_min (map d_seq rs))) ++ "."
    ++ itoa (coalesce0 (sql_max (map d_seq rs))).

(** The whole query: the summary row, [UNION ALL], the selected rows. *)
Definition changes_query (s : store) : list feed_row :=
  let rs := results s in
  ((None, None, None, summary rs)
   :: map (fun d => (Some (d_id d), Some (d_seq d), Some (d_deleted d),
                     sql_rev_string (d_rev d) (d_rev_id d))) rs)%list.

(** Go: [type changes struct { rows; lastSeq; etag }]; [closed] is the
    state of the cursor, which [rows.Next] closes when it runs out. *)
Record changes : Type := mkChanges {
  feed : list feed_row;
  lastSeq : string;
  etag : string;
  closed : bool
}.

Definition Changes (s : store) (options : Options) : result changes :=
  match changes_query s with
  | [] => Err (PlainError "no rows returned")
  | (_, _, _, summ) :: rest => Ok (mkChanges rest "" (MD5.hex summ) false)
  end.

(** [changes.Next]: [Ok None] is [io.EOF]; scanning NULL into a Go string
    or bool is an error. *)
Definition changes_Next (c : changes) : result (option Change) * changes :=
  match feed c with
  | [] => (Ok None, mkChanges [] (lastSeq c) (etag c) true)
  | (Some i, Some n, Some del, rv) :: rest =>
      (Ok (Some (mkChange i (itoa n) del [rv])),
       mkChanges rest (itoa n) (etag c) (closed c))
  | _ :: rest =>
      (Err (PlainError "converting NULL is unsupported"),
       mkChanges rest (lastSeq c) (etag c) (closed c))
  end.

Definition changes_Close (c : changes) : changes :=
  mkChanges (feed c) (lastSeq c) (etag c) true.

Definition LastSeq (c : changes) : string :=
  if closed c then lastSeq c else "".

Definition ETag (c : changes) : string := etag c.

(** The changes a caller reads with [Next] until [io.EOF] or an error,
    and the feed it is left with. *)
Fixpoint changes_collect (fuel : nat) (c : changes) : list Change * changes :=
  match fuel with
  | O => ([], c)
  | S fuel' =>
      match changes_Next c with
      | (Ok (Some ch), c') =>
          let '(l, c'') := changes_collect fuel' c' in (ch :: l, c'')
      | (_, c') => ([], c')
      end
  end.

Definition changes_all (c : changes) : list Change * changes :=
  changes_collect (S (List.length (feed c))) c.

(** ** sqlite.go: the client *)

Inductive object_type : Type := table | index.

(** A row of [sqlite_schema]. *)
Record schema_row : Type := mkSchemaRow {
  type : object_type;
  name : string;
  tbl_name : string
}.

(** The [sqlite_schema] table of the file a [client] is connected to. *)
Definition client : Type := list schema_row.

Definition is_table (r : schema_row) : bool :=
  match type r with
  | table => true
  | index => false
  end.

Definition lower_ascii (c : ascii) : ascii :=
  let n := N_of_ascii c in
  if ((65 <=? n) && (n <=? 90))%N then ascii_of_N (n + 32) else c.

Fixpoint lower (s : string) : string :=
  match s with
  | EmptyString => EmptyString
  | String c s' => String (lower_ascii c) (lower s')
  end.

(** The [LIKE] operator: [%] matches any run of characters, [_] any one
    character, anything else itself without regard to ASCII case. *)
Fixpoint like (pattern text : string) : bool :=
  match pattern with
  | EmptyString =>
      match text with
      | EmptyString => true
      | _ => false
      end
  | String p pattern' =>
      if (p =? "%")%char then
        (fix any (t : string) : bool :=
           like pattern' t
           || match t with
              | EmptyString => false
              | String _ t' => any t'
              end) text
      else
        match text with
        | EmptyString => false
        | String c text' =>
            ((p =? "_")%char || (lower_ascii p =? lower_ascii c)%char)
            && like pattern' text'
        end
  end.

Definition AllDBs (c : client) : result (list string) :=
  Ok (map name
        (filter (fun r => is_table r && negb (like "sqlite_%" (name r))) c)).

Definition DBExists (c : client) (n : string) : result bool :=
  Ok (existsb (fun r => is_table r && (name r =? n)%string) c).

Definition in_range (lo hi c : ascii) : bool :=
  ((N_of_ascii lo <=? N_of_ascii c) && (N_of_ascii c <=? N_of_ascii hi))%N.

Fixpoint all_chars (p : ascii -> bool) (s : string) : bool :=
  match s with
  | EmptyString => true
  | String c s' => p c && all_chars p s'
  end.

(** [validDBNameRE]: [^[a-z][a-z0-9_$()+/-]*$] *)
Definition validDBNameRE (n : string) : bool :=
  match n with
  | EmptyString => false
  | String c n' =>
      in_range "a" "z" c
      && all_chars
           (fun x => in_range "a" "z" x || in_range "0" "9" x
                     || existsb (Ascii.eqb x)
                          (list_ascii_of_string "_$()+/-"))
           n'
  end.

(** Names of schema objects are compared without regard to case. *)
Definition same_name (a b : string) : bool := (lower a =? lower b)%string.

Definition named (t : object_type) (n : string) (r : schema_row) : bool :=
  match type r, t with
  | table, table | index, index => same_name (name r) n
  | _, _ => false
  end.

(** Names that begin with [sqlite_] are reserved for the engine. *)
Definition reserved (n : string) : bool := prefix "sqlite_" (lower n).

(** [CREATE TABLE n (..., UNIQUE(...))]: the table and the automatic index
    of its UNIQUE constraint. *)
Definition create_table (c : client) (n : string) : result client :=
  if reserved n then Err (SqliteError SQLITE_ERROR)
  else if existsb (named table n) c
  then Err (SqliteError SQLITE_ALREADY_EXISTS)
  else if existsb (named index n) c then Err (SqliteError SQLITE_ERROR)
  else Ok (c ++ [mkSchemaRow table n n;
                 mkSchemaRow index ("sqlite_autoindex_" ++ n ++ "_1") n])%list.

(** [CREATE INDEX i ON t (...)] *)
Definition create_index (c : client) (i t : string) : result client :=
  if negb (existsb (named table t) c) then Err (SqliteError SQLITE_ERROR)
  else if reserved i then Err (SqliteError SQLITE_ERROR)
  else if existsb (named index i) c
  then Err (SqliteError SQLITE_ALREADY_EXISTS)
  else if existsb (named table i) c then Err (SqliteError SQLITE_ERROR)
  else Ok (c ++ [mkSchemaRow index i t])%list.

(** A statement of [schema], with the names [d.query] fills in: [%[1]q] is
    the database name, [%[2]q] the name with [_revs], [%[3]q] the name
    with [_attachments]. *)
Inductive statement : Type :=
  | CreateTable (n : string)
  | CreateIndex (i t : string).

Definition schema (n : string) : list statement :=
  [CreateTable (n ++ "_revs");
   CreateIndex "idx_parent" (n ++ "_revs");
   CreateTable n;
   CreateTable (n ++ "_attachments")].

Definition exec (c : client) (q : statement) : result client :=
  match q with
  | CreateTable n => create_table c n
  | CreateIndex i t => create_index c i t
  end.

(** Modelled from the spec: [errIsAlreadyExists] is not in the files at
    hand.  Section 6: CreateDB fails PreconditionFailed if the tables
    exist. *)
Definition errIsAlreadyExists (e : error) : bool :=
  match e with
  | SqliteError SQLITE_ALREADY_EXISTS => true
  | _ => false
  end.

(** The loop of [CreateDB] over [schema], inside the transaction. *)
Fixpoint run_schema (tx : client) (qs : list statement) : result client :=
  match qs with
  | [] => Ok tx
  | q :: qs' =>
      match exec tx q with
      | Ok tx' => run_schema tx' qs'
      | Err e =>
          if errIsAlreadyExists e
          then Err (Error StatusPreconditionFailed "database already exists")
          else Err e
      end
  end.

Definition CreateDB (c : client) (n : string) : result unit * client :=
  if negb (validDBNameRE n)
  then (Err (Error StatusBadRequest "invalid database name"), c)
  else
    match run_schema c (schema n) with
    | Ok c' => (Ok tt, c')
    | Err e => (Err e, c)
    end.

(** ** The specification's reading, for comparison with the code *)

(** A body row is a leaf when its revision node has no child (glossary:
    "a revision with no children in the revision tree"). *)
Definition is_leaf (s : store) (d : doc_row) : bool :=
  existsb
    (fun rv =>
       rev_key_is (d_id d) (d_rev d) (d_rev_id d) rv
       && negb (existsb (fun child => parent_of child rv) (revs s)))
    (revs s).

(** Section 4.3, winner selection: among the leaves of the document,
    prefer those whose body is not deleted, then the highest [rev], then
    the highest [rev_id]; with every leaf deleted the document is
    absent. *)
Definition spec_winner (s : store) (i : string) : option doc_row :=
  hd_error
    (order_by doc_desc
       (filter (fun d => (d_id d =? i)%string && is_leaf s d
                         && negb (d_deleted d))
               (docs s))).

(** Section 4.5: the text [<count>.<min_seq>.<max_seq>] over the selected
    rows, with 0 for the minimum and the maximum of no rows. *)
Definition min_seq (rs : list doc_row) : Z :=
  match map d_seq rs with
  | [] => 0
  | x :: l => fold_left Z.min l x
  end.

Definition max_seq (rs : list doc_row) : Z :=
  match map d_seq rs with
  | [] => 0
  | x :: l => fold_left Z.max l x
  end.

Definition spec_etag (rs : list doc_row) : string :=
  MD5.hex (itoa (Z.of_nat (List.length rs)) ++ "." ++ itoa (min_seq rs)
             ++ "." ++ itoa (max_seq rs)).

(** ** Forms of the write path used in the proofs *)

(** The revision [curRev] holds after the winner query of [Put]; the zero
    revision on [sql.ErrNoRows]. *)
Definition current_revision (t : list doc_row) (i : string) : revision :=
  match select_current t i with
  | Some d => mkRevision (d_rev d) (d_rev_id d)
  | None => mkRevision 0 ""
  end.

(** The two inserts that [Put] (new_edits=true) and [Delete] both end
    with, named for the proofs: the revision node is a child of [curRev]
    (a root when [curRev] is the zero revision), the body row follows; any
    error returns before [tx.Commit]. *)
Definition insert_child (s : store) (data : docData) (curRev : revision)
    (del : bool) : result string * store :=
  let curRevRev := if rev curRev =? 0 then None else Some (rev curRev) in
  let curRevID := if rev curRev =? 0 then None else Some (rid curRev) in
  let n := next_rev (revs s) (ID data) in
  match insert_rev (revs s)
          (mkRevRow (ID data) n (DRev data) curRevRev curRevID) with
  | Err e => (Err e, s)
  | Ok revs1 =>
      let r := mkRevision n (DRev data) in
      match insert_doc (docs s) (ID data) (rev r) (rid r) (DDoc data) del with
      | Err e => (Err e, s)
      | Ok docs1 => (Ok (revision_String r), mkStore revs1 docs1)
      end
  end.

(** ** Invariants of the store *)

(** The foreign key of the body table: every body row has its revision
    node. *)
Definition bodies_have_nodes (s : store) : Prop :=
  forall d, In d (docs s) ->
    existsb (rev_key_is (d_id d) (d_rev d) (d_rev_id d)) (revs s) = true.

(** Section 3: [rev] is a positive integer. *)
Definition nodes_positive (s : store) : Prop :=
  forall r, In r (revs s) -> 0 < r_rev r.

(** Section 4.2: the body-level [_rev] or the option-level [rev],
    whichever is set, is the effective [doc_rev]. *)
Definition effective_rev (doc : Doc) (options : Options) : string :=
  if (doc_rev doc =? "")%string then opt_rev options else doc_rev doc.

(** [UNIQUE(id, rev, rev_id)] on the body table. *)
Definition doc_key (d : doc_row) : string * Z * string :=
  (d_id d, d_rev d, d_rev_id d).

Definition body_keys_unique (s : store) : Prop :=
  NoDup (map doc_key (docs s)).

(** The stores the write operations produce from an empty database. *)
Inductive reachable : store -> Prop :=
  | reach_empty : reachable empty_store
  | reach_Put (s : store) (docID : string) (doc : Doc) (options : Options) :
      reachable s -> reachable (snd (Put s docID doc options))
  | reach_Delete (s : store) (docID : string) (options : Options) :
      reachable s -> reachable (snd (Delete s docID options)).

(** What a write leaves behind: nothing, or one new body row together
    with its revision node, which is either new too or was there
    before. *)
Definition appended (s s' : store) : Prop :=
  s' = s
  \/ exists i n h body del,
       docs s' = (docs s ++ [mkDocRow (next_seq (docs s)) i n h body del])%list
       /\ existsb (doc_key_is i n h) (docs s) = false
       /\ existsb (rev_key_is i n h) (revs s') = true
       /\ (revs s' = revs s
           \/ exists pr pri,
                revs s' = (revs s ++ [mkRevRow i n h pr pri])%list
                /\ (nodes_positive s -> 0 < n)).

(** ** Documents and stores used in the examples *)

(** A JSON string literal without characters that need escaping. *)
Definition q (x : string) : string := dq ++ x ++ dq.

(** [{"k":"v"}] *)
Definition member (k v : string) : string := "{" ++ q k ++ ":" ++ q v ++ "}".

(** A body with the given [_rev] ("" for none) and members, without
    [_id], [_deleted] or [_revisions]: its canonical text is the text of
    its members. *)
Definition plain (r : string) (members : string) : Doc :=
  mkDoc "" r false None members members.

(** Two conflicting roots written by replication: [1-aaa] with a live
    body, then [1-xxx] with a deleted body. *)
Definition two_branches : store :=
  snd (Put (snd (Put empty_store "foo"
                     (plain "1-aaa" (member "cat" "purr"))
                     (NewEdits false)))
           "foo" (mkDoc "" "1-xxx" true None "{}" (doc_canonical deleted_doc))
           (NewEdits false)).

(** The store after [Put("foo", {"foo":"bar"})] on an empty database. *)
Definition one_doc : store :=
  snd (Put empty_store "foo" (plain "" (member "foo" "bar"))
           NilOption).

(** Section 4.5: the change a selected row is delivered as. *)
Definition change_of_row (d : doc_row) : Change :=
  mkChange (d_id d) (itoa (d_seq d)) (d_deleted d)
           [sql_rev_string (d_rev d) (d_rev_id d)].

(** The row of the index a body row is delivered as. *)
Definition row_of_doc (d : doc_row) : Row :=
  mkRow (d_id d) (sql_rev_string (d_rev d) (d_rev_id d))
        (sql_rev_string (d_rev d) (d_rev_id d)).

(** [Put("foo", {"cat":"meow"})], then the update to [{"cat":"purr"}]
    under the revision the first write returned. *)
Definition two_revisions : store :=
  snd (Put (snd (Put empty_store "foo"
                     (plain "" (member "cat" "meow")) NilOption))
           "foo" (plain "" (member "cat" "purr"))
           (Rev "1-274558516009acbe973682d27a58b598")).

(** [Put("foo", {"cat":"meow"})], then its Delete. *)
Definition deleted_cat : store :=
  snd (Delete (snd (Put empty_store "foo"
                        (plain "" (member "cat" "meow"))
                        NilOption))
              "foo" (Rev "1-274558516009acbe973682d27a58b598")).

(** [Put("cat", ...)], [Put("_local/dog", ...)], [Put("cow", ...)], the
    setup of the test "local docs excluded". *)
Definition with_local_doc : store :=
  snd (Put (snd (Put (snd (Put empty_store "cat"
                               (plain "" (member "cat" "meow"))
                               NilOption))
                     "_local/dog"
                     (plain "" (member "dog" "woof")) NilOption))
           "cow" (plain "" (member "cow" "moo")) NilOption).

(** The body of the test "new_edits=false, with _revisions":
    [{"_revisions":{"start":3,"ids":["ghi","def","abc"]},"foo":"bar"}]. *)
Definition doc_with_revisions : Doc :=
  mkDoc "" "" false (Some (3, ["ghi"; "def"; "abc"])) (member "foo" "bar")
        (member "foo" "bar").

(** The same body with [_rev] given as well. *)
Definition doc_with_revisions_and_rev : Doc :=
  mkDoc "" "3-ghi" false (Some (3, ["ghi"; "def"; "abc"])) (member "foo" "bar")
        (member "foo" "bar").

(** ** sqlite.go: DestroyDB *)

(** What [DROP TABLE "n"] does to [sqlite_schema]: the table goes with
    the indexes on it; a name that is no table is an error, and so is a
    table of the engine itself: the schema table, under any of its names,
    and every table whose name begins with [sqlite_], those of ANALYZE
    ([sqlite_stat...]) and [sqlite_parameters] apart. *)
Inductive drop_result : Type :=
  | Dropped (c : client)
  | NoSuchTable
  | MayNotBeDropped.

Definition schema_table (n : string) : bool :=
  existsb (same_name n)
    ["sqlite_schema"; "sqlite_master"; "sqlite_temp_schema";
     "sqlite_temp_master"].

Definition may_be_dropped (n : string) : bool :=
  negb (reserved n)
  || prefix "sqlite_stat" (lower n)
  || prefix "sqlite_parameters" (lower n).

Definition drop_table (c : client) (n : string) : drop_result :=
  if schema_table n then MayNotBeDropped
  else if negb (existsb (named table n) c) then NoSuchTable
  else if may_be_dropped n
  then Dropped (filter (fun r => negb (same_name (tbl_name r) n)) c)
  else MayNotBeDropped.

(** [DestroyDB] drops the one table [name], outside any transaction.
    Modelled from the spec: [errIsNoSuchTable] is not in the files at
    hand; section 6: NotFound if the primary table is absent. *)
Definition DestroyDB (c : client) (n : string) : result unit * client :=
  if negb (validDBNameRE n)
  then (Err (Error StatusBadRequest "invalid database name"), c)
  else
    match drop_table c n with
    | Dropped c' => (Ok tt, c')
    | NoSuchTable => (Err (Error StatusNotFound "database not found"), c)
    | MayNotBeDropped => (Err (SqliteError SQLITE_ERROR), c)
    end.

(** ** The shape of the stores the writes produce *)

Definition rev_key (r : rev_row) : string * Z * string :=
  (r_id r, r_rev r, r_rev_id r).

(** Every revision node has a body row. *)
Definition nodes_have_bodies (s : store) : Prop :=
  forall r, In r (revs s) ->
    existsb (doc_key_is (r_id r) (r_rev r) (r_rev_id r)) (docs s) = true.

(** [UNIQUE(id, rev, rev_id)] on the revision tree. *)
Definition node_keys_unique (s : store) : Prop :=
  NoDup (map rev_key (revs s)).

(** The sequence numbers are positive and grow along the body table. *)
Definition seqs_increasing (s : store) : Prop :=
  StronglySorted Z.lt (0 :: map d_seq (docs s)).

(** A node is a root, with both parent columns NULL, or the child of a
    node of the same document whose [rev] is one less. *)
Definition is_root (r : rev_row) : Prop :=
  r_parent_rev r = None /\ r_parent_rev_id r = None.

Definition has_parent (s : store) (r : rev_row) : Prop :=
  exists h,
    r_parent_rev r = Some (r_rev r - 1)
    /\ r_parent_rev_id r = Some h
    /\ existsb (rev_key_is (r_id r) (r_rev r - 1) h) (revs s) = true.

Definition tree_shaped (s : store) : Prop :=
  forall r, In r (revs s) -> is_root r \/ has_parent s r.

Record well_formed (s : store) : Prop := mkWellFormed {
  wf_bodies_have_nodes : bodies_have_nodes s;
  wf_nodes_have_bodies : nodes_have_bodies s;
  wf_nodes_positive : nodes_positive s;
  wf_body_keys_unique : body_keys_unique s;
  wf_node_keys_unique : node_keys_unique s;
  wf_seqs_increasing : seqs_increasing s;
  wf_tree_shaped : tree_shaped s
}.

(** The body row a write appends. *)
Definition new_body (s : store) (i : string) (n : Z) (h body : string)
    (del : bool) : doc_row :=
  mkDocRow (next_seq (docs s)) i n h body del.

(** What a call of [Put] or [Delete] commits: nothing; a body row for a
    node that was there; a root node with its body row (new_edits=false);
    or a child of the current revision with its body row. *)
Inductive commit (s : store) : store -> Prop :=
  | commit_nothing : commit s s
  | commit_body (i : string) (n : Z) (h body : string) (del : bool) :
      existsb (rev_key_is i n h) (revs s) = true ->
      existsb (doc_key_is i n h) (docs s) = false ->
      commit s (mkStore (revs s) (docs s ++ [new_body s i n h body del]))
  | commit_root (i : string) (n : Z) (h body : string) (del : bool) :
      0 < n ->
      existsb (rev_key_is i n h) (revs s) = false ->
      existsb (doc_key_is i n h) (docs s) = false ->
      commit s (mkStore (revs s ++ [mkRevRow i n h None None])
                        (docs s ++ [new_body s i n h body del]))
  | commit_child (i h body : string) (del : bool) :
      existsb (doc_key_is i (next_rev (revs s) i) h) (docs s) = false ->
      commit s
        (mkStore
           (revs s ++
              [mkRevRow i (next_rev (revs s) i) h
                 (if rev (current_revision (docs s) i) =? 0 then None
                  else Some (rev (current_revision (docs s) i)))
                 (if rev (current_revision (docs s) i) =? 0 then None
                  else Some (rid (current_revision (docs s) i)))])
           (docs s ++ [new_body s i (next_rev (revs s) i) h body del])).

(** The nodes of the [revs_info] query before the join with the body
    table, in the order of the result. *)
Definition revs_info_nodes (s : store) (i : string) (r : revision)
  : list (string * Z * string) :=
  let t := revs s in
  let start := filter (rev_key_is i (rev r) (rid r)) t in
  order_by node_desc
    (nodup node_eq_dec
       (map (fun x => (r_id x, r_rev x, r_rev_id x))
            (closure (List.length t)
                     (fun a => filter (fun p => parent_of a p) t) start
             ++ closure (List.length t)
                        (fun d => filter (fun c => parent_of c d) t) start))).

(** The rows of [_revs_info] for one node: its status in the body
    table. *)
Definition revs_info_status (s : store) (x : string * Z * string)
  : list (string * string) :=
  let '(xi, xn, xh) := x in
  match filter (doc_key_is xi xn xh) (docs s) with
  | [] => [(sql_rev_string xn xh, "missing")]
  | ds => map (fun d => (sql_rev_string xn xh,
                         if d_deleted d then "deleted" else "available"))
              ds
  end.

(** ** The store after an interactive write *)

(** The node [Put] (new_edits=true) and [Delete] insert: the child of the
    current revision, a root when the document has no body row. *)
Definition child_node (s : store) (i h : string) : rev_row :=
  mkRevRow i (next_rev (revs s) i) h
    (if rev (current_revision (docs s) i) =? 0 then None
     else Some (rev (current_revision (docs s) i)))
    (if rev (current_revision (docs s) i) =? 0 then None
     else Some (rid (current_revision (docs s) i))).

(** The store such a write commits. *)
Definition with_child (s : store) (i h body : string) (del : bool) : store :=
  mkStore (revs s ++ [child_node s i h])
          (docs s ++ [new_body s i (next_rev (revs s) i) h body del]).

(** ** Stores written without replication *)

(** The stores that [Put] with new_edits=true and [Delete] produce from
    an empty database: no write with new_edits=false has taken place. *)
Inductive interactive : store -> Prop :=
  | inter_empty : interactive empty_store
  | inter_Put (s : store) (docID : string) (doc : Doc) (options : Options) :
      interactive s -> opt_new_edits options = true ->
      interactive (snd (Put s docID doc options))
  | inter_Delete (s : store) (docID : string) (options : Options) :
      interactive s -> interactive (snd (Delete s docID options)).

(** Every node but the current revision of its document has a child:
    the revisions of a document form one line. *)
Definition linear (s : store) : Prop :=
  forall rv, In rv (revs s) ->
    (r_rev rv = rev (current_revision (docs s) (r_id rv))
     /\ r_rev_id rv = rid (current_revision (docs s) (r_id rv)))
    \/ existsb (fun child => parent_of child rv) (revs s) = true.

(** ** What a write may do to the store *)

(** Append at most one node and at most one body row, both of the
    document written, the body row under the next [seq]; a node is never
    added without its body row, and no row that was there is changed or
    removed. *)
Definition appends (s s' : store) (docID : string) : Prop :=
  exists (l1 : list rev_row) (l2 : list doc_row),
    revs s' = (revs s ++ l1)%list /\ docs s' = (docs s ++ l2)%list
    /\ (List.length l1 <= List.length l2 <= 1)%nat
    /\ (forall r, In r l1 -> r_id r = docID)
    /\ (forall d, In d l2 -> d_id d = docID /\ d_seq d = next_seq (docs s)).

(* ================================================================== *)
(** * Part II: properties *)
(* ================================================================== *)

Example md5_empty : MD5.hex "" = "d41d8cd98f00b204e9800998ecf8427e".
Proof. vm_compute. reflexivity. Qed.

Example md5_summary_empty_feed : MD5.hex "0.0.0" = "c7ba27130f956748671e845893fd6b80".
Proof. vm_compute. reflexivity. Qed.

Example md5_foo_bar :
  MD5.hex ("{" ++ dq ++ "foo" ++ dq ++ ":" ++ dq ++ "bar" ++ dq ++ "}")
  = "9bb58f26192e4ba00f01e2e7b136bbd8".
Proof. vm_compute. reflexivity. Qed.

(** ** Ordering *)

Section OrderBy.
Context {A : Type} (leb : A -> A -> bool).
Hypothesis leb_total : forall x y, leb x y = true \/ leb y x = true.
Hypothesis leb_trans :
  forall x y z, leb x y = true -> leb y z = true -> leb x z = true.

Lemma insert_sorted_In (x y : A) (l : list A) :
  In y (insert_sorted leb x l) <-> y = x \/ In y l.
Proof.
  induction l as [|h t IH]; simpl.
  - intuition.
  - destruct (leb x h); simpl; [intuition|]. rewrite IH. intuition.
Qed.

Lemma order_by_In (y : A) (l : list A) : In y (order_by leb l) <-> In y l.
Proof.
  induction l as [|h t IH]; simpl; [tauto|].
  rewrite insert_sorted_In, IH. intuition.
Qed.

Lemma order_by_nil (l : list A) : order_by leb l = [] -> l = [].
Proof.
  destruct l as [|h t]; [reflexivity|]. intros E.
  assert (In h (order_by leb (h :: t))) as H
    by (apply order_by_In; left; reflexivity).
  rewrite E in H. destruct H.
Qed.

(** The first row of an [ORDER BY] stands before every row. *)
Lemma order_by_hd (l : list A) (w : A) :
  hd_error (order_by leb l) = Some w ->
  In w l /\ forall y, In y l -> leb w y = true.
Proof.
  revert w. induction l as [|x l IH]; intros w; simpl; [discriminate|].
  destruct (order_by leb l) as [|h t] eqn:E; simpl.
  - apply order_by_nil in E. subst l. intros [= <-]. split; [now left|].
    intros y [<-|[]]. destruct (leb_total x x); assumption.
  - destruct (IH h eq_refl) as [Hin Hdom].
    destruct (leb x h) eqn:Hxh; simpl; intros [= <-].
    + split; [now left|]. intros y [<-|Hy].
      * destruct (leb_total x x); assumption.
      * apply leb_trans with h; auto.
    + split; [now right|]. intros y [<-|Hy]; auto.
      destruct (leb_total h x) as [H|H]; [exact H|congruence].
Qed.

Lemma order_by_hd_some (l : list A) :
  l <> [] -> exists w, hd_error (order_by leb l) = Some w.
Proof.
  intros Hl. destruct (order_by leb l) as [|h t] eqn:E.
  - apply order_by_nil in E. contradiction.
  - exists h. reflexivity.
Qed.

Lemma order_by_length (l : list A) :
  List.length (order_by leb l) = List.length l.
Proof.
  induction l as [|x l IH]; simpl; [reflexivity|]. rewrite <- IH.
  generalize (order_by leb l). intros m.
  induction m as [|h t IHm]; simpl; [reflexivity|].
  destruct (leb x h); simpl; [reflexivity|]. now rewrite IHm.
Qed.
End OrderBy.

Lemma ascii_compare_refl (a : ascii) : Ascii.compare a a = Eq.
Proof. unfold Ascii.compare. apply N.compare_refl. Qed.

Lemma ascii_compare_lt_trans (a b c : ascii) :
  Ascii.compare a b = Lt -> Ascii.compare b c = Lt -> Ascii.compare a c = Lt.
Proof. unfold Ascii.compare. rewrite !N.compare_lt_iff. lia. Qed.

Lemma string_compare_refl (a : string) : String.compare a a = Eq.
Proof.
  induction a as [|c a IH]; simpl; [reflexivity|].
  now rewrite ascii_compare_refl.
Qed.

Lemma string_compare_lt_trans (a b c : string) :
  String.compare a b = Lt -> String.compare b c = Lt -> String.compare a c = Lt.
Proof.
  revert b c. induction a as [|x a IH]; intros [|y b] [|z c]; simpl;
    try discriminate; try reflexivity.
  destruct (Ascii.compare x y) eqn:Exy; try discriminate;
    destruct (Ascii.compare y z) eqn:Eyz; try discriminate; intros H1 H2.
  - apply Ascii.compare_eq_iff in Exy, Eyz. subst.
    rewrite ascii_compare_refl. eauto.
  - apply Ascii.compare_eq_iff in Exy. subst. now rewrite Eyz.
  - apply Ascii.compare_eq_iff in Eyz. subst. now rewrite Exy.
  - now rewrite (ascii_compare_lt_trans _ _ _ Exy Eyz).
Qed.

Lemma rev_compare_refl (n : Z) (h : string) : rev_compare n h n h = Eq.
Proof. unfold rev_compare. rewrite Z.compare_refl. apply string_compare_refl. Qed.

Lemma rev_compare_eq (n1 : Z) (h1 : string) (n2 : Z) (h2 : string) :
  rev_compare n1 h1 n2 h2 = Eq -> n1 = n2 /\ h1 = h2.
Proof.
  unfold rev_compare. destruct (n1 ?= n2) eqn:E; try discriminate.
  intros H. apply Z.compare_eq in E. apply String.compare_eq_iff in H. auto.
Qed.

Lemma rev_compare_antisym (n1 : Z) (h1 : string) (n2 : Z) (h2 : string) :
  rev_compare n1 h1 n2 h2 = CompOpp (rev_compare n2 h2 n1 h1).
Proof.
  unfold rev_compare. rewrite (Z.compare_antisym n1 n2).
  destruct (n1 ?= n2); simpl; auto using String.compare_antisym.
Qed.

Lemma rev_compare_lt_trans n1 h1 n2 h2 n3 h3 :
  rev_compare n1 h1 n2 h2 = Lt -> rev_compare n2 h2 n3 h3 = Lt ->
  rev_compare n1 h1 n3 h3 = Lt.
Proof.
  unfold rev_compare.
  destruct (n1 ?= n2) eqn:E12; try discriminate;
    destruct (n2 ?= n3) eqn:E23; try discriminate; intros H1 H2.
  - apply Z.compare_eq in E12, E23. subst. rewrite Z.compare_refl.
    eapply string_compare_lt_trans; eauto.
  - apply Z.compare_eq in E12. subst. now rewrite E23.
  - apply Z.compare_eq in E23. subst. now rewrite E12.
  - rewrite Z.compare_lt_iff in E12, E23.
    assert (n1 < n3) as H by lia. rewrite <- Z.compare_lt_iff in H.
    now rewrite H.
Qed.

Lemma doc_desc_total (x y : doc_row) :
  doc_desc x y = true \/ doc_desc y x = true.
Proof.
  unfold doc_desc. rewrite (rev_compare_antisym (d_rev y)).
  destruct (rev_compare (d_rev x) (d_rev_id x) (d_rev y) (d_rev_id y));
    simpl; auto.
Qed.

Lemma doc_desc_trans (x y z : doc_row) :
  doc_desc x y = true -> doc_desc y z = true -> doc_desc x z = true.
Proof.
  unfold doc_desc. intros Hxy Hyz.
  destruct (rev_compare (d_rev x) (d_rev_id x) (d_rev z) (d_rev_id z)) eqn:Exz;
    try reflexivity.
  (* x < z would need x < y or y < z *)
  destruct (rev_compare (d_rev x) (d_rev_id x) (d_rev y) (d_rev_id y)) eqn:Exy;
    try discriminate.
  - apply rev_compare_eq in Exy as [E1 E2]. rewrite E1, E2 in Exz.
    now rewrite Exz in Hyz.
  - destruct (rev_compare (d_rev y) (d_rev_id y) (d_rev z) (d_rev_id z)) eqn:Eyz;
      try discriminate.
    + apply rev_compare_eq in Eyz as [E1 E2]. rewrite E1, E2 in Exy.
      congruence.
    + rewrite rev_compare_antisym in Eyz.
      destruct (rev_compare (d_rev z) (d_rev_id z) (d_rev y) (d_rev_id y)) eqn:Ezy;
        try discriminate.
      pose proof (rev_compare_lt_trans _ _ _ _ _ _ Exz Ezy) as H. congruence.
Qed.

(** What the query shared by Put, Get and Delete selects: a body row of
    the document that no other body row of the document exceeds in
    [(rev, rev_id)]. *)
Lemma select_current_spec (t : list doc_row) (i : string) (w : doc_row) :
  select_current t i = Some w ->
  In w t /\ d_id w = i /\
  forall d, In d t -> d_id d = i ->
    rev_compare (d_rev d) (d_rev_id d) (d_rev w) (d_rev_id w) <> Gt.
Proof.
  unfold select_current. intros H.
  apply (order_by_hd doc_desc doc_desc_total doc_desc_trans) in H
    as [Hin Hdom].
  apply filter_In in Hin as [Hin Hid]. apply String.eqb_eq in Hid.
  repeat split; auto. intros d Hd Hdi.
  assert (doc_desc w d = true) as Hwd.
  { apply Hdom. apply filter_In. split; auto. now apply String.eqb_eq. }
  unfold doc_desc in Hwd. rewrite rev_compare_antisym.
  destruct (rev_compare (d_rev w) (d_rev_id w) (d_rev d) (d_rev_id d));
    simpl; congruence.
Qed.

Lemma select_current_none (t : list doc_row) (i : string) :
  select_current t i = None <-> forall d, In d t -> d_id d <> i.
Proof.
  unfold select_current. split.
  - intros H d Hd Hi.
    destruct (order_by doc_desc (filter (fun d => (d_id d =? i)%string) t))
      eqn:E; [|discriminate].
    apply order_by_nil in E.
    assert (In d (filter (fun d => (d_id d =? i)%string) t)) as Hf
      by (apply filter_In; split; auto; now apply String.eqb_eq).
    rewrite E in Hf. destruct Hf.
  - intros H.
    destruct (filter (fun d => (d_id d =? i)%string) t) as [|d l] eqn:E;
      [reflexivity|].
    assert (In d (filter (fun d => (d_id d =? i)%string) t)) as Hf
      by (rewrite E; now left).
    apply filter_In in Hf as [Hd Hi]. apply String.eqb_eq in Hi.
    now elim (H d Hd).
Qed.

Lemma select_current_some (t : list doc_row) (i : string) (d : doc_row) :
  In d t -> d_id d = i -> exists w, select_current t i = Some w.
Proof.
  intros Hd Hi. destruct (select_current t i) as [w|] eqn:E; [eauto|].
  rewrite select_current_none in E. now elim (E d Hd).
Qed.

(** ** The revision codec *)

Lemma cut_dash_append (s a b : string) :
  cut_dash s = Some (a, b) -> s = a ++ "-" ++ b.
Proof.
  revert a b. induction s as [|c s IH]; simpl; intros a b; [discriminate|].
  destruct (Ascii.eqb_spec c "-") as [->|Hc].
  - intros [= <- <-]. reflexivity.
  - destruct (cut_dash s) as [[a' b']|]; [|discriminate].
    intros [= <- <-]. simpl. now rewrite (IH a' b' eq_refl).
Qed.

Lemma positive_numeral_unorm (d : Decimal.uint) :
  positive_numeral d = true -> Decimal.unorm d = d.
Proof. destruct d; simpl; intros H; try discriminate; reflexivity. Qed.

Lemma positive_numeral_pos (d : Decimal.uint) :
  positive_numeral d = true -> 0 < Z.of_uint d.
Proof.
  intros H. unfold Z.of_uint.
  destruct (Pos.of_uint d) as [|p] eqn:E; [|reflexivity].
  pose proof (DecimalPos.Unsigned.to_of d) as T. rewrite E in T.
  rewrite (positive_numeral_unorm d H) in T. subst d. discriminate.
Qed.

Lemma positive_numeral_itoa (d : Decimal.uint) :
  positive_numeral d = true ->
  itoa (Z.of_uint d) = NilEmpty.string_of_uint d.
Proof.
  intros H. unfold itoa.
  change (Z.of_uint d) with (Z.of_int (Decimal.Pos d)).
  rewrite DecimalZ.to_of. simpl. rewrite (positive_numeral_unorm d H).
  destruct d; simpl in *; try discriminate; reflexivity.
Qed.

(** Parsing is the inverse of printing: an accepted revision string is
    the text of the revision it yields, whose [rev] is positive. *)
Lemma parseRev_ok (s : string) (r : revision) :
  parseRev s = Ok r ->
  0 < rev r /\ sql_rev_string (rev r) (rid r) = s /\ revision_String r = s.
Proof.
  unfold parseRev. destruct (cut_dash s) as [[n h]|] eqn:Ecut; [|discriminate].
  destruct (NilEmpty.uint_of_string n) as [d|] eqn:En; [|discriminate].
  destruct (positive_numeral d) eqn:Ed; [|discriminate].
  intros [= <-]. simpl.
  pose proof (positive_numeral_pos d Ed) as Hpos.
  assert (sql_rev_string (Z.of_uint d) h = s) as Hs.
  { unfold sql_rev_string. rewrite (positive_numeral_itoa d Ed).
    rewrite (NilEmpty.sus n d En). symmetry. now apply cut_dash_append. }
  repeat split; auto.
  unfold revision_String. simpl.
  destruct (Z.eqb_spec (Z.of_uint d) 0) as [E|_]; [lia|exact Hs].
Qed.

(** ** Keys of the body table *)

Lemma doc_key_is_iff (i : string) (n : Z) (h : string) (d : doc_row) :
  doc_key_is i n h d = true <-> doc_key d = (i, n, h).
Proof.
  unfold doc_key_is, doc_key. rewrite !andb_true_iff, !String.eqb_eq, Z.eqb_eq.
  split; [intros [[-> ->] ->]; reflexivity | intros [= -> -> ->]; auto].
Qed.

Lemma rev_key_is_iff (i : string) (n : Z) (h : string) (r : rev_row) :
  rev_key_is i n h r = true <-> r_id r = i /\ r_rev r = n /\ r_rev_id r = h.
Proof.
  unfold rev_key_is. rewrite !andb_true_iff, !String.eqb_eq, Z.eqb_eq. tauto.
Qed.

(** With [UNIQUE(id, rev, rev_id)] the query by key finds the one row
    that carries the key. *)
Lemma select_by_key_unique (t : list doc_row) (i : string) (n : Z)
    (h : string) (d : doc_row) :
  NoDup (map doc_key t) -> In d t -> doc_key d = (i, n, h) ->
  hd_error (filter (doc_key_is i n h) t) = Some d.
Proof.
  induction t as [|x t IH]; simpl; intros Hnd Hin Hk; [destruct Hin|].
  inversion Hnd as [|k ks Hx Hnd']; subst.
  destruct Hin as [->|Hin].
  - apply doc_key_is_iff in Hk. now rewrite Hk.
  - destruct (doc_key_is i n h x) eqn:Ex.
    + apply doc_key_is_iff in Ex. elim Hx. rewrite Ex, <- Hk.
      now apply in_map.
    + auto.
Qed.

Lemma select_by_key_none (t : list doc_row) (i : string) (n : Z) (h : string) :
  (forall d, In d t -> doc_key d <> (i, n, h)) ->
  hd_error (filter (doc_key_is i n h) t) = None.
Proof.
  intros H. destruct (filter (doc_key_is i n h) t) as [|d l] eqn:E;
    [reflexivity|].
  assert (In d (filter (doc_key_is i n h) t)) as Hd by (rewrite E; now left).
  apply filter_In in Hd as [Hd Hk]. apply doc_key_is_iff in Hk.
  now elim (H d Hd).
Qed.

(** ** Get *)

(** C1, as the specification words it, fails on the code: in a store with
    the live leaf 1-aaa and the deleted leaf 1-xxx the specification's
    winner is the live 1-aaa, but Get without a rev answers NotFound. *)
Lemma Get_winner_counterexample :
  spec_winner two_branches "foo"
    = Some (mkDocRow 1 "foo" 1 "aaa" (member "cat" "purr") false)
  /\ Get two_branches "foo" NilOption = Err NotFound.
Proof. split; vm_compute; reflexivity. Qed.

(** C1, amended: for a document with at least one body row, Get without a
    rev option selects the body row with the highest (rev, rev_id) among
    all body rows of the document; it returns that row's revision and body
    when the row is not deleted, and NotFound when it is deleted. *)
Theorem Get_selects_highest_rev (s : store) (i : string) (options : Options) :
  opt_rev options = "" ->
  (exists d, In d (docs s) /\ d_id d = i) ->
  exists w,
    In w (docs s) /\ d_id w = i /\
    (forall d, In d (docs s) -> d_id d = i ->
       rev_compare (d_rev d) (d_rev_id d) (d_rev w) (d_rev_id w) <> Gt) /\
    (d_deleted w = true -> Get s i options = Err NotFound) /\
    (d_deleted w = false ->
       exists doc, Get s i options = Ok doc
         /\ DocRev doc = revision_String (mkRevision (d_rev w) (d_rev_id w))
         /\ Body doc = d_doc w).
Proof.
  intros Hrev [d [Hd Hi]].
  destruct (select_current_some (docs s) i d Hd Hi) as [w Hw].
  destruct (select_current_spec _ _ _ Hw) as [Hin [Hid Hmax]].
  exists w. repeat split; auto.
  - intros Hdel. unfold Get. rewrite Hrev. simpl. rewrite Hw, Hdel. reflexivity.
  - intros Hdel. unfold Get. rewrite Hrev. simpl. rewrite Hw, Hdel.
    eexists. split; [reflexivity|]. split; reflexivity.
Qed.

Lemma Get_selects_highest_rev_witness :
  opt_rev NilOption = ""
  /\ (exists d, In d (docs two_branches) /\ d_id d = "foo")
  /\ exists w,
       In w (docs two_branches) /\ d_id w = "foo" /\
       (forall d, In d (docs two_branches) -> d_id d = "foo" ->
          rev_compare (d_rev d) (d_rev_id d) (d_rev w) (d_rev_id w) <> Gt) /\
       (d_deleted w = true -> Get two_branches "foo" NilOption = Err NotFound) /\
       (d_deleted w = false ->
          exists doc, Get two_branches "foo" NilOption = Ok doc
            /\ DocRev doc = revision_String (mkRevision (d_rev w) (d_rev_id w))
            /\ Body doc = d_doc w).
Proof.
  assert (exists d, In d (docs two_branches) /\ d_id d = "foo") as H.
  { eexists. split; [left; reflexivity | reflexivity]. }
  split; [reflexivity|]. split; [exact H|].
  exact (Get_selects_highest_rev two_branches "foo" NilOption eq_refl H).
Defined.

(** C9: Get with an explicit rev loads exactly the body row of that
    (id, rev, rev_id): it is NotFound when no body row carries the key,
    whatever the revision tree holds, and when a body row carries it the
    row's body is returned under the requested revision, deleted or
    not. *)
Theorem Get_by_rev (s : store) (i : string) (options : Options)
    (r : revision) :
  opt_rev options <> "" ->
  parseRev (opt_rev options) = Ok r ->
  ((forall d, In d (docs s) -> doc_key d <> (i, rev r, rid r)) ->
     Get s i options = Err NotFound)
  /\ (forall d, body_keys_unique s -> In d (docs s) ->
        doc_key d = (i, rev r, rid r) ->
        exists doc, Get s i options = Ok doc
          /\ DocRev doc = opt_rev options /\ Body doc = d_doc d).
Proof.
  intros Hne Hparse. apply String.eqb_neq in Hne.
  destruct (parseRev_ok _ _ Hparse) as [_ [_ Hstr]].
  split.
  - intros Hnone. unfold Get. rewrite Hne, Hparse. simpl.
    now rewrite (select_by_key_none _ _ _ _ Hnone).
  - intros d Huniq Hd Hk. unfold Get. rewrite Hne, Hparse. simpl.
    rewrite (select_by_key_unique _ _ _ _ d Huniq Hd Hk). simpl.
    eexists. split; [reflexivity|]. split; [exact Hstr | reflexivity].
Qed.

Lemma Get_by_rev_witness :
  opt_rev (Rev "1-xxx") <> ""
  /\ parseRev (opt_rev (Rev "1-xxx")) = Ok (mkRevision 1 "xxx")
  /\ ((forall d, In d (docs two_branches) -> doc_key d <> ("foo", 1, "xxx")) ->
        Get two_branches "foo" (Rev "1-xxx") = Err NotFound)
  /\ (forall d, body_keys_unique two_branches -> In d (docs two_branches) ->
        doc_key d = ("foo", 1, "xxx") ->
        exists doc, Get two_branches "foo" (Rev "1-xxx") = Ok doc
          /\ DocRev doc = opt_rev (Rev "1-xxx") /\ Body doc = d_doc d).
Proof.
  split; [discriminate|]. split; [reflexivity|].
  apply (Get_by_rev two_branches "foo" (Rev "1-xxx") (mkRevision 1 "xxx"));
    [discriminate | reflexivity].
Defined.

(** The deleted 1-xxx is returned with its body when asked for by rev. *)
Example Get_tombstone_by_rev :
  Get two_branches "foo" (Rev "1-xxx")
  = Ok (mkDocument "1-xxx" "{}" None None None).
Proof. vm_compute. reflexivity. Qed.

(** A revision node without a body row is NotFound when asked for by
    rev. *)
Example Get_node_without_body :
  Get (mkStore [mkRevRow "foo" 1 "abc" None None] []) "foo" (Rev "1-abc")
  = Err NotFound.
Proof. vm_compute. reflexivity. Qed.

(** ** Inserts *)

Lemma insert_rev_err (t : list rev_row) (r : rev_row) (e : error) :
  insert_rev t r = Err e ->
  e = SqliteError SQLITE_CONSTRAINT_UNIQUE
  /\ existsb (rev_key_is (r_id r) (r_rev r) (r_rev_id r)) t = true.
Proof.
  unfold insert_rev.
  destruct (existsb _ t); [intros [= <-]; auto | discriminate].
Qed.

Lemma insert_rev_ok (t t' : list rev_row) (r : rev_row) :
  insert_rev t r = Ok t' ->
  t' = (t ++ [r])%list
  /\ existsb (rev_key_is (r_id r) (r_rev r) (r_rev_id r)) t = false
  /\ existsb (rev_key_is (r_id r) (r_rev r) (r_rev_id r)) t' = true.
Proof.
  unfold insert_rev.
  destruct (existsb _ t) eqn:E; [discriminate|]. intros [= <-].
  repeat split; auto. rewrite existsb_app. simpl.
  assert (rev_key_is (r_id r) (r_rev r) (r_rev_id r) r = true) as ->
    by (now apply rev_key_is_iff).
  now rewrite orb_true_r.
Qed.

Lemma insert_doc_err (t : list doc_row) i n h b del (e : error) :
  insert_doc t i n h b del = Err e ->
  e = SqliteError SQLITE_CONSTRAINT_UNIQUE
  /\ existsb (doc_key_is i n h) t = true.
Proof.
  unfold insert_doc.
  destruct (existsb _ t); [intros [= <-]; auto | discriminate].
Qed.

Lemma insert_doc_ok (t t' : list doc_row) i n h b del :
  insert_doc t i n h b del = Ok t' ->
  t' = (t ++ [mkDocRow (next_seq t) i n h b del])%list
  /\ existsb (doc_key_is i n h) t = false
  /\ existsb (doc_key_is i n h) t' = true.
Proof.
  unfold insert_doc.
  destruct (existsb _ t) eqn:E; [discriminate|]. intros [= <-].
  repeat split; auto. rewrite existsb_app. simpl.
  assert (doc_key_is i n h (mkDocRow (next_seq t) i n h b del) = true) as ->
    by (now apply doc_key_is_iff).
  now rewrite orb_true_r.
Qed.

(** ** Put with new_edits=false *)

(** C4: a Put with new_edits=false is idempotent: repeated on the store
    the first call leaves, it returns what the first call returned (the
    same revision string, or the same error) and leaves that store as it
    is, so no revision node or body row is added twice. *)
Theorem Put_replay_idempotent (s : store) (docID : string) (doc : Doc)
    (options : Options) :
  opt_new_edits options = false ->
  Put (snd (Put s docID doc options)) docID doc options
  = (fst (Put s docID doc options), snd (Put s docID doc options)).
Proof.
  intros Hne. rewrite <- surjective_pairing.
  unfold Put. rewrite Hne. unfold extractRev. cbv beta iota. simpl negb.
  cbv iota.
  set (mismatch := negb (opt_rev options =? "")%string
                   && negb (doc_rev doc =? "")%string
                   && negb (opt_rev options =? doc_rev doc)%string).
  destruct mismatch; [reflexivity|].
  set (docRev := if ((doc_rev doc =? "")%string
                     && negb (opt_rev options =? "")%string)%bool
                 then opt_rev options else doc_rev doc).
  destruct (prepareDoc docID doc) as [data|e]; [|reflexivity].
  destruct (docRev =? "")%string; [reflexivity|].
  destruct (parseRev docRev) as [r|e] eqn:Hparse; [|reflexivity].
  destruct (parseRev_ok _ _ Hparse) as [_ [Hstr _]].
  destruct (insert_doc (docs s) docID (rev r) (rid r) (DDoc data) (Deleted data))
    as [docs1|e] eqn:Hdoc.
  - (* the first call commits *)
    apply insert_doc_ok in Hdoc as [_ [_ Hdup]].
    destruct (insert_rev (revs s) (mkRevRow docID (rev r) (rid r) None None))
      as [revs1|e] eqn:Hrev.
    + apply insert_rev_ok in Hrev as [_ [_ Hnode]]. simpl in Hnode. simpl.
      unfold insert_rev, insert_doc. simpl. rewrite Hnode, Hdup.
      now rewrite Hstr.
    + apply insert_rev_err in Hrev as [-> Hnode]. simpl in Hnode. simpl.
      unfold insert_rev, insert_doc. simpl. rewrite Hnode, Hdup.
      now rewrite Hstr.
  - (* the first call finds the body row and rolls back *)
    apply insert_doc_err in Hdoc as [-> Hdup].
    destruct (insert_rev (revs s) (mkRevRow docID (rev r) (rid r) None None))
      as [revs1|e] eqn:Hrev.
    + simpl. rewrite Hrev. unfold insert_doc. now rewrite Hdup.
    + apply insert_rev_err in Hrev as [-> Hnode]. simpl.
      unfold insert_rev, insert_doc. simpl in Hnode. simpl.
      now rewrite Hnode, Hdup.
Qed.

Lemma Put_replay_idempotent_witness :
  opt_new_edits (NewEdits false) = false
  /\ Put (snd (Put empty_store "foo" (plain "1-abc" "{}")
                   (NewEdits false)))
         "foo" (plain "1-abc" "{}") (NewEdits false)
     = (fst (Put empty_store "foo" (plain "1-abc" "{}")
                 (NewEdits false)),
        snd (Put empty_store "foo" (plain "1-abc" "{}")
                 (NewEdits false))).
Proof.
  split; [reflexivity|].
  apply (Put_replay_idempotent empty_store "foo"
           (plain "1-abc" "{}") (NewEdits false)).
  reflexivity.
Defined.

(** The replayed write returns 1-abc again and the tables keep one
    revision node and one body row. *)
Example Put_replay_twice :
  Put (snd (Put empty_store "foo" (plain "1-abc" "{}")
                (NewEdits false)))
      "foo" (plain "1-abc" "{}") (NewEdits false)
  = (Ok "1-abc",
     mkStore [mkRevRow "foo" 1 "abc" None None]
             [mkDocRow 1 "foo" 1 "abc" "{}" false]).
Proof. vm_compute. reflexivity. Qed.

(** ** Put with new_edits=true *)

Lemma sql_max_ge (l : list Z) (x : Z) :
  In x l -> exists m, sql_max l = Some m /\ x <= m.
Proof.
  induction l as [|y l IH]; simpl; [intros []|].
  intros [->|Hx].
  - destruct (sql_max l) as [m|]; eexists; split; try reflexivity; lia.
  - destruct (IH Hx) as [m [-> Hm]]. eexists. split; [reflexivity|lia].
Qed.

Lemma sql_max_In (l : list Z) (m : Z) : sql_max l = Some m -> In m l.
Proof.
  revert m. induction l as [|y l IH]; simpl; [discriminate|].
  destruct (sql_max l) as [m'|]; intros m [= <-]; [|now left].
  destruct (Z.max_spec y m') as [[_ ->]|[_ ->]]; [right; now apply IH | now left].
Qed.

(** The revision number of an interactive write exceeds every revision
    number the tree holds for the document. *)
Lemma next_rev_above (t : list rev_row) (i : string) (r : rev_row) :
  In r t -> r_id r = i -> r_rev r < next_rev t i.
Proof.
  intros Hr Hi. unfold next_rev.
  assert (In (r_rev r) (map r_rev (filter (fun r => (r_id r =? i)%string) t)))
    as Hin.
  { apply in_map. apply filter_In. split; auto. now apply String.eqb_eq. }
  destruct (sql_max_ge _ _ Hin) as [m [-> Hm]]. simpl. lia.
Qed.

Lemma next_rev_positive (t : list rev_row) (i : string) :
  (forall r, In r t -> 0 < r_rev r) -> 0 < next_rev t i.
Proof.
  intros Hpos. unfold next_rev.
  destruct (sql_max (map r_rev (filter (fun r => (r_id r =? i)%string) t)))
    as [m|] eqn:E; simpl; [|lia].
  apply sql_max_In in E. apply in_map_iff in E as [r [<- Hr]].
  apply filter_In in Hr as [Hr _]. specialize (Hpos r Hr). lia.
Qed.

Lemma next_rev_fresh (t : list rev_row) (i h : string) :
  existsb (rev_key_is i (next_rev t i) h) t = false.
Proof.
  destruct (existsb (rev_key_is i (next_rev t i) h) t) eqn:E; [|reflexivity].
  apply existsb_exists in E as [r [Hr Hk]].
  apply rev_key_is_iff in Hk as [Hi [Hn _]].
  pose proof (next_rev_above t i r Hr Hi). lia.
Qed.

Lemma next_rev_fresh_body (s : store) (i h : string) :
  bodies_have_nodes s ->
  existsb (doc_key_is i (next_rev (revs s) i) h) (docs s) = false.
Proof.
  intros Hfk.
  destruct (existsb (doc_key_is i (next_rev (revs s) i) h) (docs s)) eqn:E;
    [|reflexivity].
  apply existsb_exists in E as [d [Hd Hk]].
  apply doc_key_is_iff in Hk. injection Hk as Hi Hn _.
  specialize (Hfk d Hd). apply existsb_exists in Hfk as [r [Hr Hrk]].
  apply rev_key_is_iff in Hrk as [Hri [Hrn _]].
  pose proof (next_rev_above (revs s) i r Hr (eq_trans Hri Hi)). lia.
Qed.

Lemma bodies_positive (s : store) (d : doc_row) :
  bodies_have_nodes s -> nodes_positive s -> In d (docs s) -> 0 < d_rev d.
Proof.
  intros Hfk Hpos Hd. specialize (Hfk d Hd).
  apply existsb_exists in Hfk as [r [Hr Hrk]].
  apply rev_key_is_iff in Hrk as [_ [Hrn _]]. specialize (Hpos r Hr). lia.
Qed.

(** In a store that keeps its foreign key, the two inserts of an
    interactive write succeed: the new node and the new body row are
    appended. *)
Lemma insert_child_ok (s : store) (data : docData) (curRev : revision)
    (del : bool) :
  bodies_have_nodes s -> nodes_positive s ->
  let n := next_rev (revs s) (ID data) in
  insert_child s data curRev del
  = (Ok (sql_rev_string n (DRev data)),
     mkStore
       (revs s ++ [mkRevRow (ID data) n (DRev data)
                     (if rev curRev =? 0 then None else Some (rev curRev))
                     (if rev curRev =? 0 then None else Some (rid curRev))])
       (docs s ++ [mkDocRow (next_seq (docs s)) (ID data) n (DRev data)
                     (DDoc data) del])).
Proof.
  intros Hfk Hpos n. unfold insert_child, insert_rev, insert_doc. simpl.
  fold n. unfold n at 1. rewrite next_rev_fresh.
  unfold n at 1. rewrite (next_rev_fresh_body s _ _ Hfk).
  unfold revision_String. simpl.
  pose proof (next_rev_positive (revs s) (ID data) Hpos) as Hn. fold n in Hn.
  destruct (Z.eqb_spec n 0); [lia|reflexivity].
Qed.

(** [Put] with new_edits=true, once the two validations have passed. *)
Lemma Put_new_edits_unfold (s : store) (docID : string) (doc : Doc)
    (options : Options) :
  opt_new_edits options = true ->
  (opt_rev options = "" \/ doc_rev doc = "" \/ opt_rev options = doc_rev doc) ->
  (doc_id doc = "" \/ doc_id doc = docID) ->
  Put s docID doc options
  = if negb (revision_String (current_revision (docs s) docID)
             =? effective_rev doc options)%string
    then (Err Conflict, s)
    else insert_child s
           (mkDocData docID (MD5.hex (doc_canonical doc)) (doc_members doc)
                      (doc_deleted doc))
           (current_revision (docs s) docID) (doc_deleted doc).
Proof.
  intros Hne Hrev Hid. unfold Put, extractRev, prepareDoc, effective_rev.
  rewrite Hne. cbv beta iota. simpl negb at 4.
  assert (negb (opt_rev options =? "")%string
          && negb (doc_rev doc =? "")%string
          && negb (opt_rev options =? doc_rev doc)%string = false) as ->.
  { destruct (String.eqb_spec (opt_rev options) ""); [reflexivity|].
    destruct (String.eqb_spec (doc_rev doc) ""); [reflexivity|].
    destruct (String.eqb_spec (opt_rev options) (doc_rev doc)); [reflexivity|].
    intuition. }
  assert (negb (doc_id doc =? "")%string && negb (doc_id doc =? docID)%string
          = false) as ->.
  { destruct (String.eqb_spec (doc_id doc) ""); [reflexivity|].
    destruct (String.eqb_spec (doc_id doc) docID); [reflexivity|]. intuition. }
  cbv iota.
  assert ((if ((doc_rev doc =? "")%string
               && negb (opt_rev options =? "")%string)%bool
           then opt_rev options else doc_rev doc)
          = (if (doc_rev doc =? "")%string then opt_rev options
             else doc_rev doc)) as ->.
  { destruct (String.eqb_spec (doc_rev doc) "") as [E|]; [|reflexivity].
    destruct (String.eqb_spec (opt_rev options) "") as [E'|]; simpl; congruence. }
  reflexivity.
Qed.


Lemma current_revision_present (s : store) (i : string) (w : doc_row) :
  bodies_have_nodes s -> nodes_positive s ->
  select_current (docs s) i = Some w ->
  revision_String (current_revision (docs s) i)
  = sql_rev_string (d_rev w) (d_rev_id w).
Proof.
  intros Hfk Hpos Hw. unfold current_revision. rewrite Hw.
  destruct (select_current_spec _ _ _ Hw) as [Hin _].
  pose proof (bodies_positive s w Hfk Hpos Hin) as Hn.
  unfold revision_String. simpl.
  destruct (Z.eqb_spec (d_rev w) 0); [lia|reflexivity].
Qed.




(** The update of scenario S1 goes through, and a stale or missing rev
    conflicts. *)
Example Put_update_ok :
  fst (Put one_doc "foo" (plain "" (member "foo" "baz"))
           (Rev "1-9bb58f26192e4ba00f01e2e7b136bbd8"))
  = Ok "2-afa7ae8a1906f4bb061be63525974f92".
Proof. vm_compute. reflexivity. Qed.

Example Put_without_rev_conflicts :
  Put one_doc "foo" (plain "" (member "foo" "baz")) NilOption
  = (Err Conflict, one_doc).
Proof. vm_compute. reflexivity. Qed.

Example Put_new_doc_with_rev_conflicts :
  Put empty_store "foo"
      (plain "1-1234567890abcdef1234567890abcdef" (member "foo" "bar"))
      NilOption
  = (Err Conflict, empty_store).
Proof. vm_compute. reflexivity. Qed.

(** ** Delete *)

(** C6, as stated, fails on the code: for a document that does not exist
    Delete answers NotFound (404) where the Put of a deleted body with the
    same rev answers Conflict (409). *)
Lemma Delete_absent_counterexample :
  Delete empty_store "foo" (Rev "1-abc") = (Err NotFound, empty_store)
  /\ Put empty_store "foo" deleted_doc (Rev "1-abc")
     = (Err Conflict, empty_store)
  /\ Delete empty_store "foo" (Rev "1-abc")
     <> Put empty_store "foo" deleted_doc (Rev "1-abc").
Proof.
  split; [vm_compute; reflexivity|]. split; [vm_compute; reflexivity|].
  vm_compute. discriminate.
Qed.

(** C6, amended: for a document that has at least one body row,
    Delete(id, rev) and Put(id, {_deleted: true}, rev) with new_edits=true
    give the same result: the same error, or the same new revision string
    and the same tables; for a document without body rows Delete fails
    with NotFound. *)
Theorem Delete_equiv_Put (s : store) (docID : string) (options : Options) :
  opt_new_edits options = true ->
  ((exists d, In d (docs s) /\ d_id d = docID) ->
     Delete s docID options = Put s docID deleted_doc options)
  /\ ((forall d, In d (docs s) -> d_id d <> docID) ->
        Delete s docID options = (Err NotFound, s)).
Proof.
  intros Hne. split.
  - intros [d [Hd Hi]].
    rewrite (Put_new_edits_unfold s docID deleted_doc options Hne);
      [|right; left; reflexivity | left; reflexivity].
    destruct (select_current_some (docs s) docID d Hd Hi) as [w Hw].
    unfold Delete, prepareDoc, current_revision, effective_rev. simpl.
    rewrite Hw. reflexivity.
  - intros Habsent. unfold Delete, prepareDoc. simpl.
    now rewrite (proj2 (select_current_none (docs s) docID) Habsent).
Qed.

Lemma Delete_equiv_Put_witness :
  opt_new_edits (Rev "1-9bb58f26192e4ba00f01e2e7b136bbd8") = true
  /\ ((exists d, In d (docs one_doc) /\ d_id d = "foo") ->
        Delete one_doc "foo" (Rev "1-9bb58f26192e4ba00f01e2e7b136bbd8")
        = Put one_doc "foo" deleted_doc
              (Rev "1-9bb58f26192e4ba00f01e2e7b136bbd8"))
  /\ ((forall d, In d (docs one_doc) -> d_id d <> "foo") ->
        Delete one_doc "foo" (Rev "1-9bb58f26192e4ba00f01e2e7b136bbd8")
        = (Err NotFound, one_doc)).
Proof.
  split; [reflexivity|].
  apply (Delete_equiv_Put one_doc "foo"
           (Rev "1-9bb58f26192e4ba00f01e2e7b136bbd8")).
  reflexivity.
Defined.

(** Deleting the document of scenario S1 writes the tombstone 2-... as a
    child of 1-9bb5.... *)
Example Delete_one_doc :
  Delete one_doc "foo" (Rev "1-9bb58f26192e4ba00f01e2e7b136bbd8")
  = (Ok "2-df2a4fe30cde39c357c8d1105748d1b9",
     mkStore
       [mkRevRow "foo" 1 "9bb58f26192e4ba00f01e2e7b136bbd8" None None;
        mkRevRow "foo" 2 "df2a4fe30cde39c357c8d1105748d1b9" (Some 1)
                 (Some "9bb58f26192e4ba00f01e2e7b136bbd8")]
       [mkDocRow 1 "foo" 1 "9bb58f26192e4ba00f01e2e7b136bbd8"
                 (member "foo" "bar") false;
        mkDocRow 2 "foo" 2 "df2a4fe30cde39c357c8d1105748d1b9" "{}" true]).
Proof. vm_compute. reflexivity. Qed.

(** ** The changes feed *)

Lemma fold_left_min_assoc (l : list Z) (x y : Z) :
  fold_left Z.min l (Z.min x y) = Z.min x (fold_left Z.min l y).
Proof.
  revert y. induction l as [|z l IH]; intros y; simpl; [reflexivity|].
  now rewrite <- Z.min_assoc, IH.
Qed.

Lemma fold_left_max_assoc (l : list Z) (x y : Z) :
  fold_left Z.max l (Z.max x y) = Z.max x (fold_left Z.max l y).
Proof.
  revert y. induction l as [|z l IH]; intros y; simpl; [reflexivity|].
  now rewrite <- Z.max_assoc, IH.
Qed.

Lemma sql_min_fold (l : list Z) (x : Z) :
  sql_min (x :: l) = Some (fold_left Z.min l x).
Proof.
  revert x. induction l as [|y l IH]; intros x; [reflexivity|].
  change (sql_min (x :: y :: l))
    with (match sql_min (y :: l) with
          | None => Some x
          | Some m => Some (Z.min x m)
          end).
  rewrite IH. simpl. now rewrite fold_left_min_assoc.
Qed.

Lemma sql_max_fold (l : list Z) (x : Z) :
  sql_max (x :: l) = Some (fold_left Z.max l x).
Proof.
  revert x. induction l as [|y l IH]; intros x; [reflexivity|].
  change (sql_max (x :: y :: l))
    with (match sql_max (y :: l) with
          | None => Some x
          | Some m => Some (Z.max x m)
          end).
  rewrite IH. simpl. now rewrite fold_left_max_assoc.
Qed.

(** The aggregate row of the query is the specification's text. *)
Lemma summary_spec (rs : list doc_row) : MD5.hex (summary rs) = spec_etag rs.
Proof.
  unfold summary, spec_etag, min_seq, max_seq.
  destruct (map d_seq rs) as [|x l]; [reflexivity|].
  now rewrite sql_min_fold, sql_max_fold.
Qed.

(** Reading the feed to the end delivers the selected rows in order and
    leaves the cursor closed. *)
Lemma changes_collect_rows (rs : list doc_row) (fuel : nat) (last tag : string)
    (cl : bool) :
  (List.length rs < fuel)%nat ->
  let c := mkChanges
             (map (fun d => (Some (d_id d), Some (d_seq d), Some (d_deleted d),
                             sql_rev_string (d_rev d) (d_rev_id d))) rs)
             last tag cl in
  fst (changes_collect fuel c) = map change_of_row rs
  /\ closed (snd (changes_collect fuel c)) = true
  /\ etag (snd (changes_collect fuel c)) = tag.
Proof.
  revert fuel last cl. induction rs as [|d rs IH]; intros fuel last cl Hf c.
  - destruct fuel; [simpl in Hf; lia|]. simpl. auto.
  - destruct fuel; [simpl in Hf; lia|]. simpl in Hf.
    assert (List.length rs < fuel)%nat as Hf' by lia.
    specialize (IH fuel (itoa (d_seq d)) cl Hf'). simpl in IH.
    destruct IH as [IH1 [IH2 IH3]].
    unfold c. simpl.
    destruct (changes_collect fuel _) as [l c'] eqn:E. simpl in *.
    now subst l.
Qed.

(** C8: for every store, Changes succeeds; its ETag is the lowercase
    hexadecimal MD5 of the text count.min_seq.max_seq over the rows the
    query selects (0 for the minimum and the maximum of no rows); the
    changes it then delivers are those same rows, in seq order: the ETag
    and the rows come out of the one query. *)
Theorem Changes_ETag (s : store) (options : Options) :
  exists c,
    Changes s options = Ok c
    /\ ETag c = spec_etag (results s)
    /\ fst (changes_all c) = map change_of_row (results s)
    /\ ETag (snd (changes_all c)) = spec_etag (results s)
    /\ (forall d, In d (results s) <-> In d (docs s)).
Proof.
  unfold Changes, changes_query. eexists. split; [reflexivity|].
  unfold ETag, changes_all. simpl etag at 1. simpl feed.
  rewrite summary_spec.
  destruct (changes_collect_rows (results s)
              (S (List.length
                    (map (fun d => (Some (d_id d), Some (d_seq d),
                                    Some (d_deleted d),
                                    sql_rev_string (d_rev d) (d_rev_id d)))
                         (results s))))
              "" (spec_etag (results s)) false) as [H1 [_ H3]].
  { rewrite length_map. lia. }
  repeat split; auto.
  - apply (order_by_In seq_asc).
  - apply (order_by_In seq_asc).
Qed.

(** An empty database has the ETag md5("0.0.0"); two writes give
    md5("2.1.2"). *)
Example Changes_ETag_empty :
  option_map ETag (match Changes empty_store NilOption with
                   | Ok c => Some c
                   | Err _ => None
                   end)
  = Some "c7ba27130f956748671e845893fd6b80".
Proof. vm_compute. reflexivity. Qed.

Example Changes_ETag_two_revisions :
  option_map ETag (match Changes two_revisions NilOption with
                   | Ok c => Some c
                   | Err _ => None
                   end)
  = Some "9562870d7e8245d03c2ac6055dff735f".
Proof. vm_compute. reflexivity. Qed.

(** ** AllDocs *)

Lemma rows_collect_all (l : list (string * string)) (fuel : nat) :
  (List.length l < fuel)%nat ->
  rows_collect fuel (mkRows l) = map (fun x => mkRow (fst x) (snd x) (snd x)) l.
Proof.
  revert fuel. induction l as [|[i v] l IH]; intros fuel Hf.
  - destruct fuel; [simpl in Hf; lia|]. reflexivity.
  - destruct fuel; [simpl in Hf; lia|]. simpl in Hf. simpl.
    rewrite IH by lia. reflexivity.
Qed.

(** AllDocs delivers one row for each body row of the table, whatever
    its revision, flag or id. *)
Lemma AllDocs_every_body_row (s : store) (options : Options) :
  exists r, AllDocs s options = Ok r /\ rows_all r = map row_of_doc (docs s).
Proof.
  unfold AllDocs. eexists. split; [reflexivity|].
  unfold rows_all. simpl cursor. rewrite rows_collect_all by lia.
  rewrite map_map. reflexivity.
Qed.

(** C2, on the code: after a document is written and updated, AllDocs
    gives two rows for it, the superseded 1-2745... next to the winner
    2-c1f7...; after a document is written and deleted, AllDocs still
    gives its two rows, the tombstone among them.  The tests "single doc
    multiple revisions" and "deleted doc" expect one row and no row. *)
Theorem AllDocs_emits_every_revision :
  option_map rows_all (match AllDocs two_revisions NilOption with
                       | Ok r => Some r
                       | Err _ => None
                       end)
  = Some [mkRow "foo" "1-274558516009acbe973682d27a58b598"
                "1-274558516009acbe973682d27a58b598";
          mkRow "foo" "2-c1f7f9ed8874502b095381186a35af4b"
                "2-c1f7f9ed8874502b095381186a35af4b"]
  /\ option_map rows_all (match AllDocs deleted_cat NilOption with
                          | Ok r => Some r
                          | Err _ => None
                          end)
     = Some [mkRow "foo" "1-274558516009acbe973682d27a58b598"
                   "1-274558516009acbe973682d27a58b598";
             mkRow "foo" "2-df2a4fe30cde39c357c8d1105748d1b9"
                   "2-df2a4fe30cde39c357c8d1105748d1b9"].
Proof. split; vm_compute; reflexivity. Qed.

(** C7, on the code: with the documents cat, _local/dog and cow written,
    AllDocs and the changes feed both deliver a row for _local/dog.  The
    test "local docs excluded" expects the rows of cat and cow only. *)
Theorem local_doc_is_listed :
  option_map (fun r => map RowID (rows_all r))
             (match AllDocs with_local_doc NilOption with
              | Ok r => Some r
              | Err _ => None
              end)
  = Some ["cat"; "_local/dog"; "cow"]
  /\ option_map (fun c => map ChangeID (fst (changes_all c)))
                (match Changes with_local_doc NilOption with
                 | Ok c => Some c
                 | Err _ => None
                 end)
     = Some ["cat"; "_local/dog"; "cow"].
Proof. split; vm_compute; reflexivity. Qed.

(** ** Put and _revisions *)

(** A Put with new_edits=false adds at most one revision node, and that
    node has no parent: the member [_revisions] is never read. *)
Lemma Put_replication_adds_one_root (s : store) (docID : string) (doc : Doc)
    (options : Options) :
  opt_new_edits options = false ->
  revs (snd (Put s docID doc options)) = revs s
  \/ exists n h,
       revs (snd (Put s docID doc options))
       = (revs s ++ [mkRevRow docID n h None None])%list.
Proof.
  intros Hne. unfold Put. rewrite Hne. unfold extractRev. cbv beta iota.
  simpl negb. cbv iota.
  destruct (negb (opt_rev options =? "")%string
            && negb (doc_rev doc =? "")%string
            && negb (opt_rev options =? doc_rev doc)%string); [now left|].
  destruct (prepareDoc docID doc) as [data|e]; [|now left].
  match goal with |- context [(?x =? "")%string] =>
    destruct (x =? "")%string; [now left|] end.
  match goal with |- context [parseRev ?x] =>
    destruct (parseRev x) as [r|e]; [|now left] end.
  destruct (insert_rev (revs s) (mkRevRow docID (rev r) (rid r) None None))
    as [revs1|e] eqn:Hrev.
  - apply insert_rev_ok in Hrev as [-> _].
    destruct (insert_doc _ _ _ _ _ _) as [docs1|[| [] |]]; simpl; auto.
    right. eauto.
  - apply insert_rev_err in Hrev as [-> _].
    destruct (insert_doc _ _ _ _ _ _) as [docs1|[| [] |]]; simpl; auto.
Qed.

(** C3, on the code: the replication write of the test "new_edits=false,
    with _revisions" is refused with BadRequest and writes nothing; with
    [_rev] 3-ghi given as well it writes the single root node (3, ghi),
    and neither (2, def) nor (1, abc) nor any parent pointer.  The test
    expects the three nodes, each with its parent. *)
Theorem Put_ignores_revisions :
  Put empty_store "foo" doc_with_revisions (NewEdits false)
  = (Err (Error StatusBadRequest
       "When `new_edits: false`, the document needs `_rev` or `_revisions` specified"),
     empty_store)
  /\ Put empty_store "foo" doc_with_revisions_and_rev (NewEdits false)
     = (Ok "3-ghi",
        mkStore [mkRevRow "foo" 3 "ghi" None None]
                [mkDocRow 1 "foo" 3 "ghi" (member "foo" "bar") false]).
Proof. split; vm_compute; reflexivity. Qed.

(** ** The client *)

Lemma like_percent (t : string) : like "%" t = true.
Proof.
  induction t as [|c t IH]; [reflexivity|].
  simpl in *. exact IH.
Qed.

Lemma like_literal (p : ascii) (pat : string) (c : ascii) (t : string) :
  (p =? "%")%char = false -> (p =? "_")%char = false ->
  like (String p pat) (String c t)
  = (lower_ascii p =? lower_ascii c)%char && like pat t.
Proof. intros H1 H2. simpl. now rewrite H1, H2. Qed.

Lemma like_any (pat : string) (c : ascii) (t : string) :
  like (String "_" pat) (String c t) = like pat t.
Proof. reflexivity. Qed.

Lemma prefix_cons (a : ascii) (s1 : string) (b : ascii) (s2 : string) :
  prefix (String a s1) (String b s2) = (a =? b)%char && prefix s1 s2.
Proof.
  simpl. destruct (ascii_dec a b) as [->|H].
  - now rewrite Ascii.eqb_refl.
  - apply Ascii.eqb_neq in H. now rewrite H.
Qed.

(** One letter of the pattern against one character of the name, in the
    hypothesis [H] on the name, the hypothesis [R] on the reserved prefix
    and the goal on the name with its suffix. *)
Ltac like_step H R :=
  match type of H with
  | like _ ?n = false =>
      destruct n as [|? ?]; cbn [append lower] in *;
      [ rewrite like_literal by reflexivity; reflexivity
      | rewrite like_literal in H |- * by reflexivity;
        rewrite prefix_cons in R;
        match type of R with
        | context [Ascii.eqb ?a (lower_ascii ?c)] =>
            change (Ascii.eqb (lower_ascii a) (lower_ascii c))
              with (Ascii.eqb a (lower_ascii c)) in H |- *;
            destruct (Ascii.eqb a (lower_ascii c));
            [cbn [andb] in * | reflexivity]
        end ]
  end.

(** A name the pattern [sqlite_%] does not match still does not match it
    with [_revs] or [_attachments] appended, unless that makes a reserved
    name. *)
Lemma like_sqlite_suffix (n suf : string) :
  like "sqlite_%" n = false ->
  reserved (n ++ String "_" suf) = false ->
  like "sqlite_%" (n ++ String "_" suf) = false.
Proof.
  unfold reserved. intros H R.
  do 6 like_step H R.
  destruct n as [|c7 n].
  - cbn in R. destruct suf; discriminate R.
  - rewrite like_any, like_percent in H. discriminate H.
Qed.

Lemma run_schema_ok (c c' : client) (n : string) :
  run_schema c (schema n) = Ok c' ->
  c' = (c ++ [mkSchemaRow table (n ++ "_revs") (n ++ "_revs");
              mkSchemaRow index ("sqlite_autoindex_" ++ (n ++ "_revs") ++ "_1")
                          (n ++ "_revs");
              mkSchemaRow index "idx_parent" (n ++ "_revs");
              mkSchemaRow table n n;
              mkSchemaRow index ("sqlite_autoindex_" ++ n ++ "_1") n;
              mkSchemaRow table (n ++ "_attachments") (n ++ "_attachments");
              mkSchemaRow index
                ("sqlite_autoindex_" ++ (n ++ "_attachments") ++ "_1")
                (n ++ "_attachments")])%list
  /\ reserved (n ++ "_revs") = false
  /\ reserved (n ++ "_attachments") = false.
Proof.
  unfold schema, run_schema, exec.
  destruct (create_table c (n ++ "_revs")) as [c1|e] eqn:E1;
    [|destruct (errIsAlreadyExists e); discriminate].
  destruct (create_index c1 "idx_parent" (n ++ "_revs")) as [c2|e] eqn:E2;
    [|destruct (errIsAlreadyExists e); discriminate].
  destruct (create_table c2 n) as [c3|e] eqn:E3;
    [|destruct (errIsAlreadyExists e); discriminate].
  destruct (create_table c3 (n ++ "_attachments")) as [c4|e] eqn:E4;
    [|destruct (errIsAlreadyExists e); discriminate].
  intros [= <-].
  unfold create_table in E1, E3, E4. unfold create_index in E2.
  destruct (reserved (n ++ "_revs")); [discriminate|].
  destruct (reserved (n ++ "_attachments")); [discriminate|].
  repeat match type of E1 with
         | (if ?b then _ else _) = _ => destruct b; try discriminate
         end.
  repeat match type of E2 with
         | (if ?b then _ else _) = _ => destruct b; try discriminate
         end.
  repeat match type of E3 with
         | (if ?b then _ else _) = _ => destruct b; try discriminate
         end.
  repeat match type of E4 with
         | (if ?b then _ else _) = _ => destruct b; try discriminate
         end.
  injection E1 as <-. injection E2 as <-. injection E3 as <-.
  injection E4 as <-.
  rewrite <- !app_assoc. auto.
Qed.

(** After a successful CreateDB of a name that the pattern [sqlite_%]
    does not match, AllDBs lists what it listed before and then the three
    tables of the database. *)
Lemma AllDBs_after_CreateDB (c c' : client) (n : string) (l : list string) :
  CreateDB c n = (Ok tt, c') ->
  AllDBs c = Ok l ->
  like "sqlite_%" n = false ->
  AllDBs c' = Ok (l ++ [(n ++ "_revs")%string; n;
                       (n ++ "_attachments")%string])%list.
Proof.
  unfold CreateDB. destruct (negb (validDBNameRE n)); [discriminate|].
  destruct (run_schema c (schema n)) as [c1|e] eqn:E; [|discriminate].
  intros [= <-] Hl H2. apply run_schema_ok in E as [-> [R1 R3]].
  pose proof (like_sqlite_suffix n "revs" H2 R1) as H1.
  pose proof (like_sqlite_suffix n "attachments" H2 R3) as H3.
  unfold AllDBs in *. injection Hl as <-.
  rewrite filter_app, map_app. f_equal. f_equal.
  cbn [filter is_table type name andb].
  change (n ++ "_revs") with (n ++ String "_" "revs").
  change (n ++ "_attachments") with (n ++ String "_" "attachments").
  rewrite H1, H2, H3. reflexivity.
Qed.

(** C10, on the code: CreateDB("sqlitex") succeeds on an empty file and
    creates the tables sqlitex_revs, sqlitex and sqlitex_attachments,
    none of which begins with [sqlite_]; AllDBs then returns no name at
    all, because the [_] of the pattern [sqlite_%] matches any
    character. *)
Theorem AllDBs_hides_sqlitex :
  fst (CreateDB [] "sqlitex") = Ok tt
  /\ map name (filter is_table (snd (CreateDB [] "sqlitex")))
     = ["sqlitex_revs"; "sqlitex"; "sqlitex_attachments"]
  /\ forallb (fun n => negb (prefix "sqlite_" n))
             ["sqlitex_revs"; "sqlitex"; "sqlitex_attachments"] = true
  /\ AllDBs (snd (CreateDB [] "sqlitex")) = Ok [].
Proof. repeat split; vm_compute; reflexivity. Qed.

(** For a name such as "test" the three tables are listed. *)
Example AllDBs_test :
  AllDBs (snd (CreateDB [] "test"))
  = Ok ["test_revs"; "test"; "test_attachments"].
Proof. vm_compute. reflexivity. Qed.

(** ** Stores the operations can produce *)

Lemma Put_appended (s : store) (docID : string) (doc : Doc)
    (options : Options) :
  appended s (snd (Put s docID doc options)).
Proof.
  unfold Put, extractRev. cbv beta iota.
  destruct (negb (opt_rev options =? "")%string
            && negb (doc_rev doc =? "")%string
            && negb (opt_rev options =? doc_rev doc)%string); [now left|].
  destruct (prepareDoc docID doc) as [data|e]; [|now left].
  destruct (negb (opt_new_edits options)).
  - match goal with |- context [(?x =? "")%string] =>
      destruct (x =? "")%string; [now left|] end.
    match goal with |- context [parseRev ?x] =>
      destruct (parseRev x) as [r|e] eqn:Hparse; [|now left] end.
    destruct (parseRev_ok _ _ Hparse) as [Hpos _].
    destruct (insert_rev (revs s) (mkRevRow docID (rev r) (rid r) None None))
      as [revs1|e] eqn:Hrev.
    + apply insert_rev_ok in Hrev as [-> [_ Hnode]].
      destruct (insert_doc _ _ _ _ _ _) as [docs1|[| [] |]] eqn:Hdoc;
        try now left.
      apply insert_doc_ok in Hdoc as [-> [Hfresh _]].
      right. exists docID, (rev r), (rid r), (DDoc data), (Deleted data).
      simpl. repeat split; auto. right. eauto.
    + apply insert_rev_err in Hrev as [-> Hnode].
      destruct (insert_doc _ _ _ _ _ _) as [docs1|[| [] |]] eqn:Hdoc;
        try now left.
      apply insert_doc_ok in Hdoc as [-> [Hfresh _]].
      right. exists docID, (rev r), (rid r), (DDoc data), (Deleted data).
      simpl. repeat split; auto.
  - match goal with |- context [negb ?b] => destruct (negb b); [now left|] end.
    match goal with |- context [insert_rev ?t ?r] =>
      destruct (insert_rev t r) as [revs1|e] eqn:Hrev; [|now left] end.
    apply insert_rev_ok in Hrev as [-> [_ Hnode]].
    match goal with |- context [insert_doc ?t ?i ?n ?h ?b ?d] =>
      destruct (insert_doc t i n h b d) as [docs1|e] eqn:Hdoc; [|now left] end.
    apply insert_doc_ok in Hdoc as [-> [Hfresh _]].
    right. eexists _, _, _, _, _. simpl.
    split; [reflexivity|]. split; [exact Hfresh|]. split; [exact Hnode|].
    right. eexists _, _. split; [reflexivity|].
    intros Hp. now apply next_rev_positive.
Qed.

Lemma Delete_appended (s : store) (docID : string) (options : Options) :
  appended s (snd (Delete s docID options)).
Proof.
  unfold Delete.
  destruct (prepareDoc docID deleted_doc) as [data|e]; [|now left].
  destruct (select_current (docs s) (ID data)) as [d|]; [|now left].
  match goal with |- context [negb ?b] => destruct (negb b); [now left|] end.
  match goal with |- context [insert_rev ?t ?r] =>
    destruct (insert_rev t r) as [revs1|e] eqn:Hrev; [|now left] end.
  apply insert_rev_ok in Hrev as [-> [_ Hnode]].
  match goal with |- context [insert_doc ?t ?i ?n ?h ?b ?dl] =>
    destruct (insert_doc t i n h b dl) as [docs1|e] eqn:Hdoc; [|now left] end.
  apply insert_doc_ok in Hdoc as [-> [Hfresh _]].
  right. eexists _, _, _, _, _. simpl.
  split; [reflexivity|]. split; [exact Hfresh|]. split; [exact Hnode|].
  right. eexists _, _. split; [reflexivity|].
  intros Hp. now apply next_rev_positive.
Qed.

Lemma appended_invariants (s s' : store) :
  appended s s' ->
  bodies_have_nodes s /\ nodes_positive s /\ body_keys_unique s ->
  bodies_have_nodes s' /\ nodes_positive s' /\ body_keys_unique s'.
Proof.
  intros [->|[i [n [h [body [del [Hdocs [Hfresh [Hnode Hrevs]]]]]]]]];
    [tauto|].
  intros [Hfk [Hpos Huniq]].
  assert (forall r, In r (revs s) -> In r (revs s')) as Hsub.
  { destruct Hrevs as [->|[pr [pri [-> _]]]]; auto.
    intros r Hr. apply in_or_app. now left. }
  split; [|split].
  - intros d Hd. rewrite Hdocs in Hd. apply in_app_or in Hd as [Hd|[<-|[]]].
    + specialize (Hfk d Hd). apply existsb_exists in Hfk as [r [Hr Hk]].
      apply existsb_exists. exists r. auto.
    + exact Hnode.
  - destruct Hrevs as [E|[pr [pri [E Hn]]]]; unfold nodes_positive;
      rewrite E; auto.
    intros r Hr. apply in_app_or in Hr as [Hr|[<-|[]]]; auto.
  - unfold body_keys_unique in *. rewrite Hdocs, map_app. simpl.
    apply NoDup_app; auto.
    + constructor; [intros []|constructor].
    + intros k Hk [<-|[]]. apply in_map_iff in Hk as [d [Hk Hd]].
      assert (existsb (doc_key_is i n h) (docs s) = true) as Hex.
      { apply existsb_exists. exists d. split; auto.
        now apply doc_key_is_iff. }
      congruence.
Qed.

(** Every store the operations produce keeps the foreign key of the body
    table, positive revision numbers and unique body keys. *)
Lemma reachable_invariants (s : store) :
  reachable s ->
  bodies_have_nodes s /\ nodes_positive s /\ body_keys_unique s.
Proof.
  induction 1 as [|s docID doc options _ IH|s docID options _ IH].
  - repeat split; try (intros x []). constructor.
  - exact (appended_invariants _ _ (Put_appended s docID doc options) IH).
  - exact (appended_invariants _ _ (Delete_appended s docID options) IH).
Qed.

(** ** Scenarios of the driver's tests (TestDBPut) *)

(** "create new document" *)
Example test_create_new_document :
  Put empty_store "foo" (plain "" (member "foo" "bar")) NilOption
  = (Ok "1-9bb58f26192e4ba00f01e2e7b136bbd8",
     mkStore [mkRevRow "foo" 1 "9bb58f26192e4ba00f01e2e7b136bbd8" None None]
             [mkDocRow 1 "foo" 1 "9bb58f26192e4ba00f01e2e7b136bbd8"
                       (member "foo" "bar") false]).
Proof. vm_compute. reflexivity. Qed.

(** "doc rev & option rev mismatch" *)
Example test_rev_mismatch :
  fst (Put empty_store "foo"
           (plain "1-1234567890abcdef1234567890abcdef" (member "foo" "bar"))
           (Rev "2-1234567890abcdef1234567890abcdef"))
  = Err (Error 400 "Document rev and option have different values").
Proof. vm_compute. reflexivity. Qed.

(** "update doc with correct rev" *)
Example test_update_with_correct_rev :
  Put one_doc "foo"
      (plain "1-9bb58f26192e4ba00f01e2e7b136bbd8" (member "foo" "baz"))
      NilOption
  = (Ok "2-afa7ae8a1906f4bb061be63525974f92",
     mkStore
       [mkRevRow "foo" 1 "9bb58f26192e4ba00f01e2e7b136bbd8" None None;
        mkRevRow "foo" 2 "afa7ae8a1906f4bb061be63525974f92" (Some 1)
                 (Some "9bb58f26192e4ba00f01e2e7b136bbd8")]
       [mkDocRow 1 "foo" 1 "9bb58f26192e4ba00f01e2e7b136bbd8"
                 (member "foo" "bar") false;
        mkDocRow 2 "foo" 2 "afa7ae8a1906f4bb061be63525974f92"
                 (member "foo" "baz") false]).
Proof. vm_compute. reflexivity. Qed.

(** "update doc with new_edits=false, no rev" *)
Example test_replication_without_rev :
  fst (Put empty_store "foo" (plain "" (member "foo" "baz")) (NewEdits false))
  = Err (Error 400
      "When `new_edits: false`, the document needs `_rev` or `_revisions` specified").
Proof. vm_compute. reflexivity. Qed.

(** "update doc with new_edits=false, existing doc": a second root. *)
Example test_replication_existing_doc :
  Put one_doc "foo" (plain "1-asdf" (member "foo" "baz")) (NewEdits false)
  = (Ok "1-asdf",
     mkStore
       [mkRevRow "foo" 1 "9bb58f26192e4ba00f01e2e7b136bbd8" None None;
        mkRevRow "foo" 1 "asdf" None None]
       [mkDocRow 1 "foo" 1 "9bb58f26192e4ba00f01e2e7b136bbd8"
                 (member "foo" "bar") false;
        mkDocRow 2 "foo" 1 "asdf" (member "foo" "baz") false]).
Proof. vm_compute. reflexivity. Qed.

(** "update doc with new_edits=false, existing doc and rev": the stored
    body stays as it was. *)
Example test_replication_existing_rev :
  Put one_doc "foo"
      (plain "1-9bb58f26192e4ba00f01e2e7b136bbd8" (member "foo" "baz"))
      (NewEdits false)
  = (Ok "1-9bb58f26192e4ba00f01e2e7b136bbd8", one_doc).
Proof. vm_compute. reflexivity. Qed.

(** "doc id in url and doc differ" *)
Example test_id_mismatch :
  fst (Put empty_store "foo"
           (mkDoc "bar" "" false None (member "foo" "baz") (member "foo" "baz"))
           NilOption)
  = Err (Error 400 "Document ID must match _id in document").
Proof. vm_compute. reflexivity. Qed.

(* ================================================================== *)
(** * Part III: further properties of the driver *)
(* ================================================================== *)

(** ** What a write commits *)

Lemma prepareDoc_ok (docID : string) (doc : Doc) (data : docData) :
  prepareDoc docID doc = Ok data ->
  data = mkDocData docID (MD5.hex (doc_canonical doc)) (doc_members doc)
                   (doc_deleted doc).
Proof.
  unfold prepareDoc.
  destruct (negb (doc_id doc =? "")%string && negb (doc_id doc =? docID)%string);
    [discriminate|]. now intros [= <-].
Qed.

Lemma Put_commit (s : store) (docID : string) (doc : Doc) (options : Options) :
  commit s (snd (Put s docID doc options)).
Proof.
  unfold Put, extractRev. cbv beta iota.
  destruct (negb (opt_rev options =? "")%string
            && negb (doc_rev doc =? "")%string
            && negb (opt_rev options =? doc_rev doc)%string); [constructor|].
  destruct (prepareDoc docID doc) as [data|e] eqn:Hprep; [|constructor].
  apply prepareDoc_ok in Hprep. subst data. cbn [ID DRev DDoc Deleted].
  destruct (negb (opt_new_edits options)).
  - match goal with |- context [(?x =? "")%string] =>
      destruct (x =? "")%string; [constructor|] end.
    match goal with |- context [parseRev ?x] =>
      destruct (parseRev x) as [r|e] eqn:Hparse; [|constructor] end.
    destruct (parseRev_ok _ _ Hparse) as [Hpos _].
    destruct (insert_rev (revs s) (mkRevRow docID (rev r) (rid r) None None))
      as [revs1|e] eqn:Hrev.
    + apply insert_rev_ok in Hrev as [-> [Hnew _]]. simpl in Hnew.
      destruct (insert_doc _ _ _ _ _ _) as [docs1|[| [] |]] eqn:Hdoc;
        try constructor.
      apply insert_doc_ok in Hdoc as [-> [Hfresh _]].
      now apply commit_root.
    + apply insert_rev_err in Hrev as [-> Hnode]. simpl in Hnode.
      destruct (insert_doc _ _ _ _ _ _) as [docs1|[| [] |]] eqn:Hdoc;
        try constructor.
      apply insert_doc_ok in Hdoc as [-> [Hfresh _]].
      now apply commit_body.
  - match goal with |- context [negb ?b] => destruct (negb b); [constructor|] end.
    match goal with |- context [insert_rev ?t ?r] =>
      destruct (insert_rev t r) as [revs1|e] eqn:Hrev; [|constructor] end.
    apply insert_rev_ok in Hrev as [-> _].
    match goal with |- context [insert_doc ?t ?i ?n ?h ?b ?d] =>
      destruct (insert_doc t i n h b d) as [docs1|e] eqn:Hdoc; [|constructor] end.
    apply insert_doc_ok in Hdoc as [-> [Hfresh _]]. simpl in Hfresh.
    exact (commit_child s docID _ _ _ Hfresh).
Qed.

Lemma Delete_commit (s : store) (docID : string) (options : Options) :
  commit s (snd (Delete s docID options)).
Proof.
  unfold Delete.
  destruct (prepareDoc docID deleted_doc) as [data|e] eqn:Hprep; [|constructor].
  apply prepareDoc_ok in Hprep. subst data. cbn [ID DRev DDoc Deleted].
  destruct (select_current (docs s) docID) as [d|] eqn:Hsel; [|constructor].
  match goal with |- context [negb ?b] => destruct (negb b); [constructor|] end.
  match goal with |- context [insert_rev ?t ?r] =>
    destruct (insert_rev t r) as [revs1|e] eqn:Hrev; [|constructor] end.
  apply insert_rev_ok in Hrev as [-> _].
  match goal with |- context [insert_doc ?t ?i ?n ?h ?b ?dl] =>
    destruct (insert_doc t i n h b dl) as [docs1|e] eqn:Hdoc; [|constructor] end.
  apply insert_doc_ok in Hdoc as [-> [Hfresh _]]. simpl in Hfresh.
  pose proof (commit_child s docID _ (doc_members deleted_doc) true Hfresh) as C.
  unfold current_revision in C. rewrite Hsel in C. exact C.
Qed.

(** ** Well-formed stores *)

Lemma existsb_app_l {A : Type} (p : A -> bool) (l l' : list A) :
  existsb p l = true -> existsb p (l ++ l') = true.
Proof. intros H. rewrite existsb_app, H. reflexivity. Qed.

Lemma existsb_app_r {A : Type} (p : A -> bool) (l l' : list A) :
  existsb p l' = true -> existsb p (l ++ l') = true.
Proof. intros H. rewrite existsb_app, H. apply orb_true_r. Qed.

Lemma NoDup_snoc {A : Type} (l : list A) (x : A) :
  NoDup l -> ~ In x l -> NoDup (l ++ [x]).
Proof.
  intros Hl Hx. apply NoDup_app; auto.
  - constructor; [intros []|constructor].
  - intros a Ha [<-|[]]. contradiction.
Qed.

Lemma StronglySorted_snoc (l : list Z) (y : Z) :
  StronglySorted Z.lt l -> (forall x, In x l -> x < y) ->
  StronglySorted Z.lt (l ++ [y]).
Proof.
  induction 1 as [|a l Hl IH Ha]; intros Hy; simpl.
  - repeat constructor.
  - constructor.
    + apply IH. intros x Hx. apply Hy. now right.
    + apply Forall_app. split; [exact Ha|].
      constructor; [|constructor]. apply Hy. now left.
Qed.

Lemma next_seq_above (t : list doc_row) (x : Z) :
  In x (map d_seq t) -> x < next_seq t.
Proof.
  intros Hx. unfold next_seq.
  destruct (sql_max_ge _ _ Hx) as [m [-> Hm]]. lia.
Qed.

Lemma seqs_increasing_snoc (s : store) (rs : list rev_row) (i : string)
    (n : Z) (h body : string) (del : bool) :
  seqs_increasing s ->
  seqs_increasing (mkStore rs (docs s ++ [new_body s i n h body del])).
Proof.
  unfold seqs_increasing. simpl. intros H. rewrite map_app. simpl.
  apply (StronglySorted_snoc (0 :: map d_seq (docs s))); [exact H|].
  intros x [<-|Hx]; [|now apply next_seq_above].
  inversion H as [|a l _ Hall]; subst. unfold next_seq.
  destruct (sql_max (map d_seq (docs s))) as [m|] eqn:E; [|lia].
  apply sql_max_In in E. rewrite Forall_forall in Hall.
  specialize (Hall m E). lia.
Qed.

Lemma has_parent_grows (s s' : store) (r : rev_row) :
  (forall x, In x (revs s) -> In x (revs s')) ->
  has_parent s r -> has_parent s' r.
Proof.
  intros Hsub [h [H1 [H2 H3]]]. exists h. repeat split; auto.
  apply existsb_exists in H3 as [x [Hx Hk]]. apply existsb_exists. eauto.
Qed.

Lemma node_of_key (t : list rev_row) (i : string) (n : Z) (h : string) :
  existsb (rev_key_is i n h) t = true <-> In (i, n, h) (map rev_key t).
Proof.
  rewrite existsb_exists, in_map_iff. unfold rev_key.
  split; intros [r [H1 H2]]; exists r.
  - apply rev_key_is_iff in H2 as [-> [-> ->]]. auto.
  - split; auto. injection H1 as <- <- <-. now apply rev_key_is_iff.
Qed.

Lemma body_of_key (t : list doc_row) (i : string) (n : Z) (h : string) :
  existsb (doc_key_is i n h) t = true <-> In (i, n, h) (map doc_key t).
Proof.
  rewrite existsb_exists, in_map_iff.
  split; intros [d [H1 H2]]; exists d.
  - apply doc_key_is_iff in H2. auto.
  - split; auto. now apply doc_key_is_iff.
Qed.

(** A well-formed store stays well-formed when a fresh node is appended
    together with its body row. *)
Lemma well_formed_grows (s : store) (nd : rev_row) (body : string)
    (del : bool) :
  well_formed s ->
  0 < r_rev nd ->
  existsb (rev_key_is (r_id nd) (r_rev nd) (r_rev_id nd)) (revs s) = false ->
  existsb (doc_key_is (r_id nd) (r_rev nd) (r_rev_id nd)) (docs s) = false ->
  is_root nd \/ has_parent s nd ->
  well_formed
    (mkStore (revs s ++ [nd])
       (docs s ++ [new_body s (r_id nd) (r_rev nd) (r_rev_id nd) body del])).
Proof.
  intros [Hfk Hnb Hpos Hbu Hnu Hseq Htree] Hn Hfresh_node Hfresh_body Hshape.
  assert (rev_key_is (r_id nd) (r_rev nd) (r_rev_id nd) nd = true) as Hnd
    by (now apply rev_key_is_iff).
  assert (doc_key_is (r_id nd) (r_rev nd) (r_rev_id nd)
            (new_body s (r_id nd) (r_rev nd) (r_rev_id nd) body del) = true)
    as Hbd by (now apply doc_key_is_iff).
  constructor; simpl.
  - intros d Hd. simpl in *. apply in_app_or in Hd as [Hd|[<-|[]]].
    + apply existsb_app_l. now apply Hfk.
    + apply existsb_app_r. simpl. now rewrite Hnd.
  - intros r Hr. simpl in *. apply in_app_or in Hr as [Hr|[<-|[]]].
    + apply existsb_app_l. now apply Hnb.
    + apply existsb_app_r. simpl. now rewrite Hbd.
  - intros r Hr. simpl in *. apply in_app_or in Hr as [Hr|[<-|[]]]; auto.
  - unfold body_keys_unique in *. simpl. rewrite map_app. simpl.
    apply NoDup_snoc; auto. intros Hin. apply body_of_key in Hin.
    unfold doc_key in Hin. simpl in Hin. congruence.
  - unfold node_keys_unique in *. simpl. rewrite map_app. simpl.
    apply NoDup_snoc; auto. intros Hin. apply node_of_key in Hin. congruence.
  - now apply seqs_increasing_snoc.
  - intros r Hr. simpl in *.
    assert (forall x, In x (revs s) -> In x (revs s ++ [nd])) as Hsub
      by (intros x Hx; apply in_or_app; now left).
    apply in_app_or in Hr as [Hr|[<-|[]]].
    + destruct (Htree r Hr) as [H|H]; [now left|right].
      now apply (has_parent_grows s).
    + destruct Hshape as [H|H]; [now left|right].
      now apply (has_parent_grows s).
Qed.

(** In a well-formed store the revision numbers of the tree and of the
    body table agree, so the next revision number is one more than that
    of the current revision. *)
Lemma next_rev_of_current (s : store) (i : string) (w : doc_row) :
  bodies_have_nodes s -> nodes_have_bodies s ->
  select_current (docs s) i = Some w ->
  next_rev (revs s) i = d_rev w + 1.
Proof.
  intros Hfk Hnb Hw.
  destruct (select_current_spec _ _ _ Hw) as [Hin [Hid Hmax]].
  pose proof (Hfk w Hin) as Hnode.
  apply existsb_exists in Hnode as [r [Hr Hk]].
  apply rev_key_is_iff in Hk as [Hri [Hrn _]].
  assert (In (r_rev r)
            (map r_rev (filter (fun r => (r_id r =? i)%string) (revs s))))
    as Hin'.
  { apply in_map. apply filter_In. split; auto.
    apply String.eqb_eq. congruence. }
  destruct (sql_max_ge _ _ Hin') as [m [E Hle]].
  unfold next_rev. rewrite E. simpl.
  apply sql_max_In in E. apply in_map_iff in E as [r' [Hm Hr']].
  apply filter_In in Hr' as [Hr' Hi']. apply String.eqb_eq in Hi'.
  pose proof (Hnb r' Hr') as Hbody.
  apply existsb_exists in Hbody as [d [Hd Hdk]].
  apply doc_key_is_iff in Hdk. injection Hdk as Hdi Hdn _.
  specialize (Hmax d Hd (eq_trans Hdi Hi')).
  unfold rev_compare in Hmax.
  destruct (Z.compare_spec (d_rev d) (d_rev w)) as [E1|E1|E1];
    try lia. now elim Hmax.
Qed.

Lemma next_rev_of_absent (s : store) (i : string) :
  nodes_have_bodies s ->
  select_current (docs s) i = None ->
  next_rev (revs s) i = 1.
Proof.
  intros Hnb Hnone. rewrite select_current_none in Hnone. unfold next_rev.
  destruct (sql_max (map r_rev (filter (fun r => (r_id r =? i)%string) (revs s))))
    as [m|] eqn:E; [|reflexivity].
  apply sql_max_In in E. apply in_map_iff in E as [r [_ Hr]].
  apply filter_In in Hr as [Hr Hi]. apply String.eqb_eq in Hi.
  pose proof (Hnb r Hr) as Hbody.
  apply existsb_exists in Hbody as [d [Hd Hdk]].
  apply doc_key_is_iff in Hdk. injection Hdk as Hdi _ _.
  now elim (Hnone d Hd (eq_trans Hdi Hi)).
Qed.

Lemma commit_well_formed (s s' : store) :
  well_formed s -> commit s s' -> well_formed s'.
Proof.
  intros Hwf C. destruct C as [|i n h body del Hnode Hfresh
                                |i n h body del Hn Hnode Hfresh
                                |i h body del Hfresh].
  - exact Hwf.
  - (* a node without a body row does not occur *)
    exfalso. apply existsb_exists in Hnode as [r [Hr Hk]].
    apply rev_key_is_iff in Hk as [<- [<- <-]].
    pose proof (wf_nodes_have_bodies s Hwf r Hr). congruence.
  - apply (well_formed_grows s (mkRevRow i n h None None) body del); auto.
    left. split; reflexivity.
  - set (cur := current_revision (docs s) i).
    apply (well_formed_grows s
             (mkRevRow i (next_rev (revs s) i) h
                (if rev cur =? 0 then None else Some (rev cur))
                (if rev cur =? 0 then None else Some (rid cur))) body del);
      simpl; auto.
    + apply next_rev_positive. exact (wf_nodes_positive s Hwf).
    + apply next_rev_fresh.
    + destruct (Z.eqb_spec (rev cur) 0) as [E|E];
        [left; split; reflexivity|right].
      unfold cur, current_revision in *.
      destruct (select_current (docs s) i) as [w|] eqn:Hw;
        [|now elim E].
      simpl in *. exists (d_rev_id w).
      rewrite (next_rev_of_current s i w (wf_bodies_have_nodes s Hwf)
                 (wf_nodes_have_bodies s Hwf) Hw).
      simpl. replace (d_rev w + 1 - 1) with (d_rev w) by lia.
      split; [reflexivity|]. split; [reflexivity|].
      destruct (select_current_spec _ _ _ Hw) as [Hin [Hid _]].
      rewrite <- Hid. exact (wf_bodies_have_nodes s Hwf w Hin).
Qed.

Lemma empty_store_well_formed : well_formed empty_store.
Proof.
  constructor; try (intros x []); try constructor.
  - constructor.
  - constructor.
Qed.

(** Every store that Put and Delete produce from an empty database is
    well-formed. *)
Lemma reachable_well_formed (s : store) : reachable s -> well_formed s.
Proof.
  induction 1 as [|s docID doc options _ IH|s docID options _ IH].
  - exact empty_store_well_formed.
  - exact (commit_well_formed _ _ IH (Put_commit s docID doc options)).
  - exact (commit_well_formed _ _ IH (Delete_commit s docID options)).
Qed.

(** ** Stores produced from an empty database *)

Lemma reachable_keys_agree (s : store) :
  reachable s -> map rev_key (revs s) = map doc_key (docs s).
Proof.
  intros R.
  assert (forall s s', well_formed s -> commit s s' ->
            map rev_key (revs s) = map doc_key (docs s) ->
            map rev_key (revs s') = map doc_key (docs s')) as Hstep.
  { intros t t' Hwf C E.
    destruct C as [|i n h body del Hnode Hfresh|i n h body del _ _ _
                  |i h body del _]; auto; simpl.
    - exfalso. apply existsb_exists in Hnode as [r [Hr Hk]].
      apply rev_key_is_iff in Hk as [<- [<- <-]].
      pose proof (wf_nodes_have_bodies t Hwf r Hr). congruence.
    - rewrite !map_app, E. reflexivity.
    - rewrite !map_app, E. reflexivity. }
  induction R as [|s docID doc options R IH|s docID options R IH].
  - reflexivity.
  - exact (Hstep _ _ (reachable_well_formed s R) (Put_commit _ _ _ _) IH).
  - exact (Hstep _ _ (reachable_well_formed s R) (Delete_commit _ _ _) IH).
Qed.

(** X1: in every store that Put and Delete produce from an empty
    database, the revision tree and the body table hold the same
    (id, rev, rev_id) keys in the same order, no key occurs twice, and
    every rev is positive. *)
Theorem reachable_tables_agree (s : store) :
  reachable s ->
  map rev_key (revs s) = map doc_key (docs s)
  /\ NoDup (map doc_key (docs s))
  /\ (forall d, In d (docs s) -> 0 < d_rev d).
Proof.
  intros R. pose proof (reachable_well_formed s R) as Hwf.
  split; [now apply reachable_keys_agree|].
  split; [exact (wf_body_keys_unique s Hwf)|].
  intros d Hd.
  exact (bodies_positive s d (wf_bodies_have_nodes s Hwf)
           (wf_nodes_positive s Hwf) Hd).
Qed.

Lemma two_revisions_reachable : reachable two_revisions.
Proof. unfold two_revisions. apply reach_Put. apply reach_Put. constructor. Qed.

Lemma two_revisions_revs :
  revs two_revisions
  = [mkRevRow "foo" 1 "274558516009acbe973682d27a58b598" None None;
     mkRevRow "foo" 2 "c1f7f9ed8874502b095381186a35af4b" (Some 1)
              (Some "274558516009acbe973682d27a58b598")].
Proof. vm_compute. reflexivity. Qed.

Lemma reachable_tables_agree_witness :
  reachable two_revisions
  /\ map rev_key (revs two_revisions) = map doc_key (docs two_revisions)
  /\ NoDup (map doc_key (docs two_revisions))
  /\ (forall d, In d (docs two_revisions) -> 0 < d_rev d).
Proof.
  split; [exact two_revisions_reachable|].
  exact (reachable_tables_agree two_revisions two_revisions_reachable).
Defined.

(** X2: in every store that Put and Delete produce from an empty
    database, each revision node is either a root, with both parent
    columns NULL, or points to a node of the same document that is in the
    tree and whose rev is exactly one less. *)
Theorem reachable_tree_shape (s : store) (r : rev_row) :
  reachable s -> In r (revs s) ->
  (r_parent_rev r = None /\ r_parent_rev_id r = None)
  \/ exists p,
       In p (revs s) /\ r_id p = r_id r /\ r_rev p = r_rev r - 1
       /\ r_parent_rev r = Some (r_rev p)
       /\ r_parent_rev_id r = Some (r_rev_id p).
Proof.
  intros R Hr. pose proof (reachable_well_formed s R) as Hwf.
  destruct (wf_tree_shaped s Hwf r Hr) as [H|[h [H1 [H2 H3]]]]; [now left|].
  right. apply existsb_exists in H3 as [p [Hp Hk]].
  apply rev_key_is_iff in Hk as [Hi [Hn Hh]].
  exists p. rewrite Hn, Hh. auto.
Qed.

Lemma reachable_tree_shape_witness :
  reachable two_revisions
  /\ In (mkRevRow "foo" 2 "c1f7f9ed8874502b095381186a35af4b" (Some 1)
                  (Some "274558516009acbe973682d27a58b598"))
        (revs two_revisions)
  /\ exists p,
       In p (revs two_revisions) /\ r_id p = "foo" /\ r_rev p = 2 - 1
       /\ Some 1 = Some (r_rev p)
       /\ Some "274558516009acbe973682d27a58b598" = Some (r_rev_id p).
Proof.
  assert (In (mkRevRow "foo" 2 "c1f7f9ed8874502b095381186a35af4b" (Some 1)
                       (Some "274558516009acbe973682d27a58b598"))
             (revs two_revisions)) as Hin
    by (rewrite two_revisions_revs; right; left; reflexivity).
  split; [exact two_revisions_reachable|]. split; [exact Hin|].
  destruct (reachable_tree_shape two_revisions _ two_revisions_reachable Hin)
    as [[H _]|H]; [discriminate H | exact H].
Defined.





(** ** The revision codec, from printing to parsing *)

Lemma cut_dash_numeral (d : Decimal.uint) (h : string) :
  cut_dash (NilEmpty.string_of_uint d ++ "-" ++ h)
  = Some (NilEmpty.string_of_uint d, h).
Proof. induction d; simpl in *; try rewrite IHd; reflexivity. Qed.

Lemma unorm_D0 (x y : Decimal.uint) :
  Decimal.unorm x = Decimal.D0 y -> y = Decimal.Nil.
Proof.
  induction x; cbn; intros H; try discriminate; auto.
  injection H; auto.
Qed.

Lemma to_uint_positive_numeral (p : positive) :
  positive_numeral (Pos.to_uint p) = true.
Proof.
  assert (Decimal.unorm (Pos.to_uint p) = Pos.to_uint p) as Hn.
  { pose proof (DecimalPos.Unsigned.to_of (Pos.to_uint p)) as T.
    rewrite DecimalPos.Unsigned.of_to in T. symmetry. exact T. }
  pose proof (DecimalPos.Unsigned.to_uint_nonnil p) as Hnil.
  pose proof (DecimalPos.Unsigned.to_uint_nonzero p) as Hz.
  destruct (Pos.to_uint p) as [|d|d|d|d|d|d|d|d|d|d]; try reflexivity.
  - now elim Hnil.
  - simpl in Hn. apply unorm_D0 in Hn. subst d. now elim Hz.
Qed.

(** Printing is the inverse of parsing as well: the text of a revision
    with a positive [rev] parses to that revision. *)
Lemma parseRev_format (n : Z) (h : string) :
  0 < n -> parseRev (sql_rev_string n h) = Ok (mkRevision n h).
Proof.
  intros Hn. destruct n as [|p|p]; try lia.
  pose proof (to_uint_positive_numeral p) as Hp.
  assert (Z.of_uint (Pos.to_uint p) = Z.pos p) as Hz.
  { unfold Z.of_uint. now rewrite DecimalPos.Unsigned.of_to. }
  unfold parseRev, sql_rev_string.
  replace (itoa (Z.pos p)) with (NilEmpty.string_of_uint (Pos.to_uint p))
    by (rewrite <- (positive_numeral_itoa _ Hp); now rewrite Hz).
  rewrite cut_dash_numeral, NilEmpty.usu, Hp, Hz. reflexivity.
Qed.

Lemma sql_rev_string_inj (n n' : Z) (h h' : string) :
  0 < n -> 0 < n' -> sql_rev_string n h = sql_rev_string n' h' ->
  n = n' /\ h = h'.
Proof.
  intros Hn Hn' E. pose proof (parseRev_format n h Hn) as P.
  rewrite E, (parseRev_format n' h' Hn') in P. now injection P.
Qed.

Lemma sql_rev_string_nonempty (n : Z) (h : string) :
  (sql_rev_string n h =? "")%string = false.
Proof. unfold sql_rev_string. destruct (itoa n); reflexivity. Qed.

Lemma revision_String_positive (n : Z) (h : string) :
  0 < n -> revision_String (mkRevision n h) = sql_rev_string n h.
Proof.
  intros Hn. unfold revision_String. simpl.
  destruct (Z.eqb_spec n 0); [lia|reflexivity].
Qed.

(** ** The current revision after a write *)

Lemma select_current_newest (t : list doc_row) (i : string) (w : doc_row) :
  d_id w = i ->
  (forall d, In d t -> d_id d = i -> d_rev d < d_rev w) ->
  select_current (t ++ [w]) i = Some w.
Proof.
  intros Hi Hlt.
  assert (In w (t ++ [w])) as Hw by (apply in_or_app; right; now left).
  destruct (select_current_some _ _ _ Hw Hi) as [w' Hsel]. rewrite Hsel.
  destruct (select_current_spec _ _ _ Hsel) as [Hin [Hid Hmax]].
  apply in_app_or in Hin as [Hin|[<-|[]]]; [|reflexivity].
  exfalso. apply (Hmax w Hw Hi). unfold rev_compare.
  specialize (Hlt w' Hin Hid). apply Z.compare_gt_iff in Hlt.
  now rewrite Hlt.
Qed.

Lemma select_by_key_fresh (t : list doc_row) (w : doc_row) :
  existsb (doc_key_is (d_id w) (d_rev w) (d_rev_id w)) t = false ->
  hd_error (filter (doc_key_is (d_id w) (d_rev w) (d_rev_id w)) (t ++ [w]))
  = Some w.
Proof.
  intros Hfresh. rewrite filter_app.
  assert (filter (doc_key_is (d_id w) (d_rev w) (d_rev_id w)) t = []) as ->.
  { induction t as [|x t IH]; [reflexivity|]. simpl in *.
    apply orb_false_iff in Hfresh as [-> Ht]. now apply IH. }
  simpl. assert (doc_key_is (d_id w) (d_rev w) (d_rev_id w) w = true) as ->
    by (now apply doc_key_is_iff).
  reflexivity.
Qed.

Lemma bodies_below_next_rev (s : store) (i : string) (d : doc_row) :
  bodies_have_nodes s -> In d (docs s) -> d_id d = i ->
  d_rev d < next_rev (revs s) i.
Proof.
  intros Hfk Hd Hi. pose proof (Hfk d Hd) as Hnode.
  apply existsb_exists in Hnode as [r [Hr Hk]].
  apply rev_key_is_iff in Hk as [Hri [Hrn _]]. rewrite <- Hrn.
  apply next_rev_above; congruence.
Qed.

Lemma select_by_key_new (t : list doc_row) (x : Z) (i : string) (n : Z)
    (h body : string) (del : bool) :
  existsb (doc_key_is i n h) t = false ->
  hd_error (filter (doc_key_is i n h) (t ++ [mkDocRow x i n h body del]))
  = Some (mkDocRow x i n h body del).
Proof. intros H. exact (select_by_key_fresh t (mkDocRow x i n h body del) H). Qed.

Lemma next_rev_current (s : store) (i : string) :
  well_formed s ->
  next_rev (revs s) i = rev (current_revision (docs s) i) + 1.
Proof.
  intros Hwf. unfold current_revision.
  destruct (select_current (docs s) i) as [w|] eqn:Hw; simpl.
  - exact (next_rev_of_current s i w (wf_bodies_have_nodes s Hwf)
             (wf_nodes_have_bodies s Hwf) Hw).
  - exact (next_rev_of_absent s i (wf_nodes_have_bodies s Hwf) Hw).
Qed.

(** ** The outcome of an interactive write *)

Lemma Put_invalid (s : store) (docID : string) (doc : Doc) (options : Options) :
  ~ ((opt_rev options = "" \/ doc_rev doc = ""
      \/ opt_rev options = doc_rev doc)
     /\ (doc_id doc = "" \/ doc_id doc = docID)) ->
  Put s docID doc options
  = (Err (Error StatusBadRequest
            "Document rev and option have different values"), s)
  \/ Put s docID doc options
     = (Err (Error StatusBadRequest "Document ID must match _id in document"),
        s).
Proof.
  intros Hbad. unfold Put, extractRev, prepareDoc. cbv beta iota.
  destruct (String.eqb_spec (opt_rev options) "") as [Eo|Eo];
    destruct (String.eqb_spec (doc_rev doc) "") as [Ed|Ed];
    destruct (String.eqb_spec (opt_rev options) (doc_rev doc)) as [Eod|Eod];
    cbn [negb andb]; try (left; reflexivity);
    destruct (String.eqb_spec (doc_id doc) "") as [Ei|Ei];
    destruct (String.eqb_spec (doc_id doc) docID) as [Eid|Eid];
    cbn [negb andb]; try (right; reflexivity); exfalso; apply Hbad; tauto.
Qed.

Lemma Put_new_edits_outcome (s : store) (docID : string) (doc : Doc)
    (options : Options) :
  well_formed s -> opt_new_edits options = true ->
  Put s docID doc options
  = (Err (Error StatusBadRequest
            "Document rev and option have different values"), s)
  \/ Put s docID doc options
     = (Err (Error StatusBadRequest "Document ID must match _id in document"),
        s)
  \/ (revision_String (current_revision (docs s) docID)
        <> effective_rev doc options
      /\ Put s docID doc options = (Err Conflict, s))
  \/ (revision_String (current_revision (docs s) docID)
        = effective_rev doc options
      /\ Put s docID doc options
         = (Ok (sql_rev_string (next_rev (revs s) docID)
                               (MD5.hex (doc_canonical doc))),
            with_child s docID (MD5.hex (doc_canonical doc))
                       (doc_members doc) (doc_deleted doc))).
Proof.
  intros Hwf Hne.
  assert (((opt_rev options = "" \/ doc_rev doc = ""
            \/ opt_rev options = doc_rev doc)
           /\ (doc_id doc = "" \/ doc_id doc = docID))
          \/ ~ ((opt_rev options = "" \/ doc_rev doc = ""
                 \/ opt_rev options = doc_rev doc)
                /\ (doc_id doc = "" \/ doc_id doc = docID))) as [[Hrev Hid]|Hbad].
  { destruct (String.eqb_spec (opt_rev options) "");
      destruct (String.eqb_spec (doc_rev doc) "");
      destruct (String.eqb_spec (opt_rev options) (doc_rev doc));
      destruct (String.eqb_spec (doc_id doc) "");
      destruct (String.eqb_spec (doc_id doc) docID); tauto. }
  - rewrite (Put_new_edits_unfold s docID doc options Hne Hrev Hid).
    rewrite (insert_child_ok s _ _ _ (wf_bodies_have_nodes s Hwf)
               (wf_nodes_positive s Hwf)).
    cbn [ID DRev DDoc].
    destruct (String.eqb_spec
                (revision_String (current_revision (docs s) docID))
                (effective_rev doc options)) as [E|E]; cbn [negb].
    + right; right; right. split; [exact E|reflexivity].
    + right; right; left. split; [exact E|reflexivity].
  - destruct (Put_invalid s docID doc options Hbad) as [H|H];
      [left|right; left]; exact H.
Qed.

Lemma Delete_unfold (s : store) (docID : string) (options : Options) :
  Delete s docID options
  = match select_current (docs s) docID with
    | None => (Err NotFound, s)
    | Some d =>
        if negb (revision_String (mkRevision (d_rev d) (d_rev_id d))
                 =? opt_rev options)%string
        then (Err Conflict, s)
        else insert_child s
               (mkDocData docID (MD5.hex (doc_canonical deleted_doc)) "{}" true)
               (mkRevision (d_rev d) (d_rev_id d)) true
    end.
Proof. reflexivity. Qed.

Lemma Delete_outcome (s : store) (docID : string) (options : Options) :
  well_formed s ->
  ((forall d, In d (docs s) -> d_id d <> docID)
   /\ Delete s docID options = (Err NotFound, s))
  \/ (exists w,
        select_current (docs s) docID = Some w
        /\ opt_rev options <> sql_rev_string (d_rev w) (d_rev_id w)
        /\ Delete s docID options = (Err Conflict, s))
  \/ (exists w,
        select_current (docs s) docID = Some w
        /\ opt_rev options = sql_rev_string (d_rev w) (d_rev_id w)
        /\ Delete s docID options
           = (Ok (sql_rev_string (next_rev (revs s) docID)
                                 (MD5.hex (doc_canonical deleted_doc))),
              with_child s docID (MD5.hex (doc_canonical deleted_doc))
                         "{}" true)).
Proof.
  intros Hwf. rewrite Delete_unfold.
  pose proof (wf_bodies_have_nodes s Hwf) as Hfk.
  pose proof (wf_nodes_positive s Hwf) as Hpos.
  destruct (select_current (docs s) docID) as [w|] eqn:Hw.
  - right.
    pose proof (current_revision_present s docID w Hfk Hpos Hw) as Hcur.
    unfold current_revision in Hcur. rewrite Hw in Hcur. rewrite Hcur.
    rewrite (insert_child_ok s _ _ _ Hfk Hpos). cbn [ID DRev DDoc].
    destruct (String.eqb_spec (sql_rev_string (d_rev w) (d_rev_id w))
                              (opt_rev options)) as [E|E]; cbn [negb].
    + right. exists w. split; [reflexivity|]. split; [now symmetry|].
      unfold with_child, child_node, new_body, current_revision.
      rewrite Hw. reflexivity.
    + left. exists w. split; [reflexivity|]. split; [congruence|reflexivity].
  - left. split; [|reflexivity]. now apply select_current_none.
Qed.

(** ** Reading back what was written *)

Lemma Get_after_child (s : store) (i h body : string) (del : bool) :
  well_formed s ->
  Get (with_child s i h body del) i
      (Rev (sql_rev_string (next_rev (revs s) i) h))
  = Ok (mkDocument (sql_rev_string (next_rev (revs s) i) h) body
                   None None None)
  /\ Get (with_child s i h body del) i NilOption
     = if del then Err NotFound
       else Ok (mkDocument (sql_rev_string (next_rev (revs s) i) h) body
                           None None None).
Proof.
  intros Hwf.
  pose proof (wf_bodies_have_nodes s Hwf) as Hfk.
  pose proof (next_rev_positive (revs s) i (wf_nodes_positive s Hwf)) as Hn.
  split.
  - unfold Get, Rev.
    cbn [opt_rev opt_meta opt_conflicts opt_deleted_conflicts opt_revs_info orb].
    rewrite sql_rev_string_nonempty. cbn [negb].
    rewrite (parseRev_format _ h Hn). cbn [rev rid].
    unfold with_child, new_body. cbn [docs].
    rewrite select_by_key_new by (apply next_rev_fresh_body; exact Hfk).
    cbn [option_map d_doc]. rewrite (revision_String_positive _ h Hn).
    reflexivity.
  - unfold Get, NilOption.
    cbn [opt_rev opt_meta opt_conflicts opt_deleted_conflicts opt_revs_info orb].
    change (("" =? "")%string) with true. cbn [negb].
    unfold with_child, new_body. cbn [docs].
    rewrite select_current_newest.
    + cbn [d_rev d_rev_id d_doc d_deleted]. destruct del; [reflexivity|].
      rewrite (revision_String_positive _ h Hn). reflexivity.
    + reflexivity.
    + intros d Hd Hi. cbn [d_rev].
      exact (bodies_below_next_rev s i d Hfk Hd Hi).
Qed.

Lemma one_doc_reachable : reachable one_doc.
Proof. unfold one_doc. apply reach_Put. constructor. Qed.

Lemma reachable_after_Put (s s' : store) (docID : string) (doc : Doc)
    (options : Options) (r : result string) :
  reachable s -> Put s docID doc options = (r, s') -> reachable s'.
Proof.
  intros R HP. pose proof (reach_Put s docID doc options R) as R'.
  rewrite HP in R'. exact R'.
Qed.



(** X5: in every store that Put and Delete produce from an empty
    database, a successful Put with new_edits=true was given the current
    revision as its rev (none when the document has no body row), returns
    the revision whose number is one more than the current one and whose
    id is the MD5 of the canonical body, and appends exactly one node,
    whose parent is the current revision, and one body row. *)
Theorem Put_extends_current_revision (s s' : store) (docID : string)
    (doc : Doc) (options : Options) (rv : string) :
  reachable s -> opt_new_edits options = true ->
  Put s docID doc options = (Ok rv, s') ->
  effective_rev doc options
  = revision_String (current_revision (docs s) docID)
  /\ rv = sql_rev_string (rev (current_revision (docs s) docID) + 1)
                         (MD5.hex (doc_canonical doc))
  /\ revs s'
     = (revs s ++
        [mkRevRow docID (rev (current_revision (docs s) docID) + 1)
           (MD5.hex (doc_canonical doc))
           (if rev (current_revision (docs s) docID) =? 0 then None
            else Some (rev (current_revision (docs s) docID)))
           (if rev (current_revision (docs s) docID) =? 0 then None
            else Some (rid (current_revision (docs s) docID)))])%list
  /\ docs s'
     = (docs s ++
        [mkDocRow (next_seq (docs s)) docID
           (rev (current_revision (docs s) docID) + 1)
           (MD5.hex (doc_canonical doc)) (doc_members doc)
           (doc_deleted doc)])%list.
Proof.
  intros R Hne HP. pose proof (reachable_well_formed s R) as Hwf.
  destruct (Put_new_edits_outcome s docID doc options Hwf Hne)
    as [H|[H|[[Hc H]|[Hc H]]]];
    rewrite H in HP; try discriminate HP; injection HP as Hrv Hs.
  subst rv s'. unfold with_child, child_node, new_body. cbn [revs docs].
  rewrite (next_rev_current s docID Hwf). auto.
Qed.

Lemma Put_extends_current_revision_witness :
  reachable one_doc
  /\ opt_new_edits (Rev "1-9bb58f26192e4ba00f01e2e7b136bbd8") = true
  /\ Put one_doc "foo" (plain "" (member "foo" "baz"))
         (Rev "1-9bb58f26192e4ba00f01e2e7b136bbd8")
     = (Ok "2-afa7ae8a1906f4bb061be63525974f92",
        mkStore
          [mkRevRow "foo" 1 "9bb58f26192e4ba00f01e2e7b136bbd8" None None;
           mkRevRow "foo" 2 "afa7ae8a1906f4bb061be63525974f92" (Some 1)
                    (Some "9bb58f26192e4ba00f01e2e7b136bbd8")]
          [mkDocRow 1 "foo" 1 "9bb58f26192e4ba00f01e2e7b136bbd8"
                    (member "foo" "bar") false;
           mkDocRow 2 "foo" 2 "afa7ae8a1906f4bb061be63525974f92"
                    (member "foo" "baz") false])
  /\ effective_rev (plain "" (member "foo" "baz"))
                   (Rev "1-9bb58f26192e4ba00f01e2e7b136bbd8")
     = revision_String (current_revision (docs one_doc) "foo").
Proof.
  assert (Put one_doc "foo" (plain "" (member "foo" "baz"))
              (Rev "1-9bb58f26192e4ba00f01e2e7b136bbd8")
          = (Ok "2-afa7ae8a1906f4bb061be63525974f92",
             mkStore
               [mkRevRow "foo" 1 "9bb58f26192e4ba00f01e2e7b136bbd8" None None;
                mkRevRow "foo" 2 "afa7ae8a1906f4bb061be63525974f92" (Some 1)
                         (Some "9bb58f26192e4ba00f01e2e7b136bbd8")]
               [mkDocRow 1 "foo" 1 "9bb58f26192e4ba00f01e2e7b136bbd8"
                         (member "foo" "bar") false;
                mkDocRow 2 "foo" 2 "afa7ae8a1906f4bb061be63525974f92"
                         (member "foo" "baz") false])) as HP
    by (vm_compute; reflexivity).
  exact (conj one_doc_reachable (conj eq_refl (conj HP
           (proj1 (Put_extends_current_revision _ _ _ _
                     (Rev "1-9bb58f26192e4ba00f01e2e7b136bbd8") _
                     one_doc_reachable eq_refl HP))))).
Defined.

(** X6: in every store that Put and Delete produce from an empty
    database, what a successful Put with new_edits=true wrote can be read
    back: Get with the returned rev gives the stored members under that
    rev, and Get without a rev gives the same document, or NotFound when
    the body was written with _deleted set. *)
Theorem Put_then_Get (s s' : store) (docID : string) (doc : Doc)
    (options : Options) (rv : string) :
  reachable s -> opt_new_edits options = true ->
  Put s docID doc options = (Ok rv, s') ->
  Get s' docID (Rev rv) = Ok (mkDocument rv (doc_members doc) None None None)
  /\ Get s' docID NilOption
     = if doc_deleted doc then Err NotFound
       else Ok (mkDocument rv (doc_members doc) None None None).
Proof.
  intros R Hne HP. pose proof (reachable_well_formed s R) as Hwf.
  destruct (Put_new_edits_outcome s docID doc options Hwf Hne)
    as [H|[H|[[Hc H]|[Hc H]]]];
    rewrite H in HP; try discriminate HP; injection HP as Hrv Hs.
  subst rv s'. now apply Get_after_child.
Qed.

Lemma Put_then_Get_witness :
  reachable empty_store
  /\ opt_new_edits NilOption = true
  /\ Put empty_store "foo" (plain "" (member "foo" "bar")) NilOption
     = (Ok "1-9bb58f26192e4ba00f01e2e7b136bbd8",
        mkStore [mkRevRow "foo" 1 "9bb58f26192e4ba00f01e2e7b136bbd8" None None]
                [mkDocRow 1 "foo" 1 "9bb58f26192e4ba00f01e2e7b136bbd8"
                          (member "foo" "bar") false])
  /\ Get (mkStore
            [mkRevRow "foo" 1 "9bb58f26192e4ba00f01e2e7b136bbd8" None None]
            [mkDocRow 1 "foo" 1 "9bb58f26192e4ba00f01e2e7b136bbd8"
                      (member "foo" "bar") false])
         "foo" (Rev "1-9bb58f26192e4ba00f01e2e7b136bbd8")
     = Ok (mkDocument "1-9bb58f26192e4ba00f01e2e7b136bbd8"
                      (doc_members (plain "" (member "foo" "bar")))
                      None None None).
Proof.
  assert (Put empty_store "foo" (plain "" (member "foo" "bar")) NilOption
          = (Ok "1-9bb58f26192e4ba00f01e2e7b136bbd8",
             mkStore
               [mkRevRow "foo" 1 "9bb58f26192e4ba00f01e2e7b136bbd8" None None]
               [mkDocRow 1 "foo" 1 "9bb58f26192e4ba00f01e2e7b136bbd8"
                         (member "foo" "bar") false])) as HP
    by (vm_compute; reflexivity).
  exact (conj reach_empty (conj eq_refl (conj HP
           (proj1 (Put_then_Get _ _ _ _ NilOption _ reach_empty eq_refl HP))))).
Defined.

Lemma current_revision_after_child (s : store) (i h body : string)
    (del : bool) :
  well_formed s ->
  current_revision (docs (with_child s i h body del)) i
  = mkRevision (next_rev (revs s) i) h.
Proof.
  intros Hwf. unfold current_revision, with_child, new_body. cbn [docs].
  rewrite select_current_newest; [reflexivity|reflexivity|].
  intros d Hd Hi. cbn [d_rev].
  exact (bodies_below_next_rev s i d (wf_bodies_have_nodes s Hwf) Hd Hi).
Qed.

Lemma current_revision_cases (s : store) (i : string) :
  well_formed s ->
  (rev (current_revision (docs s) i) = 0
   /\ revision_String (current_revision (docs s) i) = "")
  \/ (0 < rev (current_revision (docs s) i)
      /\ revision_String (current_revision (docs s) i)
         = sql_rev_string (rev (current_revision (docs s) i))
                          (rid (current_revision (docs s) i))).
Proof.
  intros Hwf. unfold current_revision.
  destruct (select_current (docs s) i) as [w|] eqn:Hw.
  - right. destruct (select_current_spec _ _ _ Hw) as [Hin _].
    pose proof (bodies_positive s w (wf_bodies_have_nodes s Hwf)
                  (wf_nodes_positive s Hwf) Hin) as Hn.
    cbn [rev rid]. split; [exact Hn|]. now apply revision_String_positive.
  - left. split; reflexivity.
Qed.

(** The revision a write has just replaced is no longer the current
    one. *)
Lemma superseded (s : store) (i h body : string) (del : bool) :
  well_formed s ->
  revision_String (current_revision (docs (with_child s i h body del)) i)
  <> revision_String (current_revision (docs s) i).
Proof.
  intros Hwf. rewrite (current_revision_after_child s i h body del Hwf).
  pose proof (next_rev_positive (revs s) i (wf_nodes_positive s Hwf)) as Hn.
  rewrite (revision_String_positive _ h Hn).
  pose proof (next_rev_current s i Hwf) as Hnext.
  destruct (current_revision_cases s i Hwf) as [[_ ->]|[Hc ->]]; intros E.
  - pose proof (sql_rev_string_nonempty (next_rev (revs s) i) h) as Hne.
    rewrite E in Hne. discriminate Hne.
  - apply sql_rev_string_inj in E as [E _]; auto. lia.
Qed.

(** X7: optimistic concurrency.  In every store that Put and Delete
    produce from an empty database, once a Put with new_edits=true has
    succeeded, every further interactive Put of that document which still
    names the revision the first one was based on fails, 409 Conflict
    unless one of the two validations rejects it first, and changes
    nothing: of two writers that start from the same revision only the
    first succeeds. *)
Theorem Put_stale_rev_conflicts (s s' : store) (docID : string)
    (doc doc2 : Doc) (options options2 : Options) (rv : string) :
  reachable s -> opt_new_edits options = true ->
  Put s docID doc options = (Ok rv, s') ->
  opt_new_edits options2 = true ->
  effective_rev doc2 options2 = effective_rev doc options ->
  Put s' docID doc2 options2 = (Err Conflict, s')
  \/ Put s' docID doc2 options2
     = (Err (Error StatusBadRequest
               "Document rev and option have different values"), s')
  \/ Put s' docID doc2 options2
     = (Err (Error StatusBadRequest "Document ID must match _id in document"),
        s').
Proof.
  intros R Hne HP Hne2 Heff. pose proof (reachable_well_formed s R) as Hwf.
  pose proof (reachable_well_formed s'
                (reachable_after_Put s s' docID doc options _ R HP)) as Hwf'.
  destruct (Put_new_edits_outcome s docID doc options Hwf Hne)
    as [H|[H|[[Hc H]|[Hc H]]]];
    rewrite H in HP; try discriminate HP; injection HP as Hrv Hs.
  destruct (Put_new_edits_outcome s' docID doc2 options2 Hwf' Hne2)
    as [H2|[H2|[[Hc2 H2]|[Hc2 H2]]]]; auto.
  exfalso. subst s'.
  apply (superseded s docID (MD5.hex (doc_canonical doc)) (doc_members doc)
           (doc_deleted doc) Hwf).
  congruence.
Qed.

Lemma Put_stale_rev_conflicts_witness :
  reachable one_doc
  /\ opt_new_edits (Rev "1-9bb58f26192e4ba00f01e2e7b136bbd8") = true
  /\ Put one_doc "foo" (plain "" (member "foo" "baz"))
         (Rev "1-9bb58f26192e4ba00f01e2e7b136bbd8")
     = (Ok "2-afa7ae8a1906f4bb061be63525974f92",
        mkStore
          [mkRevRow "foo" 1 "9bb58f26192e4ba00f01e2e7b136bbd8" None None;
           mkRevRow "foo" 2 "afa7ae8a1906f4bb061be63525974f92" (Some 1)
                    (Some "9bb58f26192e4ba00f01e2e7b136bbd8")]
          [mkDocRow 1 "foo" 1 "9bb58f26192e4ba00f01e2e7b136bbd8"
                    (member "foo" "bar") false;
           mkDocRow 2 "foo" 2 "afa7ae8a1906f4bb061be63525974f92"
                    (member "foo" "baz") false])
  /\ effective_rev (plain "1-9bb58f26192e4ba00f01e2e7b136bbd8"
                          (member "foo" "qux")) NilOption
     = effective_rev (plain "" (member "foo" "baz"))
                     (Rev "1-9bb58f26192e4ba00f01e2e7b136bbd8")
  /\ exists e,
       fst (Put (mkStore
          [mkRevRow "foo" 1 "9bb58f26192e4ba00f01e2e7b136bbd8" None None;
           mkRevRow "foo" 2 "afa7ae8a1906f4bb061be63525974f92" (Some 1)
                    (Some "9bb58f26192e4ba00f01e2e7b136bbd8")]
          [mkDocRow 1 "foo" 1 "9bb58f26192e4ba00f01e2e7b136bbd8"
                    (member "foo" "bar") false;
           mkDocRow 2 "foo" 2 "afa7ae8a1906f4bb061be63525974f92"
                    (member "foo" "baz") false])
          "foo" (plain "1-9bb58f26192e4ba00f01e2e7b136bbd8"
                       (member "foo" "qux")) NilOption)
       = Err e.
Proof.
  assert (Put one_doc "foo" (plain "" (member "foo" "baz"))
              (Rev "1-9bb58f26192e4ba00f01e2e7b136bbd8")
          = (Ok "2-afa7ae8a1906f4bb061be63525974f92",
             mkStore
               [mkRevRow "foo" 1 "9bb58f26192e4ba00f01e2e7b136bbd8" None None;
                mkRevRow "foo" 2 "afa7ae8a1906f4bb061be63525974f92" (Some 1)
                         (Some "9bb58f26192e4ba00f01e2e7b136bbd8")]
               [mkDocRow 1 "foo" 1 "9bb58f26192e4ba00f01e2e7b136bbd8"
                         (member "foo" "bar") false;
                mkDocRow 2 "foo" 2 "afa7ae8a1906f4bb061be63525974f92"
                         (member "foo" "baz") false])) as HP
    by (vm_compute; reflexivity).
  assert (effective_rev (plain "1-9bb58f26192e4ba00f01e2e7b136bbd8"
                               (member "foo" "qux")) NilOption
          = effective_rev (plain "" (member "foo" "baz"))
                          (Rev "1-9bb58f26192e4ba00f01e2e7b136bbd8")) as He
    by reflexivity.
  split; [exact one_doc_reachable|]. split; [reflexivity|].
  split; [exact HP|]. split; [exact He|].
  destruct (Put_stale_rev_conflicts _ _ _ _ _
              (Rev "1-9bb58f26192e4ba00f01e2e7b136bbd8") NilOption _
              one_doc_reachable eq_refl HP eq_refl He) as [H|[H|H]];
    eexists; rewrite H; reflexivity.
Defined.

Lemma tombstone_rev_id :
  MD5.hex (doc_canonical deleted_doc) = "df2a4fe30cde39c357c8d1105748d1b9".
Proof. vm_compute. reflexivity. Qed.



(** X9: in every store that Put and Delete produce from an empty
    database, a successful Delete was given the current revision of the
    document (live or already a tombstone), returns the next revision
    number with the rev id of the body that holds _deleted alone, df2a...,
    and appends one tombstone row with the body {}; afterwards Get without
    a rev answers NotFound, and Get with the returned rev gives the
    tombstone body. *)
Theorem Delete_then_Get (s s' : store) (docID : string) (options : Options)
    (rv : string) :
  reachable s ->
  Delete s docID options = (Ok rv, s') ->
  exists w,
    select_current (docs s) docID = Some w
    /\ opt_rev options = sql_rev_string (d_rev w) (d_rev_id w)
    /\ rv = sql_rev_string (d_rev w + 1) "df2a4fe30cde39c357c8d1105748d1b9"
    /\ docs s'
       = (docs s ++
          [mkDocRow (next_seq (docs s)) docID (d_rev w + 1)
                    "df2a4fe30cde39c357c8d1105748d1b9" "{}" true])%list
    /\ Get s' docID NilOption = Err NotFound
    /\ Get s' docID (Rev rv) = Ok (mkDocument rv "{}" None None None).
Proof.
  intros R HD. pose proof (reachable_well_formed s R) as Hwf.
  destruct (Delete_outcome s docID options Hwf)
    as [[Habs H]|[[w [Hw [Hne H]]]|[w [Hw [Hrev H]]]]];
    rewrite H in HD; try discriminate HD; injection HD as Hrv Hs.
  exists w. split; [exact Hw|]. split; [exact Hrev|].
  pose proof (next_rev_of_current s docID w (wf_bodies_have_nodes s Hwf)
                (wf_nodes_have_bodies s Hwf) Hw) as Hnext.
  destruct (Get_after_child s docID (MD5.hex (doc_canonical deleted_doc))
              "{}" true Hwf) as [G1 G2].
  subst rv s'. rewrite <- Hnext, <- tombstone_rev_id.
  repeat split; auto.
Qed.

Lemma Delete_then_Get_witness :
  reachable one_doc
  /\ Delete one_doc "foo" (Rev "1-9bb58f26192e4ba00f01e2e7b136bbd8")
     = (Ok "2-df2a4fe30cde39c357c8d1105748d1b9",
        mkStore
          [mkRevRow "foo" 1 "9bb58f26192e4ba00f01e2e7b136bbd8" None None;
           mkRevRow "foo" 2 "df2a4fe30cde39c357c8d1105748d1b9" (Some 1)
                    (Some "9bb58f26192e4ba00f01e2e7b136bbd8")]
          [mkDocRow 1 "foo" 1 "9bb58f26192e4ba00f01e2e7b136bbd8"
                    (member "foo" "bar") false;
           mkDocRow 2 "foo" 2 "df2a4fe30cde39c357c8d1105748d1b9" "{}" true])
  /\ exists w,
       select_current (docs one_doc) "foo" = Some w
       /\ opt_rev (Rev "1-9bb58f26192e4ba00f01e2e7b136bbd8")
          = sql_rev_string (d_rev w) (d_rev_id w).
Proof.
  assert (Delete one_doc "foo" (Rev "1-9bb58f26192e4ba00f01e2e7b136bbd8")
     = (Ok "2-df2a4fe30cde39c357c8d1105748d1b9",
        mkStore
          [mkRevRow "foo" 1 "9bb58f26192e4ba00f01e2e7b136bbd8" None None;
           mkRevRow "foo" 2 "df2a4fe30cde39c357c8d1105748d1b9" (Some 1)
                    (Some "9bb58f26192e4ba00f01e2e7b136bbd8")]
          [mkDocRow 1 "foo" 1 "9bb58f26192e4ba00f01e2e7b136bbd8"
                    (member "foo" "bar") false;
           mkDocRow 2 "foo" 2 "df2a4fe30cde39c357c8d1105748d1b9" "{}" true]))
    as HD by (vm_compute; reflexivity).
  split; [exact one_doc_reachable|]. split; [exact HD|].
  destruct (Delete_then_Get _ _ _ (Rev "1-9bb58f26192e4ba00f01e2e7b136bbd8")
              _ one_doc_reachable HD) as [w [Hw [Hrev _]]].
  exists w. split; [exact Hw | exact Hrev].
Defined.

(** ** Replication writes *)

Lemma Put_docRev (doc : Doc) (options : Options) :
  (if (doc_rev doc =? "")%string && negb (opt_rev options =? "")%string
   then opt_rev options else doc_rev doc)
  = effective_rev doc options.
Proof.
  unfold effective_rev.
  destruct (String.eqb_spec (doc_rev doc) "") as [E|]; [|reflexivity].
  destruct (String.eqb_spec (opt_rev options) "") as [E'|]; simpl; congruence.
Qed.

Lemma parseRev_err (s : string) (e : error) : parseRev s = Err e -> e = BadRev.
Proof.
  unfold parseRev. destruct (cut_dash s) as [[n h]|]; [|now intros [= <-]].
  destruct (NilEmpty.uint_of_string n) as [d|]; [|now intros [= <-]].
  destruct (positive_numeral d); [discriminate|now intros [= <-]].
Qed.

(** [Put] with new_edits=false, once the two validations have passed. *)
Lemma Put_replication_unfold (s : store) (docID : string) (doc : Doc)
    (options : Options) :
  opt_new_edits options = false ->
  (opt_rev options = "" \/ doc_rev doc = "" \/ opt_rev options = doc_rev doc) ->
  (doc_id doc = "" \/ doc_id doc = docID) ->
  Put s docID doc options
  = if (effective_rev doc options =? "")%string
    then (Err (Error StatusBadRequest
      "When `new_edits: false`, the document needs `_rev` or `_revisions` specified"), s)
    else
    match parseRev (effective_rev doc options) with
    | Err e => (Err e, s)
    | Ok r =>
        if existsb (doc_key_is docID (rev r) (rid r)) (docs s)
        then (Ok (effective_rev doc options), s)
        else (Ok (sql_rev_string (rev r) (rid r)),
              mkStore
                (if existsb (rev_key_is docID (rev r) (rid r)) (revs s)
                 then revs s
                 else (revs s ++ [mkRevRow docID (rev r) (rid r) None None])%list)
                (docs s ++ [mkDocRow (next_seq (docs s)) docID (rev r) (rid r)
                              (doc_members doc) (doc_deleted doc)]))
    end.
Proof.
  intros Hne Hrev Hid. unfold Put, extractRev, prepareDoc.
  rewrite Hne. cbv beta iota. simpl negb at 4.
  assert (negb (opt_rev options =? "")%string
          && negb (doc_rev doc =? "")%string
          && negb (opt_rev options =? doc_rev doc)%string = false) as ->.
  { destruct (String.eqb_spec (opt_rev options) ""); [reflexivity|].
    destruct (String.eqb_spec (doc_rev doc) ""); [reflexivity|].
    destruct (String.eqb_spec (opt_rev options) (doc_rev doc)); [reflexivity|].
    intuition. }
  assert (negb (doc_id doc =? "")%string && negb (doc_id doc =? docID)%string
          = false) as ->.
  { destruct (String.eqb_spec (doc_id doc) ""); [reflexivity|].
    destruct (String.eqb_spec (doc_id doc) docID); [reflexivity|]. intuition. }
  cbv iota. rewrite Put_docRev. cbn [DDoc Deleted].
  destruct (effective_rev doc options =? "")%string; [reflexivity|].
  destruct (parseRev (effective_rev doc options)) as [r|e]; [|reflexivity].
  unfold insert_rev, insert_doc. cbn [r_id r_rev r_rev_id].
  destruct (existsb (rev_key_is docID (rev r) (rid r)) (revs s));
    destruct (existsb (doc_key_is docID (rev r) (rid r)) (docs s));
    reflexivity.
Qed.

(** X10: a replication write never conflicts.  In any store, and
    whatever revisions the document has, a Put with new_edits=false whose
    body passes the two validations and whose rev parses succeeds and
    returns the rev it was given; afterwards the revision has its node
    and a body row. *)
Theorem Put_replication_succeeds (s : store) (docID : string) (doc : Doc)
    (options : Options) (r : revision) :
  opt_new_edits options = false ->
  (opt_rev options = "" \/ doc_rev doc = "" \/ opt_rev options = doc_rev doc) ->
  (doc_id doc = "" \/ doc_id doc = docID) ->
  parseRev (effective_rev doc options) = Ok r ->
  fst (Put s docID doc options) = Ok (effective_rev doc options)
  /\ existsb (doc_key_is docID (rev r) (rid r))
             (docs (snd (Put s docID doc options))) = true
  /\ (bodies_have_nodes s ->
      existsb (rev_key_is docID (rev r) (rid r))
              (revs (snd (Put s docID doc options))) = true).
Proof.
  intros Hne Hrev Hid Hp.
  rewrite (Put_replication_unfold s docID doc options Hne Hrev Hid), Hp.
  destruct (parseRev_ok _ _ Hp) as [Hpos [Hs _]].
  assert ((effective_rev doc options =? "")%string = false) as ->
    by (rewrite <- Hs; apply sql_rev_string_nonempty).
  destruct (existsb (doc_key_is docID (rev r) (rid r)) (docs s)) eqn:Hbody;
    cbn [fst snd revs docs].
  - split; [reflexivity|]. split; [exact Hbody|].
    intros Hfk. apply existsb_exists in Hbody as [d [Hd Hk]].
    apply doc_key_is_iff in Hk. injection Hk as <- <- <-. now apply Hfk.
  - split; [now rewrite Hs|]. split.
    + apply existsb_app_r. cbn [existsb]. apply orb_true_iff. left.
      now apply doc_key_is_iff.
    + intros _.
      destruct (existsb (rev_key_is docID (rev r) (rid r)) (revs s)) eqn:Hnode;
        [exact Hnode|].
      apply existsb_app_r. cbn [existsb]. apply orb_true_iff. left.
      now apply rev_key_is_iff.
Qed.

Lemma Put_replication_succeeds_witness :
  opt_new_edits (NewEdits false) = false
  /\ parseRev (effective_rev (plain "1-asdf" (member "foo" "baz"))
                             (NewEdits false))
     = Ok (mkRevision 1 "asdf")
  /\ fst (Put one_doc "foo" (plain "1-asdf" (member "foo" "baz"))
              (NewEdits false))
     = Ok (effective_rev (plain "1-asdf" (member "foo" "baz"))
                         (NewEdits false)).
Proof.
  assert (parseRev (effective_rev (plain "1-asdf" (member "foo" "baz"))
                                  (NewEdits false))
          = Ok (mkRevision 1 "asdf")) as Hp by reflexivity.
  split; [reflexivity|]. split; [exact Hp|].
  exact (proj1 (Put_replication_succeeds one_doc "foo"
                  (plain "1-asdf" (member "foo" "baz")) (NewEdits false)
                  (mkRevision 1 "asdf") eq_refl (or_introl eq_refl)
                  (or_introl eq_refl) Hp)).
Defined.

(** X11: in any store, a Put with new_edits=false that fails leaves the
    store as it was and fails with status 400: the two validations, a
    missing rev, or a rev that does not parse.  It never answers
    Conflict, and a unique-constraint failure of either INSERT never
    reaches the caller. *)
Theorem Put_replication_errors (s s' : store) (docID : string) (doc : Doc)
    (options : Options) (e : error) :
  opt_new_edits options = false ->
  Put s docID doc options = (Err e, s') ->
  s' = s /\ exists m, e = Error StatusBadRequest m.
Proof.
  intros Hne HP.
  assert (((opt_rev options = "" \/ doc_rev doc = ""
            \/ opt_rev options = doc_rev doc)
           /\ (doc_id doc = "" \/ doc_id doc = docID))
          \/ ~ ((opt_rev options = "" \/ doc_rev doc = ""
                 \/ opt_rev options = doc_rev doc)
                /\ (doc_id doc = "" \/ doc_id doc = docID))) as [[Hrev Hid]|Hbad].
  { destruct (String.eqb_spec (opt_rev options) "");
      destruct (String.eqb_spec (doc_rev doc) "");
      destruct (String.eqb_spec (opt_rev options) (doc_rev doc));
      destruct (String.eqb_spec (doc_id doc) "");
      destruct (String.eqb_spec (doc_id doc) docID); tauto. }
  - rewrite (Put_replication_unfold s docID doc options Hne Hrev Hid) in HP.
    destruct (effective_rev doc options =? "")%string.
    { injection HP as <- <-. eauto. }
    destruct (parseRev (effective_rev doc options)) as [r|e'] eqn:Hp.
    + destruct (existsb (doc_key_is docID (rev r) (rid r)) (docs s));
        discriminate HP.
    + apply parseRev_err in Hp. subst e'. injection HP as <- <-.
      unfold BadRev. eauto.
  - destruct (Put_invalid s docID doc options Hbad) as [H|H];
      rewrite H in HP; injection HP as <- <-; eauto.
Qed.

Lemma Put_replication_errors_witness :
  opt_new_edits (NewEdits false) = false
  /\ Put one_doc "foo" (plain "1" (member "foo" "baz")) (NewEdits false)
     = (Err BadRev, one_doc)
  /\ one_doc = one_doc
  /\ exists m, BadRev = Error StatusBadRequest m.
Proof.
  assert (Put one_doc "foo" (plain "1" (member "foo" "baz")) (NewEdits false)
          = (Err BadRev, one_doc)) as HP by (vm_compute; reflexivity).
  exact (conj eq_refl (conj HP
           (Put_replication_errors _ _ _ _ (NewEdits false) _ eq_refl HP))).
Defined.

Lemma Get_rev_found (s : store) (i rvs : string) (r : revision) (d : doc_row) :
  parseRev rvs = Ok r ->
  hd_error (filter (doc_key_is i (rev r) (rid r)) (docs s)) = Some d ->
  Get s i (Rev rvs) = Ok (mkDocument rvs (d_doc d) None None None).
Proof.
  intros Hp Hd. destruct (parseRev_ok _ _ Hp) as [_ [Hs Hstr]].
  unfold Get, Rev.
  cbn [opt_rev opt_meta opt_conflicts opt_deleted_conflicts opt_revs_info orb].
  assert ((rvs =? "")%string = false) as ->
    by (rewrite <- Hs; apply sql_rev_string_nonempty).
  cbn [negb]. rewrite Hp, Hd. cbn [option_map]. rewrite Hstr. reflexivity.
Qed.

(** X12: replication never overwrites.  In a store whose body keys are
    unique, after a successful Put with new_edits=false, Get with the
    returned rev succeeds; it gives the body that was stored under that
    revision before the call when there was one, and then the call has
    changed nothing, and the members just written otherwise. *)
Theorem Put_replication_then_Get (s s' : store) (docID : string) (doc : Doc)
    (options : Options) (rv : string) :
  body_keys_unique s ->
  opt_new_edits options = false ->
  Put s docID doc options = (Ok rv, s') ->
  exists r,
    parseRev rv = Ok r
    /\ (forall d, In d (docs s) -> doc_key d = (docID, rev r, rid r) ->
          s' = s
          /\ Get s' docID (Rev rv)
             = Ok (mkDocument rv (d_doc d) None None None))
    /\ ((forall d, In d (docs s) -> doc_key d <> (docID, rev r, rid r)) ->
          Get s' docID (Rev rv)
          = Ok (mkDocument rv (doc_members doc) None None None)).
Proof.
  intros Huniq Hne HP.
  assert (((opt_rev options = "" \/ doc_rev doc = ""
            \/ opt_rev options = doc_rev doc)
           /\ (doc_id doc = "" \/ doc_id doc = docID))
          \/ ~ ((opt_rev options = "" \/ doc_rev doc = ""
                 \/ opt_rev options = doc_rev doc)
                /\ (doc_id doc = "" \/ doc_id doc = docID))) as [[Hrev Hid]|Hbad].
  { destruct (String.eqb_spec (opt_rev options) "");
      destruct (String.eqb_spec (doc_rev doc) "");
      destruct (String.eqb_spec (opt_rev options) (doc_rev doc));
      destruct (String.eqb_spec (doc_id doc) "");
      destruct (String.eqb_spec (doc_id doc) docID); tauto. }
  2:{ destruct (Put_invalid s docID doc options Hbad) as [H|H];
        rewrite H in HP; discriminate HP. }
  rewrite (Put_replication_unfold s docID doc options Hne Hrev Hid) in HP.
  destruct (effective_rev doc options =? "")%string; [discriminate HP|].
  destruct (parseRev (effective_rev doc options)) as [r|e'] eqn:Hp;
    [|discriminate HP].
  destruct (parseRev_ok _ _ Hp) as [_ [Hs _]].
  exists r.
  destruct (existsb (doc_key_is docID (rev r) (rid r)) (docs s)) eqn:Hbody;
    injection HP as Hrv Hs'; subst s'.
  - subst rv. split; [exact Hp|]. split.
    + intros d Hd Hk. split; [reflexivity|].
      apply (Get_rev_found s docID _ r d Hp).
      now apply select_by_key_unique.
    + intros Habs. apply existsb_exists in Hbody as [d [Hd Hk]].
      apply doc_key_is_iff in Hk. now elim (Habs d Hd).
  - rewrite Hs in Hrv. subst rv. split; [exact Hp|]. split.
    + intros d Hd Hk. exfalso.
      assert (existsb (doc_key_is docID (rev r) (rid r)) (docs s) = true) as T
        by (apply existsb_exists; exists d; split;
            [exact Hd | now apply doc_key_is_iff]).
      congruence.
    + intros _.
      apply (Get_rev_found _ docID _ r
               (mkDocRow (next_seq (docs s)) docID (rev r) (rid r)
                         (doc_members doc) (doc_deleted doc)) Hp).
      cbn [docs]. now apply select_by_key_new.
Qed.

Lemma Put_replication_then_Get_witness :
  body_keys_unique one_doc
  /\ opt_new_edits (NewEdits false) = false
  /\ Put one_doc "foo"
         (plain "1-9bb58f26192e4ba00f01e2e7b136bbd8" (member "foo" "baz"))
         (NewEdits false)
     = (Ok "1-9bb58f26192e4ba00f01e2e7b136bbd8", one_doc)
  /\ exists r,
       parseRev "1-9bb58f26192e4ba00f01e2e7b136bbd8" = Ok r
       /\ forall d, In d (docs one_doc) -> doc_key d = ("foo", rev r, rid r) ->
            one_doc = one_doc
            /\ Get one_doc "foo" (Rev "1-9bb58f26192e4ba00f01e2e7b136bbd8")
               = Ok (mkDocument "1-9bb58f26192e4ba00f01e2e7b136bbd8" (d_doc d)
                                None None None).
Proof.
  assert (body_keys_unique one_doc) as Hu
    by (exact (wf_body_keys_unique _
                 (reachable_well_formed _ one_doc_reachable))).
  assert (Put one_doc "foo"
            (plain "1-9bb58f26192e4ba00f01e2e7b136bbd8" (member "foo" "baz"))
            (NewEdits false)
          = (Ok "1-9bb58f26192e4ba00f01e2e7b136bbd8", one_doc)) as HP
    by (vm_compute; reflexivity).
  split; [exact Hu|]. split; [reflexivity|]. split; [exact HP|].
  destruct (Put_replication_then_Get _ _ _ _ (NewEdits false) _ Hu eq_refl HP)
    as [r [Hp [H1 _]]].
  exists r. split; [exact Hp | exact H1].
Defined.

(** X13: whatever Get returns is stored.  In any store, a document that
    Get returns has the body and the revision of a body row of that
    document id; without a rev option that row is not deleted and no row
    of the document has a higher (rev, rev_id); with a rev option the
    revision returned is the one asked for.  When Get fails, the error is
    NotFound, or the 400 of a rev option that does not parse, and nothing
    else. *)
Theorem Get_outcome (s : store) (i : string) (options : Options) :
  match Get s i options with
  | Ok doc =>
      exists d,
        In d (docs s) /\ d_id d = i /\ Body doc = d_doc d
        /\ DocRev doc = revision_String (mkRevision (d_rev d) (d_rev_id d))
        /\ (opt_rev options = "" ->
            d_deleted d = false
            /\ forall d', In d' (docs s) -> d_id d' = i ->
                 rev_compare (d_rev d') (d_rev_id d') (d_rev d) (d_rev_id d)
                 <> Gt)
        /\ (opt_rev options <> "" -> DocRev doc = opt_rev options)
  | Err e =>
      e = NotFound
      \/ (e = BadRev /\ opt_rev options <> ""
          /\ parseRev (opt_rev options) = Err BadRev)
  end.
Proof.
  unfold Get.
  destruct (String.eqb_spec (opt_rev options) "") as [E|E]; cbn [negb].
  - destruct (select_current (docs s) i) as [w|] eqn:Hw; [|now left].
    destruct (select_current_spec _ _ _ Hw) as [Hin [Hid Hmax]].
    destruct (d_deleted w) eqn:Hdel; [now left|].
    cbv beta iota zeta. exists w. cbn [Body DocRev].
    split; [exact Hin|]. split; [exact Hid|]. split; [reflexivity|].
    split; [reflexivity|]. split.
    + intros _. split; [exact Hdel | exact Hmax].
    + intros H. now elim H.
  - destruct (parseRev (opt_rev options)) as [r|e] eqn:Hp.
    + destruct (hd_error (filter (doc_key_is i (rev r) (rid r)) (docs s)))
        as [d|] eqn:Hd; cbn [option_map]; [|now left].
      assert (In d (filter (doc_key_is i (rev r) (rid r)) (docs s))) as Hin.
      { destruct (filter (doc_key_is i (rev r) (rid r)) (docs s));
          [discriminate Hd|]. injection Hd as ->. now left. }
      apply filter_In in Hin as [Hin Hk]. apply doc_key_is_iff in Hk.
      injection Hk as Hi Hn Hh.
      cbv beta iota zeta. exists d. cbn [Body DocRev].
      split; [exact Hin|]. split; [exact Hi|]. split; [reflexivity|].
      split; [|split].
      * rewrite Hn, Hh. now destruct r.
      * intros H. now elim E.
      * intros _. now destruct (parseRev_ok _ _ Hp) as [_ [_ H]].
    + pose proof (parseRev_err _ _ Hp) as ->. right. auto.
Qed.

(** ** The client: database names *)

Lemma lower_app (a b : string) : lower (a ++ b) = (lower a ++ lower b)%string.
Proof. induction a as [|c a IH]; simpl; [reflexivity|now rewrite IH]. Qed.

Lemma length_append (a b : string) :
  String.length (a ++ b) = (String.length a + String.length b)%nat.
Proof. induction a; simpl; auto. Qed.

Lemma append_cons_neq (a : string) (c : ascii) (b : string) :
  (a ++ String c b)%string <> a.
Proof.
  intros E. apply (f_equal String.length) in E.
  rewrite length_append in E. simpl in E. lia.
Qed.

Lemma same_name_refl (n : string) : same_name n n = true.
Proof. apply String.eqb_refl. Qed.

Lemma same_name_suffix (n : string) (c : ascii) (b : string) :
  same_name (n ++ String c b) n = false.
Proof.
  unfold same_name. rewrite lower_app. apply String.eqb_neq. simpl.
  apply append_cons_neq.
Qed.

Lemma eqb_suffix (n : string) (c : ascii) (b : string) :
  (n ++ String c b =? n)%string = false.
Proof. apply String.eqb_neq. apply append_cons_neq. Qed.

Lemma valid_char (c : ascii) :
  in_range "a" "z" c || in_range "0" "9" c
  || existsb (Ascii.eqb c) (list_ascii_of_string "_$()+/-") = true ->
  lower_ascii c = c /\ c <> ascii_of_nat 34.
Proof.
  destruct c as [[] [] [] [] [] [] [] []]; vm_compute; intros H;
    try discriminate H; (split; [reflexivity|discriminate]).
Qed.

Lemma valid_chars (n : string) :
  all_chars
    (fun x => in_range "a" "z" x || in_range "0" "9" x
              || existsb (Ascii.eqb x) (list_ascii_of_string "_$()+/-")) n
  = true ->
  lower n = n /\ ~ In (ascii_of_nat 34) (list_ascii_of_string n).
Proof.
  induction n as [|c n IH]; cbn [all_chars lower list_ascii_of_string].
  - intros _. split; [reflexivity|intros []].
  - intros H. apply andb_true_iff in H as [Hc Hn].
    destruct (valid_char c Hc) as [Hl Hq]. destruct (IH Hn) as [IH1 IH2].
    split; [now rewrite Hl, IH1|].
    intros [E|E]; [now elim Hq | now elim IH2].
Qed.

Lemma valid_name_lower (n : string) :
  validDBNameRE n = true ->
  lower n = n /\ ~ In (ascii_of_nat 34) (list_ascii_of_string n).
Proof.
  destruct n as [|c n]; [discriminate|]. intros H. apply valid_chars.
  unfold validDBNameRE in H. apply andb_true_iff in H as [Hc Hn].
  cbn [all_chars]. now rewrite Hc, Hn.
Qed.

(** X14: the names CreateDB, DestroyDB and DB accept are not empty and
    hold no double quote, so the quoted name in the statements cannot be
    closed from inside; and they hold no capital letter, so two accepted
    names that the engine, which compares the names of tables without
    regard to case, takes for the same table are the same name. *)
Theorem valid_names (n m : string) :
  validDBNameRE n = true -> validDBNameRE m = true ->
  n <> ""
  /\ ~ In (ascii_of_nat 34) (list_ascii_of_string n)
  /\ (same_name n m = true -> n = m).
Proof.
  intros Hn Hm. destruct (valid_name_lower n Hn) as [Ln Qn].
  destruct (valid_name_lower m Hm) as [Lm _].
  split; [now destruct n|]. split; [exact Qn|].
  unfold same_name. rewrite Ln, Lm. apply String.eqb_eq.
Qed.

Lemma valid_names_witness :
  validDBNameRE "test" = true /\ validDBNameRE "a$b" = true
  /\ "test" <> ""
  /\ ~ In (ascii_of_nat 34) (list_ascii_of_string "test")
  /\ (same_name "test" "a$b" = true -> "test" = "a$b").
Proof.
  exact (conj eq_refl (conj eq_refl (valid_names "test" "a$b" eq_refl eq_refl))).
Defined.

(** ** The client: creating and dropping *)

Lemma create_table_ok (c c' : client) (n : string) :
  create_table c n = Ok c' ->
  reserved n = false
  /\ existsb (named table n) c = false
  /\ existsb (named index n) c = false
  /\ c' = (c ++ [mkSchemaRow table n n;
                 mkSchemaRow index ("sqlite_autoindex_" ++ n ++ "_1") n])%list.
Proof.
  unfold create_table. destruct (reserved n); [discriminate|].
  destruct (existsb (named table n) c); [discriminate|].
  destruct (existsb (named index n) c); [discriminate|].
  intros [= <-]. auto.
Qed.

Lemma create_table_err (c : client) (n : string) (e : error) :
  create_table c n = Err e ->
  e = SqliteError SQLITE_ERROR
  \/ (e = SqliteError SQLITE_ALREADY_EXISTS
      /\ existsb (named table n) c = true).
Proof.
  unfold create_table. destruct (reserved n); [intros [= <-]; now left|].
  destruct (existsb (named table n) c); [intros [= <-]; now right|].
  destruct (existsb (named index n) c); [intros [= <-]; now left|].
  discriminate.
Qed.

Lemma create_index_ok (c c' : client) (i t : string) :
  create_index c i t = Ok c' ->
  existsb (named index i) c = false
  /\ c' = (c ++ [mkSchemaRow index i t])%list.
Proof.
  unfold create_index. destruct (negb (existsb (named table t) c));
    [discriminate|].
  destruct (reserved i); [discriminate|].
  destruct (existsb (named index i) c); [discriminate|].
  destruct (existsb (named table i) c); [discriminate|].
  intros [= <-]. auto.
Qed.

Lemma run_schema_fresh (c c' : client) (n : string) :
  run_schema c (schema n) = Ok c' ->
  existsb (named table n) c = false
  /\ existsb (named table (n ++ "_revs")) c = false
  /\ existsb (named index "idx_parent") c = false
  /\ reserved n = false.
Proof.
  unfold schema, run_schema, exec.
  destruct (create_table c (n ++ "_revs")) as [c1|e] eqn:E1;
    [|destruct (errIsAlreadyExists e); discriminate].
  destruct (create_index c1 "idx_parent" (n ++ "_revs")) as [c2|e] eqn:E2;
    [|destruct (errIsAlreadyExists e); discriminate].
  destruct (create_table c2 n) as [c3|e] eqn:E3;
    [|destruct (errIsAlreadyExists e); discriminate].
  intros _.
  apply create_table_ok in E1 as [_ [T1 [_ ->]]].
  apply create_index_ok in E2 as [I2 ->].
  apply create_table_ok in E3 as [R3 [T3 _]].
  rewrite existsb_app in T3. apply orb_false_iff in T3 as [T3 _].
  rewrite existsb_app in T3. apply orb_false_iff in T3 as [T3 _].
  rewrite existsb_app in I2. apply orb_false_iff in I2 as [I2 _]. auto.
Qed.

Lemma CreateDB_ok (c c' : client) (n : string) :
  CreateDB c n = (Ok tt, c') ->
  validDBNameRE n = true /\ run_schema c (schema n) = Ok c'.
Proof.
  unfold CreateDB. destruct (validDBNameRE n); [|discriminate].
  cbn [negb]. destruct (run_schema c (schema n)) as [c1|e]; [|discriminate].
  intros [= <-]. auto.
Qed.

Lemma DBExists_named (c : client) (n : string) :
  existsb (named table n) c = false ->
  existsb (fun r => is_table r && (name r =? n)%string) c = false.
Proof.
  intros H.
  destruct (existsb (fun r => is_table r && (name r =? n)%string) c) eqn:E;
    [|reflexivity].
  apply existsb_exists in E as [r [Hr Hk]].
  apply andb_true_iff in Hk as [Ht Hn]. apply String.eqb_eq in Hn.
  assert (existsb (named table n) c = true) as T.
  { apply existsb_exists. exists r. split; [exact Hr|].
    unfold named, is_table in *. destruct (type r); [|discriminate].
    rewrite Hn. apply same_name_refl. }
  congruence.
Qed.

(** X15: a successful CreateDB found no table of that name, so DBExists
    was false before; afterwards DBExists is true for the name, and also
    for the names of the revision and attachment tables, which were never
    created as databases; databases that existed before still do. *)
Theorem CreateDB_creates (c c' : client) (n : string) :
  CreateDB c n = (Ok tt, c') ->
  DBExists c n = Ok false
  /\ DBExists c' n = Ok true
  /\ DBExists c' (n ++ "_revs") = Ok true
  /\ DBExists c' (n ++ "_attachments") = Ok true
  /\ (forall m, DBExists c m = Ok true -> DBExists c' m = Ok true).
Proof.
  intros H. apply CreateDB_ok in H as [_ H].
  destruct (run_schema_fresh c c' n H) as [T [_ [_ _]]].
  apply run_schema_ok in H as [-> _]. unfold DBExists.
  split; [now rewrite (DBExists_named c n T)|].
  split; [|split; [|split]].
  - f_equal. apply existsb_app_r. cbn [existsb is_table type name andb].
    rewrite (String.eqb_refl n). now rewrite !orb_true_r.
  - f_equal. apply existsb_app_r. cbn [existsb is_table type name andb].
    now rewrite (String.eqb_refl (n ++ "_revs")).
  - f_equal. apply existsb_app_r. cbn [existsb is_table type name andb].
    rewrite (String.eqb_refl (n ++ "_attachments")). now rewrite !orb_true_r.
  - intros m [= Hm]. f_equal. now apply existsb_app_l.
Qed.

Lemma CreateDB_creates_witness :
  CreateDB [] "test"
  = (Ok tt,
     [mkSchemaRow table "test_revs" "test_revs";
      mkSchemaRow index "sqlite_autoindex_test_revs_1" "test_revs";
      mkSchemaRow index "idx_parent" "test_revs";
      mkSchemaRow table "test" "test";
      mkSchemaRow index "sqlite_autoindex_test_1" "test";
      mkSchemaRow table "test_attachments" "test_attachments";
      mkSchemaRow index "sqlite_autoindex_test_attachments_1"
                  "test_attachments"])
  /\ DBExists [] "test" = Ok false.
Proof.
  assert (CreateDB [] "test"
          = (Ok tt,
             [mkSchemaRow table "test_revs" "test_revs";
              mkSchemaRow index "sqlite_autoindex_test_revs_1" "test_revs";
              mkSchemaRow index "idx_parent" "test_revs";
              mkSchemaRow table "test" "test";
              mkSchemaRow index "sqlite_autoindex_test_1" "test";
              mkSchemaRow table "test_attachments" "test_attachments";
              mkSchemaRow index "sqlite_autoindex_test_attachments_1"
                          "test_attachments"])) as H
    by (vm_compute; reflexivity).
  exact (conj H (proj1 (CreateDB_creates _ _ _ H))).
Defined.

Lemma CreateDB_beside_idx_parent (c : client) (m : string) :
  existsb (named index "idx_parent") c = true ->
  CreateDB c m = (Err (Error StatusBadRequest "invalid database name"), c)
  \/ CreateDB c m
     = (Err (Error StatusPreconditionFailed "database already exists"), c)
  \/ CreateDB c m = (Err (SqliteError SQLITE_ERROR), c).
Proof.
  intros Hidx. unfold CreateDB.
  destruct (validDBNameRE m); cbn [negb]; [|now left]. right.
  unfold schema, run_schema, exec.
  destruct (create_table c (m ++ "_revs")) as [c1|e] eqn:E1.
  - left. apply create_table_ok in E1 as [_ [_ [_ ->]]].
    unfold create_index.
    assert (existsb (named table (m ++ "_revs"))
              (c ++ [mkSchemaRow table (m ++ "_revs") (m ++ "_revs");
                     mkSchemaRow index
                       ("sqlite_autoindex_" ++ (m ++ "_revs") ++ "_1")
                       (m ++ "_revs")]) = true) as ->.
    { apply existsb_app_r. cbn [existsb named type name].
      now rewrite same_name_refl. }
    cbn [negb]. change (reserved "idx_parent") with false. cbv iota.
    now rewrite (existsb_app_l _ _ _ Hidx).
  - apply create_table_err in E1 as [->|[-> _]]; [now right|now left].
Qed.

(** X16: one database per file.  The index of the revision table is
    created under the fixed name idx_parent, and the names of indexes are
    unique in a file; so once a CreateDB has succeeded on a connection,
    every further CreateDB there, under whatever name, fails (400 for an
    invalid name, 412 "database already exists", or the error of the
    engine for a reserved or clashing name) and leaves the file as it
    is. *)
Theorem CreateDB_only_once (c c' : client) (n m : string) :
  CreateDB c n = (Ok tt, c') ->
  CreateDB c' m = (Err (Error StatusBadRequest "invalid database name"), c')
  \/ CreateDB c' m
     = (Err (Error StatusPreconditionFailed "database already exists"), c')
  \/ CreateDB c' m = (Err (SqliteError SQLITE_ERROR), c').
Proof.
  intros H. apply CreateDB_ok in H as [_ H].
  apply run_schema_ok in H as [-> _].
  apply CreateDB_beside_idx_parent. apply existsb_app_r. reflexivity.
Qed.

Lemma CreateDB_only_once_witness :
  CreateDB [] "test"
  = (Ok tt,
     [mkSchemaRow table "test_revs" "test_revs";
      mkSchemaRow index "sqlite_autoindex_test_revs_1" "test_revs";
      mkSchemaRow index "idx_parent" "test_revs";
      mkSchemaRow table "test" "test";
      mkSchemaRow index "sqlite_autoindex_test_1" "test";
      mkSchemaRow table "test_attachments" "test_attachments";
      mkSchemaRow index "sqlite_autoindex_test_attachments_1"
                  "test_attachments"])
  /\ exists e,
       fst (CreateDB
              [mkSchemaRow table "test_revs" "test_revs";
               mkSchemaRow index "sqlite_autoindex_test_revs_1" "test_revs";
               mkSchemaRow index "idx_parent" "test_revs";
               mkSchemaRow table "test" "test";
               mkSchemaRow index "sqlite_autoindex_test_1" "test";
               mkSchemaRow table "test_attachments" "test_attachments";
               mkSchemaRow index "sqlite_autoindex_test_attachments_1"
                           "test_attachments"]
              "other")
       = Err e.
Proof.
  assert (CreateDB [] "test"
          = (Ok tt,
             [mkSchemaRow table "test_revs" "test_revs";
              mkSchemaRow index "sqlite_autoindex_test_revs_1" "test_revs";
              mkSchemaRow index "idx_parent" "test_revs";
              mkSchemaRow table "test" "test";
              mkSchemaRow index "sqlite_autoindex_test_1" "test";
              mkSchemaRow table "test_attachments" "test_attachments";
              mkSchemaRow index "sqlite_autoindex_test_attachments_1"
                          "test_attachments"])) as H
    by (vm_compute; reflexivity).
  split; [exact H|].
  destruct (CreateDB_only_once _ _ _ "other" H) as [E|[E|E]];
    eexists; rewrite E; reflexivity.
Defined.

Lemma not_reserved_not_schema_table (n : string) :
  reserved n = false -> schema_table n = false.
Proof.
  unfold reserved, schema_table, same_name. intros H. cbn [existsb].
  repeat match goal with
         | |- context [lower (String ?a ?b)] =>
             let x := eval vm_compute in (lower (String a b)) in
             change (lower (String a b)) with x
         end.
  repeat match goal with
         | |- context [(lower n =? ?x)%string] =>
             destruct (String.eqb_spec (lower n) x) as [E|_];
             [rewrite E in H; vm_compute in H; discriminate H|]
         end.
  reflexivity.
Qed.

Lemma existsb_filter_false {A : Type} (g f : A -> bool) (l : list A) :
  existsb g l = false -> existsb g (filter f l) = false.
Proof.
  induction l as [|x l IH]; [reflexivity|]. simpl. intros H.
  apply orb_false_iff in H as [Hx Hl]. destruct (f x); simpl.
  - now rewrite Hx, IH.
  - now apply IH.
Qed.

(** X17: DestroyDB drops the main table only.  After a successful
    CreateDB, DestroyDB of that name succeeds and DBExists then answers
    false for it, but the revision table, the attachment table and the
    index idx_parent are still in the file; so a CreateDB of the same
    name fails with 412 "database already exists", although a second
    DestroyDB fails with 404 "database not found". *)
Theorem DestroyDB_leaves_tables (c c' : client) (n : string) :
  CreateDB c n = (Ok tt, c') ->
  exists c'',
    DestroyDB c' n = (Ok tt, c'')
    /\ DBExists c'' n = Ok false
    /\ DBExists c'' (n ++ "_revs") = Ok true
    /\ DBExists c'' (n ++ "_attachments") = Ok true
    /\ existsb (named index "idx_parent") c'' = true
    /\ CreateDB c'' n
       = (Err (Error StatusPreconditionFailed "database already exists"), c'')
    /\ DestroyDB c'' n
       = (Err (Error StatusNotFound "database not found"), c'').
Proof.
  intros H. apply CreateDB_ok in H as [Hvalid H].
  destruct (run_schema_fresh c c' n H) as [T [_ [_ R]]].
  apply run_schema_ok in H as [-> [R1 _]].
  pose proof (not_reserved_not_schema_table n R) as Hst.
  exists (filter (fun r => negb (same_name (tbl_name r) n)) c
          ++ [mkSchemaRow table (n ++ "_revs") (n ++ "_revs");
              mkSchemaRow index ("sqlite_autoindex_" ++ (n ++ "_revs") ++ "_1")
                          (n ++ "_revs");
              mkSchemaRow index "idx_parent" (n ++ "_revs");
              mkSchemaRow table (n ++ "_attachments") (n ++ "_attachments");
              mkSchemaRow index
                ("sqlite_autoindex_" ++ (n ++ "_attachments") ++ "_1")
                (n ++ "_attachments")])%list.
  assert (forall l : client,
            existsb (named table n)
              (l ++ [mkSchemaRow table (n ++ "_revs") (n ++ "_revs");
                     mkSchemaRow index
                       ("sqlite_autoindex_" ++ (n ++ "_revs") ++ "_1")
                       (n ++ "_revs");
                     mkSchemaRow index "idx_parent" (n ++ "_revs");
                     mkSchemaRow table (n ++ "_attachments")
                                 (n ++ "_attachments");
                     mkSchemaRow index
                       ("sqlite_autoindex_" ++ (n ++ "_attachments") ++ "_1")
                       (n ++ "_attachments")])
            = existsb (named table n) l) as Hrest.
  { intros l. rewrite existsb_app. cbn [existsb named type name].
    rewrite !same_name_suffix. now rewrite !orb_false_r. }
  split; [|split; [|split; [|split; [|split; [|split]]]]].
  - unfold DestroyDB, drop_table. rewrite Hvalid, Hst. cbn [negb].
    assert (existsb (named table n)
              (c ++ [mkSchemaRow table (n ++ "_revs") (n ++ "_revs");
                     mkSchemaRow index
                       ("sqlite_autoindex_" ++ (n ++ "_revs") ++ "_1")
                       (n ++ "_revs");
                     mkSchemaRow index "idx_parent" (n ++ "_revs");
                     mkSchemaRow table n n;
                     mkSchemaRow index ("sqlite_autoindex_" ++ n ++ "_1") n;
                     mkSchemaRow table (n ++ "_attachments")
                                 (n ++ "_attachments");
                     mkSchemaRow index
                       ("sqlite_autoindex_" ++ (n ++ "_attachments") ++ "_1")
                       (n ++ "_attachments")]) = true) as ->.
    { apply existsb_app_r. cbn [existsb named type name].
      rewrite same_name_refl. now rewrite !orb_true_r. }
    cbn [negb]. unfold may_be_dropped. rewrite R. cbn [negb orb].
    rewrite filter_app. cbn [filter tbl_name].
    rewrite !same_name_suffix, same_name_refl. reflexivity.
  - unfold DBExists. f_equal. rewrite existsb_app.
    rewrite (existsb_filter_false _ _ c (DBExists_named c n T)).
    cbn [existsb is_table type name andb orb]. now rewrite !eqb_suffix.
  - unfold DBExists. f_equal. apply existsb_app_r.
    cbn [existsb is_table type name andb].
    now rewrite (String.eqb_refl (n ++ "_revs")).
  - unfold DBExists. f_equal. apply existsb_app_r.
    cbn [existsb is_table type name andb].
    rewrite (String.eqb_refl (n ++ "_attachments")). now rewrite !orb_true_r.
  - apply existsb_app_r. reflexivity.
  - unfold CreateDB. rewrite Hvalid. cbn [negb].
    unfold schema, run_schema, exec, create_table. rewrite R1.
    assert (existsb (named table (n ++ "_revs"))
              (filter (fun r => negb (same_name (tbl_name r) n)) c
               ++ [mkSchemaRow table (n ++ "_revs") (n ++ "_revs");
                   mkSchemaRow index
                     ("sqlite_autoindex_" ++ (n ++ "_revs") ++ "_1")
                     (n ++ "_revs");
                   mkSchemaRow index "idx_parent" (n ++ "_revs");
                   mkSchemaRow table (n ++ "_attachments")
                               (n ++ "_attachments");
                   mkSchemaRow index
                     ("sqlite_autoindex_" ++ (n ++ "_attachments") ++ "_1")
                     (n ++ "_attachments")]) = true) as ->.
    { apply existsb_app_r. cbn [existsb named type name].
      now rewrite same_name_refl. }
    reflexivity.
  - unfold DestroyDB, drop_table. rewrite Hvalid, Hst. cbn [negb].
    rewrite Hrest.
    rewrite (existsb_filter_false _ _ c T). reflexivity.
Qed.

Lemma DestroyDB_leaves_tables_witness :
  CreateDB [] "test"
  = (Ok tt,
     [mkSchemaRow table "test_revs" "test_revs";
      mkSchemaRow index "sqlite_autoindex_test_revs_1" "test_revs";
      mkSchemaRow index "idx_parent" "test_revs";
      mkSchemaRow table "test" "test";
      mkSchemaRow index "sqlite_autoindex_test_1" "test";
      mkSchemaRow table "test_attachments" "test_attachments";
      mkSchemaRow index "sqlite_autoindex_test_attachments_1"
                  "test_attachments"])
  /\ exists c'',
       DestroyDB
         [mkSchemaRow table "test_revs" "test_revs";
          mkSchemaRow index "sqlite_autoindex_test_revs_1" "test_revs";
          mkSchemaRow index "idx_parent" "test_revs";
          mkSchemaRow table "test" "test";
          mkSchemaRow index "sqlite_autoindex_test_1" "test";
          mkSchemaRow table "test_attachments" "test_attachments";
          mkSchemaRow index "sqlite_autoindex_test_attachments_1"
                      "test_attachments"]
         "test"
       = (Ok tt, c'')
       /\ DBExists c'' "test" = Ok false.
Proof.
  assert (CreateDB [] "test"
          = (Ok tt,
             [mkSchemaRow table "test_revs" "test_revs";
              mkSchemaRow index "sqlite_autoindex_test_revs_1" "test_revs";
              mkSchemaRow index "idx_parent" "test_revs";
              mkSchemaRow table "test" "test";
              mkSchemaRow index "sqlite_autoindex_test_1" "test";
              mkSchemaRow table "test_attachments" "test_attachments";
              mkSchemaRow index "sqlite_autoindex_test_attachments_1"
                          "test_attachments"])) as H
    by (vm_compute; reflexivity).
  split; [exact H|].
  destruct (DestroyDB_leaves_tables _ _ _ H) as [c'' [H1 [H2 _]]].
  exists c''. split; [exact H1 | exact H2].
Defined.

(** The scenario on a file that holds nothing else. *)
Example DestroyDB_test :
  DestroyDB (snd (CreateDB [] "test")) "test"
  = (Ok tt,
     [mkSchemaRow table "test_revs" "test_revs";
      mkSchemaRow index "sqlite_autoindex_test_revs_1" "test_revs";
      mkSchemaRow index "idx_parent" "test_revs";
      mkSchemaRow table "test_attachments" "test_attachments";
      mkSchemaRow index "sqlite_autoindex_test_attachments_1"
                  "test_attachments"]).
Proof. vm_compute. reflexivity. Qed.

(** A name may pass the validation of CreateDB and still be refused by
    the engine.  When the name of the revision table, the name with _revs
    appended, begins with sqlite_ (the names sqlite and sqlite_x, say),
    the first statement of the schema fails, and CreateDB returns the
    error of the engine, not a 400, and creates nothing. *)
Lemma CreateDB_reserved_name (c : client) (n : string) :
  validDBNameRE n = true ->
  reserved (n ++ "_revs") = true ->
  CreateDB c n = (Err (SqliteError SQLITE_ERROR), c).
Proof.
  intros Hvalid R. unfold CreateDB. rewrite Hvalid. cbn [negb].
  unfold schema, run_schema, exec, create_table. now rewrite R.
Qed.

Example CreateDB_sqlite :
  CreateDB [] "sqlite" = (Err (SqliteError SQLITE_ERROR), []).
Proof. exact (CreateDB_reserved_name [] "sqlite" eq_refl eq_refl). Qed.

(** X19: AllDBs and DBExists agree but for the filter.  The names AllDBs
    returns are exactly the names for which DBExists answers true and
    which the pattern sqlite_% does not match; AllDBs never lists a name
    that DBExists denies. *)
Theorem AllDBs_lists_existing (c : client) :
  exists l,
    AllDBs c = Ok l
    /\ forall n, In n l <-> DBExists c n = Ok true /\ like "sqlite_%" n = false.
Proof.
  unfold AllDBs, DBExists. eexists. split; [reflexivity|]. intros n.
  rewrite in_map_iff. split.
  - intros [r [<- Hr]]. apply filter_In in Hr as [Hr Hk].
    apply andb_true_iff in Hk as [Ht Hl]. apply negb_true_iff in Hl.
    split; [|exact Hl]. f_equal. apply existsb_exists. exists r.
    split; [exact Hr|]. now rewrite Ht, String.eqb_refl.
  - intros [[= He] Hl]. apply existsb_exists in He as [r [Hr Hk]].
    apply andb_true_iff in Hk as [Ht Hn]. apply String.eqb_eq in Hn.
    exists r. split; [exact Hn|]. apply filter_In. split; [exact Hr|].
    now rewrite Ht, Hn, Hl.
Qed.

(** ** The changes feed and the index of all documents *)

Lemma insert_sorted_perm {A : Type} (leb : A -> A -> bool) (x : A)
    (l : list A) :
  Permutation (x :: l) (insert_sorted leb x l).
Proof.
  induction l as [|y l IH]; simpl; [reflexivity|].
  destruct (leb x y); [reflexivity|].
  rewrite perm_swap. now constructor.
Qed.

Lemma order_by_perm {A : Type} (leb : A -> A -> bool) (l : list A) :
  Permutation l (order_by leb l).
Proof.
  induction l as [|x l IH]; simpl; [constructor|].
  rewrite <- insert_sorted_perm. now constructor.
Qed.

Lemma insert_sorted_seq (x : doc_row) (l : list doc_row) :
  Sorted (fun a b => d_seq a <= d_seq b) l ->
  Sorted (fun a b => d_seq a <= d_seq b) (insert_sorted seq_asc x l).
Proof.
  induction 1 as [|y l Hl IH Hy]; simpl; [repeat constructor|].
  unfold seq_asc at 1. destruct (Z.leb_spec (d_seq x) (d_seq y)) as [Hxy|Hxy].
  - repeat constructor; auto.
  - constructor; [exact IH|].
    destruct l as [|z l]; simpl.
    + repeat constructor. lia.
    + unfold seq_asc. destruct (Z.leb_spec (d_seq x) (d_seq z)).
      * constructor. lia.
      * constructor. now inversion Hy.
Qed.

Lemma results_sorted (s : store) :
  StronglySorted (fun a b => d_seq a <= d_seq b) (results s).
Proof.
  apply Sorted_StronglySorted.
  - intros a b c Hab Hbc. lia.
  - unfold results. induction (docs s) as [|x l IH]; simpl; [constructor|].
    now apply insert_sorted_seq.
Qed.

(** X20: in any store, in whatever order its rows lie, Changes succeeds
    and the feed delivers every body row exactly once, as the change of
    that row, with seq never decreasing from one change to the next. *)
Theorem Changes_in_seq_order (s : store) (options : Options) :
  exists c rs,
    Changes s options = Ok c
    /\ fst (changes_all c) = map change_of_row rs
    /\ Permutation rs (docs s)
    /\ StronglySorted (fun a b => d_seq a <= d_seq b) rs.
Proof.
  unfold Changes, changes_query. eexists. exists (results s).
  split; [reflexivity|]. split; [|split].
  - unfold changes_all. cbn [feed].
    destruct (changes_collect_rows (results s)
                (S (List.length
                      (map (fun d => (Some (d_id d), Some (d_seq d),
                                      Some (d_deleted d),
                                      sql_rev_string (d_rev d) (d_rev_id d)))
                           (results s))))
                "" (MD5.hex (summary (results s))) false) as [H1 _].
    { rewrite length_map. lia. }
    exact H1.
  - symmetry. apply order_by_perm.
  - apply results_sorted.
Qed.

Lemma last_cons {A : Type} (a d : A) (l : list A) :
  List.last (a :: l) d = List.last l a.
Proof.
  revert a d. induction l as [|b l IH]; intros a d; [reflexivity|].
  change (List.last (a :: b :: l) d) with (List.last (b :: l) d).
  now rewrite !IH.
Qed.

Lemma changes_collect_prefix (rs : list doc_row) (k : nat)
    (lastv tag : string) (cl : bool) :
  (k <= List.length rs)%nat ->
  changes_collect k
    (mkChanges
       (map (fun d => (Some (d_id d), Some (d_seq d), Some (d_deleted d),
                       sql_rev_string (d_rev d) (d_rev_id d))) rs)
       lastv tag cl)
  = (map change_of_row (firstn k rs),
     mkChanges
       (map (fun d => (Some (d_id d), Some (d_seq d), Some (d_deleted d),
                       sql_rev_string (d_rev d) (d_rev_id d))) (skipn k rs))
       (List.last (map (fun d => itoa (d_seq d)) (firstn k rs)) lastv)
       tag cl).
Proof.
  revert rs lastv. induction k as [|k IH]; intros rs lastv Hk.
  - reflexivity.
  - destruct rs as [|d rs]; [simpl in Hk; lia|].
    simpl in Hk. cbn [changes_collect changes_Next feed map etag closed].
    rewrite (IH rs (itoa (d_seq d))) by lia.
    cbn [firstn skipn map]. rewrite last_cons. reflexivity.
Qed.

Lemma changes_collect_drain (rs : list doc_row) (lastv tag : string)
    (cl : bool) :
  changes_collect (S (List.length rs))
    (mkChanges
       (map (fun d => (Some (d_id d), Some (d_seq d), Some (d_deleted d),
                       sql_rev_string (d_rev d) (d_rev_id d))) rs)
       lastv tag cl)
  = (map change_of_row rs,
     mkChanges [] (List.last (map (fun d => itoa (d_seq d)) rs) lastv)
               tag true).
Proof.
  revert lastv. induction rs as [|d rs IH]; intros lastv.
  - reflexivity.
  - change (changes_collect (S (List.length (d :: rs)))
              (mkChanges
                 (map (fun d => (Some (d_id d), Some (d_seq d),
                                 Some (d_deleted d),
                                 sql_rev_string (d_rev d) (d_rev_id d)))
                      (d :: rs))
                 lastv tag cl))
      with (let '(l, c'') :=
              changes_collect (S (List.length rs))
                (mkChanges
                   (map (fun d => (Some (d_id d), Some (d_seq d),
                                   Some (d_deleted d),
                                   sql_rev_string (d_rev d) (d_rev_id d)))
                        rs)
                   (itoa (d_seq d)) tag cl) in
            (change_of_row d :: l, c'')).
    rewrite (IH (itoa (d_seq d))). cbn [map]. rewrite last_cons. reflexivity.
Qed.

(** X21: LastSeq answers only once the cursor is closed.  For the feed
    of any store: after any number of changes read, as long as the end
    has not been reached, LastSeq is empty; if the feed is closed at that
    point, LastSeq is the seq of the last change read (empty when none
    was read); and once the feed has been read to its end, LastSeq is the
    seq of the last change delivered. *)
Theorem LastSeq_protocol (s : store) (options : Options) :
  exists c,
    Changes s options = Ok c
    /\ (forall k, (k <= List.length (docs s))%nat ->
          LastSeq (snd (changes_collect k c)) = ""
          /\ LastSeq (changes_Close (snd (changes_collect k c)))
             = List.last (map (fun d => itoa (d_seq d))
                              (firstn k (results s))) "")
    /\ LastSeq (snd (changes_all c))
       = List.last (map (fun d => itoa (d_seq d)) (results s)) "".
Proof.
  unfold Changes, changes_query. eexists. split; [reflexivity|]. split.
  - intros k Hk. rewrite changes_collect_prefix.
    + split; reflexivity.
    + unfold results. now rewrite order_by_length.
  - unfold changes_all. cbn [feed]. rewrite length_map.
    rewrite changes_collect_drain. reflexivity.
Qed.

(** X22: in every store that Put and Delete produce from an empty
    database, AllDocs succeeds and returns one row for each node of the
    revision tree, under the id and the revision string of that node:
    every revision ever written is listed, whether it is current or not,
    deleted or not. *)
Theorem AllDocs_lists_every_node (s : store) (options : Options) :
  reachable s ->
  exists r,
    AllDocs s options = Ok r
    /\ Permutation
         (rows_all r)
         (map (fun n => mkRow (r_id n) (sql_rev_string (r_rev n) (r_rev_id n))
                              (sql_rev_string (r_rev n) (r_rev_id n)))
              (revs s)).
Proof.
  intros R. destruct (AllDocs_every_body_row s options) as [r [Hr Hrows]].
  exists r. split; [exact Hr|]. rewrite Hrows.
  pose proof (reachable_keys_agree s R) as Hk.
  assert (forall (t : list rev_row) (u : list doc_row),
            map rev_key t = map doc_key u ->
            map row_of_doc u
            = map (fun n => mkRow (r_id n)
                                  (sql_rev_string (r_rev n) (r_rev_id n))
                                  (sql_rev_string (r_rev n) (r_rev_id n))) t)
    as Hmap.
  { induction t as [|x t IH]; intros [|d u] E; try discriminate E;
      [reflexivity|].
    simpl in E. injection E as Ei En Eh Et. simpl.
    rewrite (IH u Et). unfold row_of_doc. now rewrite Ei, En, Eh. }
  rewrite (Hmap _ _ Hk). reflexivity.
Qed.

Lemma AllDocs_lists_every_node_witness :
  reachable two_revisions
  /\ exists r,
       AllDocs two_revisions NilOption = Ok r
       /\ Permutation
            (rows_all r)
            (map (fun n => mkRow (r_id n)
                                 (sql_rev_string (r_rev n) (r_rev_id n))
                                 (sql_rev_string (r_rev n) (r_rev_id n)))
                 (revs two_revisions)).
Proof.
  exact (conj two_revisions_reachable
           (AllDocs_lists_every_node two_revisions NilOption
              two_revisions_reachable)).
Defined.

(** ** The members Get merges into the body *)

Lemma Get_ok_shape (s : store) (i : string) (options : Options)
    (doc : Document) :
  Get s i options = Ok doc ->
  exists r d,
    In d (docs s) /\ doc_key d = (i, rev r, rid r)
    /\ (opt_rev options = "" -> select_current (docs s) i = Some d)
    /\ doc
       = mkDocument (revision_String r) (d_doc d)
           (if opt_meta options || opt_conflicts options
            then Some (conflicts s i r false) else None)
           (if opt_meta options || opt_deleted_conflicts options
            then Some (conflicts s i r true) else None)
           (if opt_meta options || opt_revs_info options
            then Some (revs_info s i r) else None).
Proof.
  unfold Get.
  destruct (String.eqb_spec (opt_rev options) "") as [E|E]; cbn [negb].
  - destruct (select_current (docs s) i) as [w|] eqn:Hw; [|discriminate].
    destruct (select_current_spec _ _ _ Hw) as [Hin [Hid _]].
    destruct (d_deleted w); [discriminate|].
    cbv beta iota zeta. intros [= <-].
    exists (mkRevision (d_rev w) (d_rev_id w)), w. cbn [rev rid].
    split; [exact Hin|]. split; [unfold doc_key; now rewrite Hid|].
    split; [reflexivity|reflexivity].
  - destruct (parseRev (opt_rev options)) as [r|e] eqn:Hp; [|discriminate].
    destruct (hd_error (filter (doc_key_is i (rev r) (rid r)) (docs s)))
      as [d|] eqn:Hd; cbn [option_map]; [|discriminate].
    assert (In d (filter (doc_key_is i (rev r) (rid r)) (docs s))) as Hin.
    { destruct (filter (doc_key_is i (rev r) (rid r)) (docs s));
        [discriminate Hd|]. injection Hd as ->. now left. }
    apply filter_In in Hin as [Hin Hk]. apply doc_key_is_iff in Hk.
    cbv beta iota zeta. intros [= <-]. exists r, d.
    split; [exact Hin|]. split; [exact Hk|].
    split; [intros H; now elim E|reflexivity].
Qed.

Lemma NoDup_map_inj {A B : Type} (f : A -> B) (l : list A) (x y : A) :
  NoDup (map f l) -> In x l -> In y l -> f x = f y -> x = y.
Proof.
  induction l as [|a l IH]; simpl; intros Hnd Hx Hy E; [destruct Hx|].
  inversion Hnd as [|? ? Hna Hl]; subst.
  destruct Hx as [<-|Hx], Hy as [<-|Hy]; auto.
  - elim Hna. rewrite E. now apply in_map.
  - elim Hna. rewrite <- E. now apply in_map.
Qed.

Lemma NoDup_flat_map {A B : Type} (f : A -> list B) (l : list A) :
  NoDup l ->
  (forall x, In x l -> NoDup (f x)) ->
  (forall x y z, In x l -> In y l -> In z (f x) -> In z (f y) -> x = y) ->
  NoDup (flat_map f l).
Proof.
  induction 1 as [|a l Ha Hl IH]; intros Hf Hinj; simpl; [constructor|].
  apply NoDup_app.
  - apply Hf. now left.
  - apply IH.
    + intros x Hx. apply Hf. now right.
    + intros x y z Hx Hy. apply Hinj; now right.
  - intros z Hz Hz'. apply in_flat_map in Hz' as [y [Hy Hzy]].
    assert (a = y) as -> by (apply (Hinj a y z); auto; [now left|now right]).
    contradiction.
Qed.

Lemma filter_none {A : Type} (f : A -> bool) (l : list A) :
  (forall x, In x l -> f x = false) -> filter f l = [].
Proof.
  induction l as [|a l IH]; intros H; [reflexivity|]. simpl.
  rewrite (H a (or_introl eq_refl)). apply IH. intros x Hx. apply H. now right.
Qed.

Lemma filter_key_at_most_one (t : list doc_row) (i : string) (n : Z)
    (h : string) (g : doc_row -> bool) :
  NoDup (map doc_key t) ->
  (List.length (filter (fun d => doc_key_is i n h d && g d) t) <= 1)%nat.
Proof.
  induction t as [|d t IH]; intros Hnd; [simpl; lia|].
  inversion Hnd as [|? ? Hna Ht]; subst. simpl.
  destruct (doc_key_is i n h d && g d) eqn:Hk; [|now apply IH].
  rewrite filter_none; [simpl; lia|].
  intros x Hx. destruct (doc_key_is i n h x && g x) eqn:Hkx; [|reflexivity].
  exfalso. apply Hna.
  apply andb_true_iff in Hk as [Hk _]. apply andb_true_iff in Hkx as [Hkx _].
  apply doc_key_is_iff in Hk, Hkx. rewrite Hk, <- Hkx. now apply in_map.
Qed.

Lemma conflicts_In (s : store) (i : string) (r : revision) (del : bool)
    (x : string) :
  In x (conflicts s i r del) <->
  exists rv d,
    In rv (revs s) /\ r_id rv = i
    /\ ~ (r_rev rv = rev r /\ r_rev_id rv = rid r)
    /\ existsb (fun child => parent_of child rv) (revs s) = false
    /\ In d (docs s) /\ doc_key d = (i, r_rev rv, r_rev_id rv)
    /\ d_deleted d = del
    /\ x = sql_rev_string (r_rev rv) (r_rev_id rv).
Proof.
  unfold conflicts. rewrite in_flat_map. split.
  - intros [rv [Hrv Hx]].
    destruct ((r_id rv =? i)%string
              && negb ((r_rev rv =? rev r) && (r_rev_id rv =? rid r)%string)
              && negb (existsb (fun child => parent_of child rv) (revs s)))
      eqn:Hc; [|destruct Hx].
    apply andb_true_iff in Hc as [Hc Hleaf].
    apply andb_true_iff in Hc as [Hid Hne].
    apply String.eqb_eq in Hid. apply negb_true_iff in Hne, Hleaf.
    apply in_map_iff in Hx as [d [Hx Hd]]. apply filter_In in Hd as [Hd Hk].
    apply andb_true_iff in Hk as [Hk Hdel]. apply doc_key_is_iff in Hk.
    apply Bool.eqb_prop in Hdel.
    exists rv, d. rewrite <- Hid at 2. repeat split; auto.
    intros [E1 E2]. rewrite E1, E2, Z.eqb_refl, String.eqb_refl in Hne.
    discriminate Hne.
  - intros [rv [d [Hrv [Hid [Hne [Hleaf [Hd [Hk [Hdel ->]]]]]]]]].
    exists rv. split; [exact Hrv|].
    assert ((r_id rv =? i)%string = true) as -> by (now apply String.eqb_eq).
    assert ((r_rev rv =? rev r) && (r_rev_id rv =? rid r)%string = false)
      as ->.
    { destruct (Z.eqb_spec (r_rev rv) (rev r)); [|reflexivity].
      destruct (String.eqb_spec (r_rev_id rv) (rid r)); [|reflexivity].
      now elim Hne. }
    rewrite Hleaf. cbn [negb andb]. apply in_map_iff. exists d.
    split; [reflexivity|]. apply filter_In. split; [exact Hd|].
    apply andb_true_iff. split.
    + apply doc_key_is_iff. now rewrite Hid.
    + rewrite Hdel. apply Bool.eqb_reflx.
Qed.

Lemma conflicts_NoDup (s : store) (i : string) (r : revision) (del : bool) :
  well_formed s -> NoDup (conflicts s i r del).
Proof.
  intros Hwf. unfold conflicts. apply NoDup_flat_map.
  - exact (NoDup_map_inv rev_key (revs s) (wf_node_keys_unique s Hwf)).
  - intros rv _.
    destruct ((r_id rv =? i)%string
              && negb ((r_rev rv =? rev r) && (r_rev_id rv =? rid r)%string)
              && negb (existsb (fun child => parent_of child rv) (revs s)));
      [|constructor].
    pose proof (filter_key_at_most_one (docs s) (r_id rv) (r_rev rv)
                  (r_rev_id rv) (fun d => Bool.eqb (d_deleted d) del)
                  (wf_body_keys_unique s Hwf)) as Hlen.
    destruct (filter _ (docs s)) as [|a [|b l]]; simpl in *;
      [constructor| |lia].
    constructor; [intros []|constructor].
  - intros x y z Hx Hy Hzx Hzy.
    destruct ((r_id x =? i)%string
              && negb ((r_rev x =? rev r) && (r_rev_id x =? rid r)%string)
              && negb (existsb (fun child => parent_of child x) (revs s)))
      eqn:Hcx; [|destruct Hzx].
    destruct ((r_id y =? i)%string
              && negb ((r_rev y =? rev r) && (r_rev_id y =? rid r)%string)
              && negb (existsb (fun child => parent_of child y) (revs s)))
      eqn:Hcy; [|destruct Hzy].
    apply andb_true_iff in Hcx as [Hcx _]. apply andb_true_iff in Hcx as [Hix _].
    apply andb_true_iff in Hcy as [Hcy _]. apply andb_true_iff in Hcy as [Hiy _].
    apply String.eqb_eq in Hix, Hiy.
    apply in_map_iff in Hzx as [_ [<- _]]. apply in_map_iff in Hzy as [_ [E _]].
    apply sql_rev_string_inj in E as [En Eh];
      try (apply (wf_nodes_positive s Hwf); assumption).
    apply (NoDup_map_inj rev_key (revs s) x y (wf_node_keys_unique s Hwf) Hx Hy).
    unfold rev_key. congruence.
Qed.

(** X23: in every store that Put and Delete produce from an empty
    database, the revisions a successful Get reports under _conflicts and
    _deleted_conflicts are pairwise distinct, none of them is the
    revision returned, and each is the revision string of a body row of
    the document whose deleted flag is false for _conflicts and true for
    _deleted_conflicts. *)
Theorem Get_conflicts_distinct (s : store) (i : string) (options : Options)
    (doc : Document) (live dead : list string) :
  reachable s ->
  Get s i options = Ok doc ->
  Conflicts doc = Some live -> DeletedConflicts doc = Some dead ->
  NoDup (live ++ dead)
  /\ ~ In (DocRev doc) (live ++ dead)
  /\ (forall x, In x live ->
        exists d, In d (docs s) /\ d_id d = i /\ d_deleted d = false
                  /\ x = sql_rev_string (d_rev d) (d_rev_id d))
  /\ (forall x, In x dead ->
        exists d, In d (docs s) /\ d_id d = i /\ d_deleted d = true
                  /\ x = sql_rev_string (d_rev d) (d_rev_id d)).
Proof.
  intros R HG Hlive Hdead. pose proof (reachable_well_formed s R) as Hwf.
  destruct (Get_ok_shape s i options doc HG) as [r [d0 [Hd0 [Hk0 [_ ->]]]]].
  cbn [Conflicts DeletedConflicts DocRev] in *.
  destruct (opt_meta options || opt_conflicts options); [|discriminate].
  destruct (opt_meta options || opt_deleted_conflicts options);
    [|discriminate].
  injection Hlive as <-. injection Hdead as <-.
  pose proof (bodies_positive s d0 (wf_bodies_have_nodes s Hwf)
                (wf_nodes_positive s Hwf) Hd0) as Hpos.
  injection Hk0 as _ Hn0 Hh0. rewrite Hn0 in Hpos.
  assert (forall del x, In x (conflicts s i r del) ->
            exists d, In d (docs s) /\ d_id d = i /\ d_deleted d = del
                      /\ 0 < d_rev d
                      /\ ~ (d_rev d = rev r /\ d_rev_id d = rid r)
                      /\ x = sql_rev_string (d_rev d) (d_rev_id d)) as Hin.
  { intros del x Hx. apply conflicts_In in Hx
      as [rv [d [Hrv [Hid [Hne [_ [Hd [Hk [Hdel ->]]]]]]]]].
    injection Hk as Hi Hn Hh. exists d. rewrite Hn, Hh.
    split; [exact Hd|]. split; [exact Hi|]. split; [exact Hdel|].
    split; [|split; [exact Hne|reflexivity]].
    rewrite <- Hn.
    exact (bodies_positive s d (wf_bodies_have_nodes s Hwf)
             (wf_nodes_positive s Hwf) Hd). }
  split; [|split; [|split]].
  - apply NoDup_app; try (now apply conflicts_NoDup).
    intros x Hl Hd. apply Hin in Hl as [d1 [Hd1 [Hi1 [Hdel1 [Hp1 [_ ->]]]]]].
    apply Hin in Hd as [d2 [Hd2 [Hi2 [Hdel2 [Hp2 [_ E]]]]]].
    apply sql_rev_string_inj in E as [En Eh]; auto.
    assert (d1 = d2) as <-.
    { apply (NoDup_map_inj doc_key (docs s) d1 d2
               (wf_body_keys_unique s Hwf) Hd1 Hd2).
      unfold doc_key. congruence. }
    congruence.
  - assert (revision_String r = sql_rev_string (rev r) (rid r)) as ->
      by (destruct r; now apply revision_String_positive).
    intros Hx. apply in_app_or in Hx as [Hx|Hx];
      apply Hin in Hx as [d [_ [_ [_ [Hp [Hne E]]]]]];
      apply sql_rev_string_inj in E as [En Eh]; auto.
  - intros x Hx. apply Hin in Hx as [d [H1 [H2 [H3 [_ [_ H4]]]]]]. eauto.
  - intros x Hx. apply Hin in Hx as [d [H1 [H2 [H3 [_ [_ H4]]]]]]. eauto.
Qed.

Lemma two_branches_reachable : reachable two_branches.
Proof. unfold two_branches. apply reach_Put. apply reach_Put. constructor. Qed.

Lemma Get_conflicts_distinct_witness :
  reachable two_branches
  /\ Get two_branches "foo" (mkOptions "1-aaa" true true false false false)
     = Ok (mkDocument "1-aaa" (member "cat" "purr") (Some [])
                      (Some ["1-xxx"]) (Some [("1-aaa", "available")]))
  /\ NoDup ([] ++ ["1-xxx"])
  /\ ~ In (DocRev (mkDocument "1-aaa" (member "cat" "purr") (Some [])
                              (Some ["1-xxx"])
                              (Some [("1-aaa", "available")])))
          ([] ++ ["1-xxx"]).
Proof.
  assert (Get two_branches "foo" (mkOptions "1-aaa" true true false false false)
          = Ok (mkDocument "1-aaa" (member "cat" "purr") (Some [])
                           (Some ["1-xxx"]) (Some [("1-aaa", "available")])))
    as HG by (vm_compute; reflexivity).
  split; [exact two_branches_reachable|]. split; [exact HG|].
  destruct (Get_conflicts_distinct two_branches "foo" _ _ [] ["1-xxx"]
              two_branches_reachable HG eq_refl eq_refl) as [H1 [H2 _]].
  split; [exact H1 | exact H2].
Defined.

(** ** Stores written without replication *)

Lemma interactive_reachable (s : store) : interactive s -> reachable s.
Proof. induction 1; constructor; assumption. Qed.

Lemma select_current_other (t : list doc_row) (w : doc_row) (j : string) :
  d_id w <> j -> select_current (t ++ [w]) j = select_current t j.
Proof.
  intros H. unfold select_current. rewrite filter_app. cbn [filter].
  apply String.eqb_neq in H. rewrite H. now rewrite app_nil_r.
Qed.

Lemma linear_with_child (s : store) (i h body : string) (del : bool) :
  well_formed s -> linear s -> linear (with_child s i h body del).
Proof.
  intros Hwf Hlin rv Hrv. unfold with_child in Hrv. cbn [revs] in Hrv.
  apply in_app_or in Hrv as [Hrv|[<-|[]]].
  - destruct (String.eqb_spec (r_id rv) i) as [Ei|Ei].
    + right. unfold with_child. cbn [revs].
      destruct (Hlin rv Hrv) as [[Hn Hh]|Hchild];
        [|now apply existsb_app_l].
      apply existsb_app_r. cbn [existsb]. apply orb_true_iff. left.
      rewrite Ei in Hn, Hh.
      pose proof (wf_nodes_positive s Hwf rv Hrv) as Hpos.
      unfold parent_of, child_node. cbn [r_parent_rev r_parent_rev_id r_id].
      destruct (Z.eqb_spec (rev (current_revision (docs s) i)) 0) as [E|E];
        [lia|].
      apply rev_key_is_iff. auto.
    + destruct (Hlin rv Hrv) as [H|H].
      * left. unfold with_child, new_body. cbn [docs].
        unfold current_revision in *.
        rewrite select_current_other; [exact H|]. cbn [d_id]. congruence.
      * right. unfold with_child. cbn [revs]. now apply existsb_app_l.
  - left. change (r_id (child_node s i h)) with i.
    rewrite (current_revision_after_child s i h body del Hwf).
    split; reflexivity.
Qed.

Lemma interactive_linear (s : store) : interactive s -> linear s.
Proof.
  induction 1 as [|s docID doc options I IH Hne|s docID options I IH].
  - intros rv [].
  - pose proof (reachable_well_formed s (interactive_reachable s I)) as Hwf.
    destruct (Put_new_edits_outcome s docID doc options Hwf Hne)
      as [H|[H|[[_ H]|[_ H]]]]; rewrite H; cbn [snd]; auto.
    now apply linear_with_child.
  - pose proof (reachable_well_formed s (interactive_reachable s I)) as Hwf.
    destruct (Delete_outcome s docID options Hwf)
      as [[_ H]|[[w [_ [_ H]]]|[w [_ [_ H]]]]]; rewrite H; cbn [snd]; auto.
    now apply linear_with_child.
Qed.

Lemma flat_map_nil {A B : Type} (f : A -> list B) (l : list A) :
  (forall x, In x l -> f x = []) -> flat_map f l = [].
Proof.
  induction l as [|a l IH]; intros H; [reflexivity|]. simpl.
  rewrite (H a (or_introl eq_refl)). apply IH. intros x Hx. apply H. now right.
Qed.

Lemma linear_no_conflicts (s : store) (i : string) (d : doc_row) (del : bool) :
  linear s -> select_current (docs s) i = Some d ->
  conflicts s i (mkRevision (d_rev d) (d_rev_id d)) del = [].
Proof.
  intros Hlin Hsel. unfold conflicts. apply flat_map_nil. intros rv Hrv.
  destruct (String.eqb_spec (r_id rv) i) as [Ei|Ei]; [|reflexivity].
  cbn [rev rid andb].
  destruct (Hlin rv Hrv) as [[Hn Hh]|Hchild].
  - unfold current_revision in Hn, Hh. rewrite Ei, Hsel in Hn, Hh.
    cbn [rev rid] in Hn, Hh.
    now rewrite Hn, Hh, Z.eqb_refl, String.eqb_refl.
  - rewrite Hchild. cbn [negb]. now rewrite andb_false_r.
Qed.

(** X24: without replication there are no conflicts.  In every store
    that Put with new_edits=true and Delete alone produce from an empty
    database, the revisions of a document form one line, and a Get
    without a rev option that succeeds reports both _conflicts and
    _deleted_conflicts as empty. *)
Theorem interactive_no_conflicts (s : store) (i : string) (options : Options)
    (doc : Document) :
  interactive s ->
  opt_rev options = "" ->
  Get s i options = Ok doc ->
  (forall l, Conflicts doc = Some l -> l = [])
  /\ (forall l, DeletedConflicts doc = Some l -> l = []).
Proof.
  intros I Hrev HG. pose proof (interactive_linear s I) as Hlin.
  destruct (Get_ok_shape s i options doc HG) as [r [d [_ [Hk [Hsel ->]]]]].
  specialize (Hsel Hrev). injection Hk as _ Hn Hh.
  assert (r = mkRevision (d_rev d) (d_rev_id d)) as ->
    by (destruct r; cbn [rev rid] in *; congruence).
  cbn [Conflicts DeletedConflicts].
  rewrite !(linear_no_conflicts s i d _ Hlin Hsel).
  split; intros l;
    [destruct (opt_meta options || opt_conflicts options)
    |destruct (opt_meta options || opt_deleted_conflicts options)];
    intros [= <-]; reflexivity.
Qed.

Lemma two_revisions_interactive : interactive two_revisions.
Proof.
  unfold two_revisions.
  apply inter_Put; [apply inter_Put; [constructor|reflexivity]|reflexivity].
Qed.

Lemma interactive_no_conflicts_witness :
  interactive two_revisions
  /\ opt_rev (mkOptions "" true true false false false) = ""
  /\ Get two_revisions "foo" (mkOptions "" true true false false false)
     = Ok (mkDocument "2-c1f7f9ed8874502b095381186a35af4b"
             (member "cat" "purr") (Some []) (Some [])
             (Some [("2-c1f7f9ed8874502b095381186a35af4b", "available");
                    ("1-274558516009acbe973682d27a58b598", "available")]))
  /\ forall l,
       Conflicts
         (mkDocument "2-c1f7f9ed8874502b095381186a35af4b"
            (member "cat" "purr") (Some []) (Some [])
            (Some [("2-c1f7f9ed8874502b095381186a35af4b", "available");
                   ("1-274558516009acbe973682d27a58b598", "available")]))
       = Some l -> l = [].
Proof.
  assert (Get two_revisions "foo" (mkOptions "" true true false false false)
          = Ok (mkDocument "2-c1f7f9ed8874502b095381186a35af4b"
                  (member "cat" "purr") (Some []) (Some [])
                  (Some [("2-c1f7f9ed8874502b095381186a35af4b", "available");
                         ("1-274558516009acbe973682d27a58b598", "available")])))
    as HG by (vm_compute; reflexivity).
  exact (conj two_revisions_interactive (conj eq_refl (conj HG
           (proj1 (interactive_no_conflicts two_revisions "foo"
                     (mkOptions "" true true false false false) _
                     two_revisions_interactive eq_refl HG))))).
Defined.

(** ** The revision history Get reports *)

Lemma revs_info_unfold (s : store) (i : string) (r : revision) :
  revs_info s i r = flat_map (revs_info_status s) (revs_info_nodes s i r).
Proof. reflexivity. Qed.

Lemma closure_incl (fuel : nat) (step : rev_row -> list rev_row)
    (frontier : list rev_row) (x : rev_row) :
  In x frontier -> In x (closure fuel step frontier).
Proof.
  destruct fuel; simpl; [auto|]. intros H. apply in_or_app. now left.
Qed.

Lemma closure_invariant (P : rev_row -> Prop) (step : rev_row -> list rev_row) :
  (forall a b, P a -> In b (step a) -> P b) ->
  forall (fuel : nat) (frontier : list rev_row),
    (forall a, In a frontier -> P a) ->
    forall x, In x (closure fuel step frontier) -> P x.
Proof.
  intros Hstep. induction fuel as [|fuel IH]; intros frontier Hf x Hx;
    simpl in Hx; [now apply Hf|].
  apply in_app_or in Hx as [Hx|Hx]; [now apply Hf|].
  apply (IH (flat_map step frontier)); [|exact Hx].
  intros b Hb. apply in_flat_map in Hb as [a [Ha Hb]].
  apply (Hstep a b); auto.
Qed.

Lemma parent_of_same_id (a p : rev_row) :
  parent_of a p = true -> r_id p = r_id a.
Proof.
  unfold parent_of. destruct (r_parent_rev a); [|discriminate].
  destruct (r_parent_rev_id a); [|discriminate].
  intros H. now apply rev_key_is_iff in H.
Qed.

Lemma revs_info_nodes_In (s : store) (i : string) (r : revision)
    (k : string * Z * string) :
  In k (revs_info_nodes s i r) ->
  exists rv, In rv (revs s) /\ r_id rv = i
             /\ k = (r_id rv, r_rev rv, r_rev_id rv).
Proof.
  unfold revs_info_nodes. rewrite order_by_In, nodup_In, in_map_iff.
  intros [rv [<- Hrv]]. exists rv.
  assert (In rv (revs s) /\ r_id rv = i) as [H1 H2]; [|auto].
  assert (forall a, In a (filter (rev_key_is i (rev r) (rid r)) (revs s)) ->
            In a (revs s) /\ r_id a = i) as Hstart.
  { intros a Ha. apply filter_In in Ha as [Ha Hk].
    apply rev_key_is_iff in Hk. tauto. }
  apply in_app_or in Hrv as [Hrv|Hrv].
  - apply (closure_invariant (fun a => In a (revs s) /\ r_id a = i)
             (fun a => filter (fun p => parent_of a p) (revs s)))
      with (3 := Hrv); [|exact Hstart].
    intros a b [Ha Hi] Hb. apply filter_In in Hb as [Hb Hp].
    apply parent_of_same_id in Hp. split; [exact Hb|congruence].
  - apply (closure_invariant (fun a => In a (revs s) /\ r_id a = i)
             (fun d => filter (fun c => parent_of c d) (revs s)))
      with (3 := Hrv); [|exact Hstart].
    intros a b [Ha Hi] Hb. apply filter_In in Hb as [Hb Hp].
    apply parent_of_same_id in Hp. split; [exact Hb|congruence].
Qed.

Lemma revs_info_nodes_start (s : store) (i : string) (r : revision)
    (rv : rev_row) :
  In rv (revs s) -> rev_key_is i (rev r) (rid r) rv = true ->
  In (r_id rv, r_rev rv, r_rev_id rv) (revs_info_nodes s i r).
Proof.
  intros Hrv Hk. unfold revs_info_nodes.
  rewrite order_by_In, nodup_In, in_map_iff. exists rv.
  split; [reflexivity|]. apply in_or_app. left. apply closure_incl.
  apply filter_In. auto.
Qed.

Lemma revs_info_status_In (s : store) (ki : string) (kn : Z) (kh : string)
    (x st : string) :
  existsb (doc_key_is ki kn kh) (docs s) = true ->
  (In (x, st) (revs_info_status s (ki, kn, kh)) <->
   exists d, In d (docs s) /\ doc_key d = (ki, kn, kh)
             /\ x = sql_rev_string kn kh
             /\ st = if d_deleted d then "deleted" else "available").
Proof.
  intros Hbody. unfold revs_info_status.
  destruct (filter (doc_key_is ki kn kh) (docs s)) as [|d0 ds] eqn:F.
  - exfalso. apply existsb_exists in Hbody as [d [Hd Hk]].
    assert (In d (filter (doc_key_is ki kn kh) (docs s))) as Hin
      by (apply filter_In; auto).
    rewrite F in Hin. destruct Hin.
  - rewrite in_map_iff. split.
    + intros [d [E Hd]]. rewrite <- F in Hd. apply filter_In in Hd as [Hd Hk].
      apply doc_key_is_iff in Hk. injection E as <- <-. eauto.
    + intros [d [Hd [Hk [-> ->]]]]. exists d. split; [reflexivity|].
      rewrite <- F. apply filter_In. split; [exact Hd|].
      now apply doc_key_is_iff.
Qed.

(** X25: in every store that Put and Delete produce from an empty
    database, every entry of the _revs_info a successful Get reports
    names a revision of that document that has a body row, with the
    status of that row, deleted or available and never missing; and the
    revision returned is itself among the entries. *)
Theorem Get_revs_info (s : store) (i : string) (options : Options)
    (doc : Document) (info : list (string * string)) :
  reachable s ->
  Get s i options = Ok doc ->
  RevsInfo doc = Some info ->
  (forall x st, In (x, st) info ->
     exists d, In d (docs s) /\ d_id d = i
               /\ x = sql_rev_string (d_rev d) (d_rev_id d)
               /\ st = if d_deleted d then "deleted" else "available")
  /\ exists st, In (DocRev doc, st) info.
Proof.
  intros R HG Hinfo. pose proof (reachable_well_formed s R) as Hwf.
  destruct (Get_ok_shape s i options doc HG) as [r [d0 [Hd0 [Hk0 [_ ->]]]]].
  cbn [RevsInfo DocRev] in *.
  destruct (opt_meta options || opt_revs_info options); [|discriminate].
  injection Hinfo as <-. rewrite revs_info_unfold. split.
  - intros x st Hx. apply in_flat_map in Hx as [k [Hk Hx]].
    apply revs_info_nodes_In in Hk as [rv [Hrv [Hi ->]]].
    apply revs_info_status_In in Hx;
      [|exact (wf_nodes_have_bodies s Hwf rv Hrv)].
    destruct Hx as [d [Hd [Hk [-> ->]]]]. injection Hk as Hdi Hdn Hdh.
    exists d. rewrite Hdn, Hdh. repeat split; auto. congruence.
  - pose proof (bodies_positive s d0 (wf_bodies_have_nodes s Hwf)
                  (wf_nodes_positive s Hwf) Hd0) as Hpos.
    pose proof (wf_bodies_have_nodes s Hwf d0 Hd0) as Hnode.
    injection Hk0 as Hi0 Hn0 Hh0. rewrite Hi0, Hn0, Hh0 in Hnode.
    rewrite Hn0 in Hpos.
    apply existsb_exists in Hnode as [rv [Hrv Hk]].
    pose proof (revs_info_nodes_start s i r rv Hrv Hk) as Hin.
    apply rev_key_is_iff in Hk as [Ei [En Eh]]. rewrite Ei, En, Eh in Hin.
    exists (if d_deleted d0 then "deleted" else "available").
    apply in_flat_map. exists (i, rev r, rid r). split; [exact Hin|].
    assert (revision_String r = sql_rev_string (rev r) (rid r)) as ->
      by (destruct r; now apply revision_String_positive).
    apply revs_info_status_In.
    + apply existsb_exists. exists d0. split; [exact Hd0|].
      apply doc_key_is_iff. unfold doc_key. congruence.
    + exists d0. repeat split; auto. unfold doc_key. congruence.
Qed.

Lemma Get_revs_info_witness :
  reachable two_revisions
  /\ Get two_revisions "foo" (mkOptions "" true true false false false)
     = Ok (mkDocument "2-c1f7f9ed8874502b095381186a35af4b"
             (member "cat" "purr") (Some []) (Some [])
             (Some [("2-c1f7f9ed8874502b095381186a35af4b", "available");
                    ("1-274558516009acbe973682d27a58b598", "available")]))
  /\ exists st,
       In (DocRev
             (mkDocument "2-c1f7f9ed8874502b095381186a35af4b"
                (member "cat" "purr") (Some []) (Some [])
                (Some [("2-c1f7f9ed8874502b095381186a35af4b", "available");
                       ("1-274558516009acbe973682d27a58b598", "available")])),
           st)
          [("2-c1f7f9ed8874502b095381186a35af4b", "available");
           ("1-274558516009acbe973682d27a58b598", "available")].
Proof.
  assert (Get two_revisions "foo" (mkOptions "" true true false false false)
          = Ok (mkDocument "2-c1f7f9ed8874502b095381186a35af4b"
                  (member "cat" "purr") (Some []) (Some [])
                  (Some [("2-c1f7f9ed8874502b095381186a35af4b", "available");
                         ("1-274558516009acbe973682d27a58b598", "available")])))
    as HG by (vm_compute; reflexivity).
  exact (conj two_revisions_reachable (conj HG
           (proj2 (Get_revs_info two_revisions "foo"
                     (mkOptions "" true true false false false) _ _
                     two_revisions_reachable HG eq_refl)))).
Defined.

(** ** Writes append, and only to their own document *)

Lemma appends_nothing (s : store) (docID : string) : appends s s docID.
Proof.
  exists [], []. rewrite !app_nil_r.
  split; [reflexivity|]. split; [reflexivity|]. split; [simpl; lia|].
  split; intros ? [].
Qed.

Lemma appends_body (s : store) (docID : string) (n : Z) (h body : string)
    (del : bool) :
  appends s (mkStore (revs s)
                     (docs s ++ [mkDocRow (next_seq (docs s)) docID n h body del]))
          docID.
Proof.
  exists [], [mkDocRow (next_seq (docs s)) docID n h body del].
  cbn [revs docs]. rewrite app_nil_r.
  split; [reflexivity|]. split; [reflexivity|]. split; [simpl; lia|].
  split; [intros ? []|]. intros d [<-|[]]. split; reflexivity.
Qed.

Lemma appends_both (s : store) (docID : string) (n : Z) (h body : string)
    (del : bool) (pr : option Z) (pri : option string) :
  appends s (mkStore (revs s ++ [mkRevRow docID n h pr pri])
                     (docs s ++ [mkDocRow (next_seq (docs s)) docID n h body del]))
          docID.
Proof.
  exists [mkRevRow docID n h pr pri],
         [mkDocRow (next_seq (docs s)) docID n h body del].
  cbn [revs docs].
  split; [reflexivity|]. split; [reflexivity|]. split; [simpl; lia|].
  split; [intros r [<-|[]]; reflexivity|].
  intros d [<-|[]]. split; reflexivity.
Qed.

Lemma Put_appends (s : store) (docID : string) (doc : Doc) (options : Options) :
  appends s (snd (Put s docID doc options)) docID.
Proof.
  unfold Put, extractRev. cbv beta iota.
  destruct (negb (opt_rev options =? "")%string
            && negb (doc_rev doc =? "")%string
            && negb (opt_rev options =? doc_rev doc)%string);
    [apply appends_nothing|].
  destruct (prepareDoc docID doc) as [data|e] eqn:Hprep;
    [|apply appends_nothing].
  apply prepareDoc_ok in Hprep. subst data. cbn [ID DRev DDoc Deleted].
  destruct (negb (opt_new_edits options)).
  - match goal with |- context [(?x =? "")%string] =>
      destruct (x =? "")%string; [apply appends_nothing|] end.
    match goal with |- context [parseRev ?x] =>
      destruct (parseRev x) as [r|e]; [|apply appends_nothing] end.
    destruct (insert_rev (revs s) (mkRevRow docID (rev r) (rid r) None None))
      as [revs1|e] eqn:Hrev.
    + apply insert_rev_ok in Hrev as [-> _].
      destruct (insert_doc _ _ _ _ _ _) as [docs1|[| [] |]] eqn:Hdoc;
        try apply appends_nothing.
      apply insert_doc_ok in Hdoc as [-> _]. apply appends_both.
    + apply insert_rev_err in Hrev as [-> _].
      destruct (insert_doc _ _ _ _ _ _) as [docs1|[| [] |]] eqn:Hdoc;
        try apply appends_nothing.
      apply insert_doc_ok in Hdoc as [-> _]. apply appends_body.
  - match goal with |- context [negb ?b] =>
      destruct (negb b); [apply appends_nothing|] end.
    match goal with |- context [insert_rev ?t ?r] =>
      destruct (insert_rev t r) as [revs1|e] eqn:Hrev;
      [|apply appends_nothing] end.
    apply insert_rev_ok in Hrev as [-> _].
    match goal with |- context [insert_doc ?t ?i ?n ?h ?b ?d] =>
      destruct (insert_doc t i n h b d) as [docs1|e] eqn:Hdoc;
      [|apply appends_nothing] end.
    apply insert_doc_ok in Hdoc as [-> _]. apply appends_both.
Qed.

Lemma Delete_appends (s : store) (docID : string) (options : Options) :
  appends s (snd (Delete s docID options)) docID.
Proof.
  rewrite Delete_unfold.
  destruct (select_current (docs s) docID) as [d|]; [|apply appends_nothing].
  destruct (negb _); [apply appends_nothing|].
  unfold insert_child. cbn [ID DRev DDoc rev rid].
  match goal with |- context [insert_rev ?t ?r] =>
    destruct (insert_rev t r) as [revs1|e] eqn:Hrev;
    [|apply appends_nothing] end.
  apply insert_rev_ok in Hrev as [-> _].
  match goal with |- context [insert_doc ?t ?i ?n ?h ?b ?dl] =>
    destruct (insert_doc t i n h b dl) as [docs1|e] eqn:Hdoc;
    [|apply appends_nothing] end.
  apply insert_doc_ok in Hdoc as [-> _]. apply appends_both.
Qed.

(** X26: writes only append.  In any store, whatever Put or Delete
    returns, the tables afterwards are the tables before followed by at
    most one node and at most one body row, both of the document
    written, the body row under the next seq; a node is never added
    without its body row, and no row that was stored is ever changed or
    removed. *)
Theorem writes_append_only (s : store) (docID : string) (doc : Doc)
    (options : Options) :
  appends s (snd (Put s docID doc options)) docID
  /\ appends s (snd (Delete s docID options)) docID.
Proof. split; [apply Put_appends | apply Delete_appends]. Qed.

(** ** The recursive queries stop *)

Lemma closure_nil (fuel : nat) (step : rev_row -> list rev_row) :
  closure fuel step [] = [].
Proof. induction fuel as [|fuel IH]; simpl; [reflexivity|exact IH]. Qed.

Lemma filter_length_lt {A : Type} (p q : A -> bool) (b : A) (l : list A) :
  (forall x, p x = true -> q x = true) ->
  In b l -> p b = false -> q b = true ->
  (List.length (filter p l) < List.length (filter q l))%nat.
Proof.
  intros Hpq Hb Hp Hq.
  assert (forall l', (List.length (filter p l') <= List.length (filter q l'))%nat)
    as Hle.
  { induction l' as [|x l' IH]; simpl; [lia|].
    destruct (p x) eqn:Px; [rewrite (Hpq x Px); simpl; lia|].
    destruct (q x); simpl; lia. }
  induction l as [|x l IH]; [destruct Hb|]. simpl.
  destruct Hb as [->|Hb].
  - rewrite Hp, Hq. simpl. specialize (Hle l). lia.
  - specialize (IH Hb). destruct (p x) eqn:Px; [rewrite (Hpq x Px); simpl; lia|].
    destruct (q x); simpl; lia.
Qed.

Section Stable.
Variable t : list rev_row.
Variable step : rev_row -> list rev_row.
Variable w : rev_row -> Z.
Hypothesis step_in :
  forall a b, In a t -> In b (step a) -> In b t /\ w b = w a - 1.

(** A recursion that moves to a strictly lower level at each step, inside
    a table of [fuel] rows at most, has run out after [fuel] steps. *)
Lemma closure_stable (fuel : nat) (frontier : list rev_row) (m : Z) :
  (forall x, In x frontier -> In x t /\ w x = m) ->
  (List.length (filter (fun x => (w x <? m)%Z) t) <= fuel)%nat ->
  closure (S fuel) step frontier = closure fuel step frontier.
Proof.
  revert frontier m. induction fuel as [|fuel IH]; intros frontier m Hf Hc.
  - simpl. destruct (flat_map step frontier) as [|b l] eqn:E;
      [now rewrite app_nil_r|].
    exfalso.
    assert (In b (flat_map step frontier)) as Hb by (rewrite E; now left).
    apply in_flat_map in Hb as [a [Ha Hb]]. destruct (Hf a Ha) as [Hat Hwa].
    destruct (step_in a b Hat Hb) as [Hbt Hwb].
    assert (In b (filter (fun x => (w x <? m)%Z) t)) as Hin
      by (apply filter_In; split; [exact Hbt|apply Z.ltb_lt; lia]).
    destruct (filter (fun x => (w x <? m)%Z) t); [destruct Hin|simpl in Hc; lia].
  - change (closure (S (S fuel)) step frontier)
      with (frontier ++ closure (S fuel) step (flat_map step frontier))%list.
    change (closure (S fuel) step frontier)
      with (frontier ++ closure fuel step (flat_map step frontier))%list.
    f_equal.
    destruct (flat_map step frontier) as [|b l] eqn:E;
      [now rewrite !closure_nil|].
    rewrite <- E. apply (IH _ (m - 1)).
    + intros x Hx. apply in_flat_map in Hx as [a [Ha Hx]].
      destruct (Hf a Ha) as [Hat Hwa].
      destruct (step_in a x Hat Hx) as [Hxt Hwx]. split; [exact Hxt|lia].
    + assert (In b (flat_map step frontier)) as Hb by (rewrite E; now left).
      apply in_flat_map in Hb as [a [Ha Hb]]. destruct (Hf a Ha) as [Hat Hwa].
      destruct (step_in a b Hat Hb) as [Hbt Hwb].
      pose proof (filter_length_lt (fun x => (w x <? m - 1)%Z) (fun x => (w x <? m)%Z)
                    b t) as Hlt.
      cbv beta in Hlt.
      assert (List.length (filter (fun x => (w x <? m - 1)%Z) t)
              < List.length (filter (fun x => (w x <? m)%Z) t))%nat as H'.
      { apply Hlt.
        - intros x Hx. apply Z.ltb_lt in Hx. apply Z.ltb_lt. lia.
        - exact Hbt.
        - apply Z.ltb_ge. lia.
        - apply Z.ltb_lt. lia. }
      lia.
Qed.
End Stable.

Lemma closure_ext (P : rev_row -> Prop) (f g : rev_row -> list rev_row) :
  (forall a, P a -> f a = g a) ->
  (forall a b, P a -> In b (g a) -> P b) ->
  forall (fuel : nat) (frontier : list rev_row),
    (forall a, In a frontier -> P a) ->
    closure fuel f frontier = closure fuel g frontier.
Proof.
  intros Hfg Hstep. induction fuel as [|fuel IH]; intros frontier Hf;
    [reflexivity|]. simpl. f_equal.
  assert (flat_map f frontier = flat_map g frontier) as ->.
  { clear IH. induction frontier as [|a l IHl]; [reflexivity|]. simpl.
    rewrite (Hfg a (Hf a (or_introl eq_refl))). f_equal. apply IHl.
    intros x Hx. apply Hf. now right. }
  apply IH. intros b Hb. apply in_flat_map in Hb as [a [Ha Hb]].
  apply (Hstep a b); auto.
Qed.

Lemma parent_of_rev (s : store) (a p : rev_row) :
  well_formed s -> In a (revs s) -> parent_of a p = true ->
  r_rev p = r_rev a - 1.
Proof.
  intros Hwf Ha Hp. unfold parent_of in Hp.
  destruct (wf_tree_shaped s Hwf a Ha) as [[H1 H2]|[h [H1 [H2 _]]]].
  - rewrite H1 in Hp. discriminate Hp.
  - rewrite H1, H2 in Hp. now apply rev_key_is_iff in Hp.
Qed.

Lemma ancestors_stable (s : store) (i : string) (r : revision) (k : nat) :
  well_formed s ->
  closure (List.length (revs s) + k)
          (fun a => filter (fun p => parent_of a p) (revs s))
          (filter (rev_key_is i (rev r) (rid r)) (revs s))
  = closure (List.length (revs s))
            (fun a => filter (fun p => parent_of a p) (revs s))
            (filter (rev_key_is i (rev r) (rid r)) (revs s)).
Proof.
  intros Hwf. induction k as [|k IH]; [now rewrite Nat.add_0_r|].
  rewrite Nat.add_succ_r, <- IH.
  apply (closure_stable (revs s) _ r_rev) with (m := rev r).
  - intros a b Ha Hb. apply filter_In in Hb as [Hb Hp]. split; [exact Hb|].
    exact (parent_of_rev s a b Hwf Ha Hp).
  - intros x Hx. apply filter_In in Hx as [Hx Hk].
    apply rev_key_is_iff in Hk. tauto.
  - pose proof (filter_length_le (fun x => r_rev x <? rev r) (revs s)). lia.
Qed.

Lemma descendants_stable (s : store) (i : string) (r : revision) (k : nat) :
  well_formed s ->
  closure (List.length (revs s) + k)
          (fun d => filter (fun c => parent_of c d) (revs s))
          (filter (rev_key_is i (rev r) (rid r)) (revs s))
  = closure (List.length (revs s))
            (fun d => filter (fun c => parent_of c d) (revs s))
            (filter (rev_key_is i (rev r) (rid r)) (revs s)).
Proof.
  intros Hwf. induction k as [|k IH]; [now rewrite Nat.add_0_r|].
  rewrite Nat.add_succ_r, <- IH.
  apply (closure_stable (revs s) _ (fun x => - r_rev x)) with (m := - rev r).
  - intros a b Ha Hb. apply filter_In in Hb as [Hb Hp]. split; [exact Hb|].
    pose proof (parent_of_rev s b a Hwf Hb Hp). lia.
  - intros x Hx. apply filter_In in Hx as [Hx Hk].
    apply rev_key_is_iff in Hk. split; [exact Hx|]. lia.
  - pose proof (filter_length_le (fun x => - r_rev x <? - rev r) (revs s)). lia.
Qed.

(** ** Reading one document after a write to another *)

Lemma flat_map_ext_In {A B : Type} (f g : A -> list B) (l : list A) :
  (forall a, In a l -> f a = g a) -> flat_map f l = flat_map g l.
Proof.
  induction l as [|a l IH]; intros H; [reflexivity|]. simpl.
  rewrite (H a (or_introl eq_refl)). f_equal. apply IH.
  intros x Hx. apply H. now right.
Qed.

Lemma existsb_none {A : Type} (f : A -> bool) (l : list A) :
  (forall x, In x l -> f x = false) -> existsb f l = false.
Proof.
  induction l as [|a l IH]; intros H; [reflexivity|]. simpl.
  rewrite (H a (or_introl eq_refl)). apply IH. intros x Hx. apply H. now right.
Qed.

Section Frame.
Variables s s' : store.
Variables docID j : string.
Hypothesis Hwf : well_formed s.
Hypothesis Happ : appends s s' docID.
Hypothesis Hj : j <> docID.

Lemma frame_docs_filter (f : doc_row -> bool) :
  (forall d, f d = true -> d_id d = j) ->
  filter f (docs s') = filter f (docs s).
Proof.
  intros Hf. destruct Happ as [l1 [l2 [_ [Hd [_ [_ H2]]]]]].
  rewrite Hd, filter_app, (filter_none f l2), app_nil_r; [reflexivity|].
  intros d Hd'. destruct (f d) eqn:E; [|reflexivity].
  destruct (H2 d Hd') as [Hid _]. apply Hf in E. congruence.
Qed.

Lemma frame_revs_filter (f : rev_row -> bool) :
  (forall x, f x = true -> r_id x = j) ->
  filter f (revs s') = filter f (revs s).
Proof.
  intros Hf. destruct Happ as [l1 [l2 [Hr [_ [_ [H1 _]]]]]].
  rewrite Hr, filter_app, (filter_none f l1), app_nil_r; [reflexivity|].
  intros x Hx. destruct (f x) eqn:E; [|reflexivity].
  pose proof (H1 x Hx). apply Hf in E. congruence.
Qed.

Lemma frame_select_current :
  select_current (docs s') j = select_current (docs s) j.
Proof.
  unfold select_current. rewrite frame_docs_filter; [reflexivity|].
  intros d Hd. now apply String.eqb_eq.
Qed.

Lemma frame_select_by_key (n : Z) (h : string) :
  filter (doc_key_is j n h) (docs s') = filter (doc_key_is j n h) (docs s).
Proof.
  apply frame_docs_filter. intros d Hd. apply doc_key_is_iff in Hd.
  now injection Hd.
Qed.

Lemma frame_conflicts (r : revision) (del : bool) :
  conflicts s' j r del = conflicts s j r del.
Proof.
  unfold conflicts.
  destruct Happ as [l1 [l2 [Hr [Hd [_ [H1 H2]]]]]].
  match goal with
  | |- flat_map ?F (revs s') = _ => rewrite (f_equal (flat_map F) Hr)
  end.
  rewrite flat_map_app, (flat_map_nil _ l1), app_nil_r.
  - apply flat_map_ext_In. intros rv Hrv.
    destruct (String.eqb_spec (r_id rv) j) as [Ei|Ei]; [|reflexivity].
    cbn [andb].
    assert (existsb (fun child => parent_of child rv) (revs s')
            = existsb (fun child => parent_of child rv) (revs s)) as ->.
    { rewrite Hr, existsb_app, (existsb_none _ l1), orb_false_r;
        [reflexivity|].
      intros c Hc. destruct (parent_of c rv) eqn:E; [|reflexivity].
      apply parent_of_same_id in E. pose proof (H1 c Hc). congruence. }
    rewrite frame_docs_filter; [reflexivity|].
    intros d Hk. apply andb_true_iff in Hk as [Hk _].
    apply doc_key_is_iff in Hk. injection Hk as Hi _ _. congruence.
  - intros rv Hrv. pose proof (H1 rv Hrv) as Hid.
    destruct (String.eqb_spec (r_id rv) j) as [Ei|Ei]; [congruence|].
    reflexivity.
Qed.

Lemma frame_revs_info_nodes (r : revision) :
  revs_info_nodes s' j r = revs_info_nodes s j r.
Proof.
  unfold revs_info_nodes.
  rewrite (frame_revs_filter (rev_key_is j (rev r) (rid r)))
    by (intros x Hx; apply rev_key_is_iff in Hx; tauto).
  destruct Happ as [l1 [l2 [Hr [_ [_ [H1 _]]]]]].
  rewrite Hr, length_app.
  assert (forall a, In a (filter (rev_key_is j (rev r) (rid r)) (revs s)) ->
            In a (revs s) /\ r_id a = j) as Hstart.
  { intros a Ha. apply filter_In in Ha as [Ha Hk].
    apply rev_key_is_iff in Hk. tauto. }
  rewrite (closure_ext (fun a => In a (revs s) /\ r_id a = j)
             (fun a => filter (fun p => parent_of a p) (revs s ++ l1))
             (fun a => filter (fun p => parent_of a p) (revs s))), 
    (ancestors_stable s j r _ Hwf); auto.
  rewrite (closure_ext (fun a => In a (revs s) /\ r_id a = j)
             (fun d => filter (fun c => parent_of c d) (revs s ++ l1))
             (fun d => filter (fun c => parent_of c d) (revs s))), 
    (descendants_stable s j r _ Hwf); auto.
  - intros a [Ha Hi]. rewrite filter_app, (filter_none _ l1), app_nil_r;
      [reflexivity|].
    intros c Hc. destruct (parent_of c a) eqn:E; [|reflexivity].
    apply parent_of_same_id in E. pose proof (H1 c Hc). congruence.
  - intros a b [Ha Hi] Hb. apply filter_In in Hb as [Hb Hp].
    apply parent_of_same_id in Hp. split; [exact Hb|congruence].
  - intros a [Ha Hi]. rewrite filter_app, (filter_none _ l1), app_nil_r;
      [reflexivity|].
    intros p Hp. destruct (parent_of a p) eqn:E; [|reflexivity].
    apply parent_of_same_id in E. pose proof (H1 p Hp). congruence.
  - intros a b [Ha Hi] Hb. apply filter_In in Hb as [Hb Hp].
    apply parent_of_same_id in Hp. split; [exact Hb|congruence].
Qed.

Lemma frame_revs_info (r : revision) : revs_info s' j r = revs_info s j r.
Proof.
  rewrite !revs_info_unfold, frame_revs_info_nodes.
  apply flat_map_ext_In. intros [[ki kn] kh] Hk.
  apply revs_info_nodes_In in Hk as [rv [_ [Hi Hk]]].
  injection Hk as -> _ _. unfold revs_info_status.
  rewrite frame_docs_filter; [reflexivity|].
  intros d Hd. apply doc_key_is_iff in Hd. injection Hd as Hd _ _.
  congruence.
Qed.

Lemma Get_frame (options : Options) : Get s' j options = Get s j options.
Proof.
  unfold Get. destruct (negb (opt_rev options =? "")%string).
  - destruct (parseRev (opt_rev options)) as [r|e]; [|reflexivity].
    rewrite frame_select_by_key.
    destruct (hd_error (filter (doc_key_is j (rev r) (rid r)) (docs s)));
      [|reflexivity].
    cbn [option_map]. cbv beta iota zeta.
    now rewrite !frame_conflicts, frame_revs_info.
  - rewrite frame_select_current.
    destruct (select_current (docs s) j) as [d|]; [|reflexivity].
    cbv beta iota zeta. destruct (d_deleted d); [reflexivity|].
    now rewrite !frame_conflicts, frame_revs_info.
Qed.
End Frame.

(** X27: a write to one document leaves every other document as it
    was.  In every store that Put and Delete produce from an empty
    database, whatever a Put or a Delete of one document returns, Get of
    any other document returns afterwards exactly what it returned
    before, under every option: revision, body, _conflicts,
    _deleted_conflicts and _revs_info. *)
Theorem writes_leave_other_documents (s : store) (docID j : string)
    (doc : Doc) (options o : Options) :
  reachable s -> j <> docID ->
  Get (snd (Put s docID doc options)) j o = Get s j o
  /\ Get (snd (Delete s docID options)) j o = Get s j o.
Proof.
  intros R Hj. pose proof (reachable_well_formed s R) as Hwf.
  split.
  - exact (Get_frame s _ docID j Hwf (Put_appends s docID doc options) Hj o).
  - exact (Get_frame s _ docID j Hwf (Delete_appends s docID options) Hj o).
Qed.

Lemma writes_leave_other_documents_witness :
  reachable one_doc
  /\ "foo" <> "bar"
  /\ Get (snd (Put one_doc "bar" (plain "" (member "x" "y")) NilOption))
         "foo" NilOption
     = Get one_doc "foo" NilOption
  /\ Get (snd (Delete one_doc "bar" NilOption)) "foo" NilOption
     = Get one_doc "foo" NilOption.
Proof.
  assert ("foo" <> "bar") as Hj by discriminate.
  exact (conj one_doc_reachable (conj Hj
           (writes_leave_other_documents one_doc "bar" "foo"
              (plain "" (member "x" "y")) NilOption NilOption
              one_doc_reachable Hj))).
Defined.

(** ** A write in the changes feed *)




(** ** The current revision after a replication write *)

Lemma select_current_app_lower (t : list doc_row) (i : string)
    (w w0 : doc_row) :
  NoDup (map doc_key t) ->
  select_current t i = Some w0 -> d_id w = i ->
  rev_compare (d_rev w) (d_rev_id w) (d_rev w0) (d_rev_id w0) = Lt ->
  select_current (t ++ [w]) i = Some w0.
Proof.
  intros Hnd H0 Hi Hlt.
  destruct (select_current_spec _ _ _ H0) as [Hin0 [Hid0 Hmax0]].
  assert (In w (t ++ [w])) as Hw by (apply in_or_app; right; now left).
  destruct (select_current_some _ _ _ Hw Hi) as [w' Hsel]. rewrite Hsel.
  destruct (select_current_spec _ _ _ Hsel) as [Hin [Hid Hmax]].
  assert (In w0 (t ++ [w])) as Hw0 by (apply in_or_app; now left).
  pose proof (Hmax w0 Hw0 Hid0) as H1.
  apply in_app_or in Hin as [Hin|[<-|[]]].
  - pose proof (Hmax0 w' Hin Hid) as H2.
    rewrite rev_compare_antisym in H1.
    destruct (rev_compare (d_rev w') (d_rev_id w') (d_rev w0) (d_rev_id w0))
      eqn:E; try (now elim H1); try (now elim H2).
    apply rev_compare_eq in E as [En Eh]. f_equal.
    apply (NoDup_map_inj doc_key t w' w0 Hnd Hin Hin0).
    unfold doc_key. congruence.
  - rewrite rev_compare_antisym, Hlt in H1. now elim H1.
Qed.

Lemma select_current_app_higher (t : list doc_row) (i : string)
    (w w0 : doc_row) :
  select_current t i = Some w0 -> d_id w = i ->
  rev_compare (d_rev w) (d_rev_id w) (d_rev w0) (d_rev_id w0) = Gt ->
  select_current (t ++ [w]) i = Some w.
Proof.
  intros H0 Hi Hgt.
  destruct (select_current_spec _ _ _ H0) as [Hin0 [Hid0 Hmax0]].
  assert (In w (t ++ [w])) as Hw by (apply in_or_app; right; now left).
  destruct (select_current_some _ _ _ Hw Hi) as [w' Hsel]. rewrite Hsel.
  destruct (select_current_spec _ _ _ Hsel) as [Hin [Hid Hmax]].
  apply in_app_or in Hin as [Hin|[<-|[]]]; [|reflexivity].
  exfalso. apply (Hmax w Hw Hi).
  pose proof (Hmax0 w' Hin Hid) as H2.
  assert (rev_compare (d_rev w0) (d_rev_id w0) (d_rev w) (d_rev_id w) = Lt)
    as Hlt by (rewrite rev_compare_antisym, Hgt; reflexivity).
  destruct (rev_compare (d_rev w') (d_rev_id w') (d_rev w0) (d_rev_id w0))
    eqn:E; try (now elim H2).
  - apply rev_compare_eq in E as [En Eh]. now rewrite En, Eh.
  - rewrite rev_compare_antisym.
    now rewrite (rev_compare_lt_trans _ _ _ _ _ _ E Hlt).
Qed.

(** X29: the highest revision wins, also after replication.  In a store
    with unique body keys, let a Put with new_edits=false store a
    revision that had no body row, of a document whose current revision
    is w0.  If the new revision is lower than w0 in the order of (rev,
    rev_id), Get without options returns what it returned before; if it
    is higher, Get returns the document just written, or NotFound when it
    was written with _deleted set. *)
Theorem Put_replication_winner (s s' : store) (docID : string) (doc : Doc)
    (options : Options) (rv : string) (r : revision) (w0 : doc_row) :
  body_keys_unique s ->
  opt_new_edits options = false ->
  Put s docID doc options = (Ok rv, s') ->
  parseRev rv = Ok r ->
  (forall d, In d (docs s) -> doc_key d <> (docID, rev r, rid r)) ->
  select_current (docs s) docID = Some w0 ->
  (rev_compare (rev r) (rid r) (d_rev w0) (d_rev_id w0) = Lt ->
   Get s' docID NilOption = Get s docID NilOption)
  /\ (rev_compare (rev r) (rid r) (d_rev w0) (d_rev_id w0) = Gt ->
      Get s' docID NilOption
      = if doc_deleted doc then Err NotFound
        else Ok (mkDocument rv (doc_members doc) None None None)).
Proof.
  intros Huniq Hne HP Hparse Hnew H0.
  assert (((opt_rev options = "" \/ doc_rev doc = ""
            \/ opt_rev options = doc_rev doc)
           /\ (doc_id doc = "" \/ doc_id doc = docID))
          \/ ~ ((opt_rev options = "" \/ doc_rev doc = ""
                 \/ opt_rev options = doc_rev doc)
                /\ (doc_id doc = "" \/ doc_id doc = docID))) as [[Hrev Hid]|Hbad].
  { destruct (String.eqb_spec (opt_rev options) "");
      destruct (String.eqb_spec (doc_rev doc) "");
      destruct (String.eqb_spec (opt_rev options) (doc_rev doc));
      destruct (String.eqb_spec (doc_id doc) "");
      destruct (String.eqb_spec (doc_id doc) docID); tauto. }
  2:{ destruct (Put_invalid s docID doc options Hbad) as [H|H];
        rewrite H in HP; discriminate HP. }
  rewrite (Put_replication_unfold s docID doc options Hne Hrev Hid) in HP.
  destruct (effective_rev doc options =? "")%string; [discriminate HP|].
  destruct (parseRev (effective_rev doc options)) as [r'|e'] eqn:Hp;
    [|discriminate HP].
  destruct (parseRev_ok _ _ Hp) as [Hpos [Hs Hstr]].
  assert (rv = effective_rev doc options) as Hrv.
  { destruct (existsb (doc_key_is docID (rev r') (rid r')) (docs s));
      injection HP as <- _; [reflexivity|exact Hs]. }
  rewrite <- Hrv, Hparse in Hp. injection Hp as <-.
  assert (existsb (doc_key_is docID (rev r) (rid r)) (docs s) = false) as Hfresh.
  { apply existsb_none. intros d Hd.
    destruct (doc_key_is docID (rev r) (rid r) d) eqn:E; [|reflexivity].
    apply doc_key_is_iff in E. now elim (Hnew d Hd). }
  rewrite Hfresh in HP. injection HP as _ <-.
  unfold Get, NilOption.
  cbn [opt_rev opt_meta opt_conflicts opt_deleted_conflicts opt_revs_info orb
       docs].
  change (negb ("" =? "")%string) with false. cbv iota.
  split; intros Hcmp.
  - rewrite (select_current_app_lower (docs s) docID
               (mkDocRow (next_seq (docs s)) docID (rev r) (rid r)
                         (doc_members doc) (doc_deleted doc))
               w0 Huniq H0 eq_refl Hcmp).
    now rewrite H0.
  - rewrite (select_current_app_higher (docs s) docID
               (mkDocRow (next_seq (docs s)) docID (rev r) (rid r)
                         (doc_members doc) (doc_deleted doc))
               w0 H0 eq_refl Hcmp).
    cbn [d_rev d_rev_id d_doc d_deleted]. destruct (doc_deleted doc);
      [reflexivity|].
    assert (revision_String (mkRevision (rev r) (rid r)) = rv) as ->
      by (destruct r; cbn [rev rid] in *; congruence).
    reflexivity.
Qed.

Lemma Put_replication_winner_witness :
  body_keys_unique one_doc
  /\ opt_new_edits (NewEdits false) = false
  /\ Put one_doc "foo" (plain "2-zzz" (member "foo" "baz")) (NewEdits false)
     = (Ok "2-zzz",
        mkStore
          [mkRevRow "foo" 1 "9bb58f26192e4ba00f01e2e7b136bbd8" None None;
           mkRevRow "foo" 2 "zzz" None None]
          [mkDocRow 1 "foo" 1 "9bb58f26192e4ba00f01e2e7b136bbd8"
                    (member "foo" "bar") false;
           mkDocRow 2 "foo" 2 "zzz" (member "foo" "baz") false])
  /\ parseRev "2-zzz" = Ok (mkRevision 2 "zzz")
  /\ (forall d, In d (docs one_doc) -> doc_key d <> ("foo", 2, "zzz"))
  /\ select_current (docs one_doc) "foo"
     = Some (mkDocRow 1 "foo" 1 "9bb58f26192e4ba00f01e2e7b136bbd8"
                      (member "foo" "bar") false)
  /\ (rev_compare 2 "zzz" 1 "9bb58f26192e4ba00f01e2e7b136bbd8" = Gt ->
      Get (mkStore
             [mkRevRow "foo" 1 "9bb58f26192e4ba00f01e2e7b136bbd8" None None;
              mkRevRow "foo" 2 "zzz" None None]
             [mkDocRow 1 "foo" 1 "9bb58f26192e4ba00f01e2e7b136bbd8"
                       (member "foo" "bar") false;
              mkDocRow 2 "foo" 2 "zzz" (member "foo" "baz") false])
          "foo" NilOption
      = if doc_deleted (plain "2-zzz" (member "foo" "baz")) then Err NotFound
        else Ok (mkDocument "2-zzz"
                   (doc_members (plain "2-zzz" (member "foo" "baz")))
                   None None None)).
Proof.
  assert (body_keys_unique one_doc) as Hu
    by (exact (wf_body_keys_unique _
                 (reachable_well_formed _ one_doc_reachable))).
  assert (Put one_doc "foo" (plain "2-zzz" (member "foo" "baz"))
              (NewEdits false)
          = (Ok "2-zzz",
             mkStore
               [mkRevRow "foo" 1 "9bb58f26192e4ba00f01e2e7b136bbd8" None None;
                mkRevRow "foo" 2 "zzz" None None]
               [mkDocRow 1 "foo" 1 "9bb58f26192e4ba00f01e2e7b136bbd8"
                         (member "foo" "bar") false;
                mkDocRow 2 "foo" 2 "zzz" (member "foo" "baz") false])) as HP
    by (vm_compute; reflexivity).
  assert (parseRev "2-zzz" = Ok (mkRevision 2 "zzz")) as Hp by reflexivity.
  assert (docs one_doc
          = [mkDocRow 1 "foo" 1 "9bb58f26192e4ba00f01e2e7b136bbd8"
                      (member "foo" "bar") false]) as Hdocs
    by (vm_compute; reflexivity).
  assert (forall d, In d (docs one_doc) -> doc_key d <> ("foo", 2, "zzz"))
    as Hnew.
  { rewrite Hdocs. intros d [<-|[]]. discriminate. }
  assert (select_current (docs one_doc) "foo"
          = Some (mkDocRow 1 "foo" 1 "9bb58f26192e4ba00f01e2e7b136bbd8"
                           (member "foo" "bar") false)) as H0
    by (vm_compute; reflexivity).
  split; [exact Hu|]. split; [reflexivity|]. split; [exact HP|].
  split; [exact Hp|]. split; [exact Hnew|]. split; [exact H0|].
  exact (proj2 (Put_replication_winner _ _ _ _ (NewEdits false) _ _ _
                  Hu eq_refl HP Hp Hnew H0)).
Defined.

(** ** Sequence numbers without gaps *)










(** ** When CreateDB succeeds *)

Lemma prefix_empty (s : string) : prefix "" s = true.
Proof. now destruct s. Qed.

Lemma prefix_app (p a b : string) :
  prefix p a = true -> prefix p (a ++ b) = true.
Proof.
  revert a. induction p as [|c p IH]; intros a H; [apply prefix_empty|].
  destruct a as [|d a]; [discriminate H|].
  cbn [append]. rewrite prefix_cons in *. apply andb_true_iff in H as [H1 H2].
  now rewrite H1, (IH a H2).
Qed.

Lemma reserved_app (n x : string) :
  reserved (n ++ x) = false -> reserved n = false.
Proof.
  unfold reserved. rewrite lower_app. intros H.
  destruct (prefix "sqlite_" (lower n)) eqn:E; [|reflexivity].
  now rewrite (prefix_app _ _ (lower x) E) in H.
Qed.

Lemma reserved_suffix (n x y : string) :
  reserved (n ++ String "_" x) = reserved (n ++ String "_" y).
Proof.
  unfold reserved. rewrite !lower_app. cbn [lower].
  generalize (lower n). intros a.
  change (lower_ascii "_") with "_"%char.
  do 7 (destruct a as [|? a]; cbn [append];
        [rewrite ?prefix_cons, ?prefix_empty;
         cbn [Ascii.eqb Bool.eqb andb]; rewrite ?andb_false_r; reflexivity|]).
  now rewrite !prefix_cons, !prefix_empty.
Qed.

Lemma same_name_sym (a b : string) : same_name a b = same_name b a.
Proof. apply String.eqb_sym. Qed.

Lemma same_name_autoindex (x m : string) :
  reserved m = false -> same_name ("sqlite_autoindex_" ++ x) m = false.
Proof.
  unfold reserved, same_name. intros H. apply String.eqb_neq. intros E.
  rewrite <- E, lower_app in H.
  rewrite (prefix_app "sqlite_" (lower "sqlite_autoindex_") (lower x)) in H;
    [discriminate H|reflexivity].
Qed.

Lemma append_inj (a b c : string) : (a ++ b)%string = (a ++ c)%string -> b = c.
Proof.
  induction a as [|x a IH]; simpl; intros E; [exact E|].
  injection E as E. now apply IH.
Qed.

Ltac lower_literals :=
  repeat match goal with
         | |- context [lower (String ?a ?b)] =>
             let x := eval vm_compute in (lower (String a b)) in
             change (lower (String a b)) with x
         end.

Lemma same_name_revs_attachments (n : string) :
  same_name (n ++ "_revs") (n ++ "_attachments") = false.
Proof.
  unfold same_name. rewrite !lower_app. lower_literals.
  apply String.eqb_neq. intros E. apply append_inj in E. discriminate E.
Qed.

Lemma same_name_revs_idx_parent (n : string) :
  same_name (n ++ "_revs") "idx_parent" = false.
Proof.
  unfold same_name. rewrite lower_app. lower_literals.
  generalize (lower n). intros a. apply String.eqb_neq. intros E.
  do 11 (destruct a as [|? a]; cbn [append] in E; [discriminate E|]).
  discriminate E.
Qed.

Lemma same_name_attachments_idx_parent (n : string) :
  same_name (n ++ "_attachments") "idx_parent" = false.
Proof.
  unfold same_name. rewrite lower_app. lower_literals.
  generalize (lower n). intros a. apply String.eqb_neq. intros E.
  do 11 (destruct a as [|? a]; cbn [append] in E; [discriminate E|]).
  discriminate E.
Qed.

Lemma create_index_ok_table (c c' : client) (i t : string) :
  create_index c i t = Ok c' ->
  existsb (named index i) c = false /\ existsb (named table i) c = false.
Proof.
  unfold create_index. destruct (negb (existsb (named table t) c));
    [discriminate|].
  destruct (reserved i); [discriminate|].
  destruct (existsb (named index i) c); [discriminate|].
  destruct (existsb (named table i) c); [discriminate|]. auto.
Qed.

Lemma existsb_app_false {A : Type} (f : A -> bool) (l l' : list A) :
  existsb f (l ++ l') = false -> existsb f l = false /\ existsb f l' = false.
Proof. rewrite existsb_app. apply orb_false_iff. Qed.

(** X18: when CreateDB succeeds.  For a name that passes the validation,
    CreateDB succeeds exactly when the name with _revs appended does not
    begin with sqlite_, the name is not idx_parent, and the file holds
    neither a table nor an index under any of the four names the schema
    uses: name_revs, idx_parent, name and name_attachments.  So the
    names sqlite and idx_parent, which the validation accepts, can never
    be created. *)
Theorem CreateDB_succeeds_iff (c : client) (n : string) :
  validDBNameRE n = true ->
  (fst (CreateDB c n) = Ok tt
   <-> reserved (n ++ "_revs") = false
       /\ n <> "idx_parent"
       /\ forall m,
            In m [(n ++ "_revs")%string; "idx_parent"; n;
                  (n ++ "_attachments")%string] ->
            existsb (named table m) c = false
            /\ existsb (named index m) c = false).
Proof.
  intros Hvalid. destruct (valid_name_lower n Hvalid) as [Hlow _].
  unfold CreateDB. rewrite Hvalid. cbn [negb].
  unfold schema, run_schema, exec. split.
  - destruct (create_table c (n ++ "_revs")) as [c1|e] eqn:E1;
      [|destruct (errIsAlreadyExists e); discriminate].
    destruct (create_index c1 "idx_parent" (n ++ "_revs")) as [c2|e] eqn:E2;
      [|destruct (errIsAlreadyExists e); discriminate].
    destruct (create_table c2 n) as [c3|e] eqn:E3;
      [|destruct (errIsAlreadyExists e); discriminate].
    destruct (create_table c3 (n ++ "_attachments")) as [c4|e] eqn:E4;
      [|destruct (errIsAlreadyExists e); discriminate].
    intros _.
    apply create_table_ok in E1 as [R1 [T1 [I1 ->]]].
    pose proof (create_index_ok_table _ _ _ _ E2) as [I2 T2].
    apply create_index_ok in E2 as [_ ->].
    apply create_table_ok in E3 as [R3 [T3 [I3 ->]]].
    apply create_table_ok in E4 as [R4 [T4 [I4 _]]].
    apply existsb_app_false in I2 as [I2 _].
    apply existsb_app_false in T2 as [T2 _].
    apply existsb_app_false in T3 as [T3 _].
    apply existsb_app_false in T3 as [T3 _].
    apply existsb_app_false in I3 as [I3 I3'].
    apply existsb_app_false in I3 as [I3 _].
    apply existsb_app_false in T4 as [T4 _].
    apply existsb_app_false in T4 as [T4 _].
    apply existsb_app_false in T4 as [T4 _].
    apply existsb_app_false in I4 as [I4 _].
    apply existsb_app_false in I4 as [I4 _].
    apply existsb_app_false in I4 as [I4 _].
    split; [exact R1|]. split.
    + intros ->. cbn [existsb named type name] in I3'.
      rewrite same_name_refl in I3'. discriminate I3'.
    + intros m [<-|[<-|[<-|[<-|[]]]]]; auto.
  - intros [R1 [Hn H]].
    destruct (H (n ++ "_revs")%string (or_introl eq_refl)) as [T1 I1].
    destruct (H "idx_parent" (or_intror (or_introl eq_refl))) as [T2 I2].
    destruct (H n (or_intror (or_intror (or_introl eq_refl)))) as [T3 I3].
    destruct (H (n ++ "_attachments")%string
                (or_intror (or_intror (or_intror (or_introl eq_refl)))))
      as [T4 I4].
    pose proof (reserved_app n "_revs" R1) as R3.
    assert (reserved (n ++ "_attachments") = false) as R4
      by (rewrite (reserved_suffix n "attachments" "revs"); exact R1).
    assert (same_name "idx_parent" n = false) as Hidx.
    { unfold same_name. rewrite Hlow. apply String.eqb_neq.
      intros E. apply Hn. now symmetry. }
    unfold create_table at 1. rewrite R1, T1, I1.
    unfold create_index.
    rewrite !existsb_app, T1, T2, I2.
    cbn [existsb named type name orb negb].
    rewrite same_name_refl. cbn [orb negb].
    change (reserved "idx_parent") with false. cbv iota.
    rewrite same_name_autoindex by reflexivity.
    rewrite same_name_revs_idx_parent.
    cbn [orb]. cbv iota.
    unfold create_table at 1. rewrite R3.
    rewrite !existsb_app, T3, I3.
    cbn [existsb named type name orb].
    rewrite same_name_suffix, same_name_autoindex, Hidx by exact R3.
    cbn [orb]. cbv iota.
    unfold create_table. rewrite R4.
    rewrite !existsb_app, T4, I4.
    cbn [existsb named type name orb].
    rewrite same_name_revs_attachments,
      (same_name_sym n (n ++ "_attachments")), same_name_suffix.
    rewrite !same_name_autoindex by exact R4.
    rewrite (same_name_sym "idx_parent"), same_name_attachments_idx_parent.
    reflexivity.
Qed.

Lemma CreateDB_succeeds_iff_witness :
  validDBNameRE "test" = true
  /\ (fst (CreateDB [] "test") = Ok tt
      <-> reserved ("test" ++ "_revs") = false
          /\ "test" <> "idx_parent"
          /\ forall m,
               In m [("test" ++ "_revs")%string; "idx_parent"; "test";
                     ("test" ++ "_attachments")%string] ->
               existsb (named table m) [] = false
               /\ existsb (named index m) [] = false).
Proof.
  exact (conj eq_refl (CreateDB_succeeds_iff [] "test" eq_refl)).
Defined.
